(* ===== verification/_CoqProject ===== *)
-Q . S2P
Prelude.v
JsString.v
Json.v
Utf8.v
Regex.v
Email.v
Binary64.v
JsNumber.v
Date.v
IsoOrder.v
Form.v
Handler.v
ClientForm.v
CandidateForm.v
ClassList.v
Submission.v
Console.v
Menu.v
Page.v
