(* ===== verification/Prelude.v ===== *)
(** * A verification development of the LMGD Logistics page script

    The repository is a static marketing site whose only program is
    [src/assets/js/main.js], an immediately invoked function that wires
    the page once it loads.  This development models that script and the
    parts of the JavaScript and DOM semantics it depends on, and proves
    what makes it correct.  All line numbers below are of main.js.

    ** The program and how its parts interact

    - [byId] (line 18) looks elements up; every other part is only wired
      when its elements exist (lines 22, 29, 44, 129).
    - The footer year (lines 21-24) writes [new Date().getFullYear()],
      the year of the current time in local time.
    - The mobile menu (lines 27-39): the button toggles the class [hidden]
      of the menu, every link of the menu adds it.
    - The client form handler (lines 42-124): builds a [FormData], checks
      six required fields ([String(x || '').trim()] non-empty), the e-mail
      against [/^[^\s@]+@[^\s@]+\.[^\s@]+$/] and the resource count with
      [Number(..)], [Number.isFinite] and [< 1], each failure ending in an
      [alert] and an early [return]; then builds the record (its
      timestamp is [new Date().toISOString()]), disables the submit
      button, sends one XMLHttpRequest with [JSON.stringify] of the record
      as its body and, in [onload] or
      [onerror], shows the outcome and restores the button.
    - The candidate form handler (lines 127-189): same protocol; only the
      e-mail is checked, and only when it is non-empty.
    The two handlers share the request/response protocol and differ in
    their checks, record and endpoint: the development states that protocol
    once ([Submission]) against an interface ([Handler.FormSpec]) that the
    two forms implement ([Client.client_form], [Candidate.candidate_form]).

    ** Files, in dependency order

    - [Prelude] (this file): JavaScript strings as lists of UTF-16 code
      units ([list N]), the ECMAScript white-space set [is_js_space], the
      [result] type of early returns, the [js] scope, the [js] and [js_rw]
      hint databases, shared list lemmas.
    - [JsString]: [String.prototype.trim] and [String(v || '')]; C3 (the
      characterisation of [trim]).
    - [Json]: [JSON.stringify] of the records (lines 122, 187):
      QuoteJSONString with its escape table and lone-surrogate escapes,
      SerializeJSONObject; [json_parse], [JSON.parse] on objects of strings
      and [null], for the round trip; C19 (the text is well-formed UTF-16
      without control units).
    - [Utf8]: the body on the wire: [xhr.send] converts the text to a
      USVString and encodes it with the UTF-8 encoder of the Encoding
      Standard; the Standard's UTF-8 decoder and UTF16EncodeCodePoint give
      the receiver's view; C27 (the bytes of a JSON body decode to the
      text).
    - [Regex]: the ECMAScript regular-expression fragment the script uses:
      syntax, CharacterSetMatcher, RepeatMatcher with its empty check,
      MatchSequence, the RegExpBuiltinExec scan behind [test]; a
      declarative semantics [matches]/[repeats]; C1 (the matcher is sound
      and complete).
    - [Email]: the e-mail pattern (lines 61, 136) and C2 (it accepts exactly
      [a@b.c] with parts free of white space and [@]).
    - [Binary64]: the binary64 format on [SpecFloat] and what rounding
      does to a positive integer: exact below [2^53], finite below
      [2^1024 - 2^970], [+Infinity] from there on.
    - [JsNumber]: [Number(v)] (line 67) as StringToNumber with binary64
      rounding on the Standard Library's [SpecFloat], [Number.isFinite],
      [<], and the resource check (line 68); C4 (a decimal integer [n]
      passes exactly when [1 <= n < 2^1024 - 2^970]), C5 (literals with
      [-] fail), C34
      (a literal denoting an integer [n], such as ["1e3"] or ["0x10"],
      passes exactly when [1 <= n < 2^1024 - 2^970]).
    - [Date]: time values and the ECMA-262 date functions behind
      [getFullYear()] (line 23) and [toISOString()] (lines 75, 143):
      DayFromYear, YearFromTime (an estimate and a bounded correction
      loop), MonthFromTime, DateFromTime, the time fields, LocalTime, the
      Date Time String Format with its expanded years, Number::toString
      of the year; [parse_iso] reads the format back; C21-C22.
    - [IsoOrder]: IsLessThan on strings and C35 (for the years 0 to 9999
      the timestamps sort as strings in the order of their times).
    - [Form]: text controls, [new FormData(form)], [formData.get],
      [form.reset()].
    - [Handler]: the alerts, labels, delay and endpoints the handlers share,
      the interface [FormSpec] (checks, endpoint, the JSON object of the
      record) and its law class [FormSpecLaws] (an accepted record built
      from JavaScript strings is an object of JavaScript strings, whose
      [timestamp] member is the handler's timestamp), which
      both forms discharge ([Client.client_form_laws],
      [Candidate.candidate_form_laws]).
    - [ClientForm] (Module [Client]): lines 45-85; C6-C8.
    - [CandidateForm] (Module [Candidate]): lines 130-150; C9-C10.
    - [ClassList] (Module [ClassList]): [classList.add/remove/toggle].
    - [Submission]: the protocol as a step function on the page state of
      one form (controls, button, banner class list, pending requests with
      their captured [originalButtonText] and record, timers, alerts, the
      POSTs with their JSON bodies, console lines, clock); [reachable] is the browser's use, in which
      a disabled button cannot be clicked; C12-C17, C20 and C25, with a
      concrete candidate-form scenario, and in Module [ClientPage] C11 (a blank
      required field blocks the client submission: no request, one alert).
    - [Console]: the console lines of [onload] and [onerror] as an output
      trace, tied to the POSTs by the invariant [trace_ok] (distinct
      request ids, every answered request one line); C31-C33, with two
      overlapping candidate submits in Module [ConsoleDemo].
    - [Menu] (Module [Menu]): lines 27-39; C18 (the class list refines a
      two-state automaton).
    - [Page]: the document as the elements [byId] finds, [init] (footer
      year, menu and form wiring) and [page_step], which dispatches the
      events of the page to the wired parts, a submit taking its timestamp
      from the page clock.  Section [Slot] proves, against [FormSpecLaws],
      what holds of any form the page wired, given how [page_step] acts on
      its slot; C23-C24, C26 and C28-C30, with a concrete page in Module
      [Demo].

    ** The theorems
    C1-C2 (regex and e-mail pattern, equivalence with a language), C3
    (trim), C4-C5 (the resource check), C6-C10 (the checks of each form
    on every branch), C11 (validation precedes dispatch), C12 (the button
    invariant, by induction on reachability), C13-C14 (the outcome of an
    answer or a network error on every branch), C15 (the banner hides 6000
    ms after a success), C16-C17 (what the code does when successes or
    submissions overlap), C18 (menu refinement), C19 (the JSON text is
    well-formed), C20 (the POSTed body parses back to the record), C21
    (YearFromTime is the spec's largest year), C22 (toISOString round
    trip), C23 (a
    client submission's body carries its exact submit time and the e-mail
    as typed), C24 (the footer year of a UTC host is the timestamps'
    year), C25 (every submission completes once its request is answered),
    C26 (every POST of the client form carries a record its checks
    accepted, whatever the events of the page), C27 (the UTF-8 bytes of a
    JSON body decode to exactly its text), C28 (what the client endpoint
    reads from every POST, bytes decoded and parsed, is a record the checks
    accepted), C29 (the same of the candidate endpoint), C30 (a candidate
    submission's body carries its exact submit time), C31 (POSTs are the
    pending requests plus the console lines), C32 (every console line is
    one the code writes for an answer), C33 (the console logs each
    request's own record, in answer order), C34 (the
    resource check on every literal that denotes an integer), C35
    (timestamps sort as their times).  A claim's theorem is used by no
    other proof: each rests on helper lemmas the other proofs share.

    ** Bounds and fuel
    The regex matcher runs RepeatMatcher on fuel [length input + qmin r + 1]
    ([Regex.regex_fuel]): every iteration either lowers the quantifier's
    [min] or consumes a unit, so this is enough, and C1 is stated with that
    fuel.  The scan behind [test] tries the [length + 1] start indices.
    Numbers are binary64 ([prec = 53], [emax = 1024]); an integer from
    [2^1024 - 2^970] on, the midpoint between the largest finite Number
    and [2^1024], rounds to [+Infinity] (C4).  ECMA-262 lets an
    engine truncate literals of more than 20 significant digits before
    rounding, the model rounds the exact value as the engines do.
    [JSON.parse] bounds its member loop by the length of the text, one
    member taking at least one unit; the round trip is proved with that
    fuel.  YearFromTime starts from [1970 + 400 d / 146097], at most one
    year off, and allows two correction steps, so [year_from_time] reaches
    the year whatever the estimate (C21).
    Time values are those of TimeClip, [|t| <= 8.64e15] ms, whose years
    (-271821 to 275760) fit the six digits of the expanded year format.

    ** What is not modelled
    How the host renders a logged object, browser rendering, the network (answers are
    events), time-zone data (the UTC offset is a parameter of [init]),
    the element tree behind [querySelector] and [querySelectorAll] (a
    form's submit button and the menu's anchors are given with the
    element), and the HTML of the forms, which is not in [src/]: field
    values are arbitrary strings, and the forms hold text controls and one
    submit button.  [toISOString] throws a RangeError only for a time
    value outside TimeClip, which [new Date()] does not produce; the
    receiving scripts of the endpoints are not in the repository.

    ** What is not proved
    The resource check is characterised for every literal that denotes an
    integer (C4, C34) and for negative literals (C5); for a literal with
    a fraction (["1.5"], ["0.99999999999999999"]) its outcome is computed
    by the model but not characterised by a theorem: the rounding of
    [m / 10^k] goes through [SFdiv_core_binary], and the statement that it
    is correctly rounded (accepted exactly from [1 - 2^-54] on) needs the
    correctness of binary64 division, which the installed libraries do
    not provide.  The timestamps of years outside 0-9999 do not sort as
    their times ([IsoOrder.iso_strings_expanded_year_misorder]). *)

From stdpp Require Export base list strings.
From Stdlib Require Export NArith ZArith Lia.

Declare Scope js_scope.
Delimit Scope js_scope with js.
Open Scope js_scope.

(** ** JavaScript string values *)

(** A String value of ECMAScript is a finite sequence of 16-bit code units. *)
Abbreviation code_unit := N (only parsing).
Abbreviation jsstr := (list N) (only parsing).

Fixpoint js_of_string (s : string) : list N :=
  match s with
  | EmptyString => []
  | String a s' => Ascii.N_of_ascii a :: js_of_string s'
  end.

(** [⟪ "text" ⟫] is the JavaScript string literal ['text'] of the source. *)
Notation "⟪ s ⟫" := (js_of_string s%string) (format "⟪ s ⟫") : js_scope.

(** A string value is well formed when every unit fits in 16 bits. *)
Definition wf_jsstr (s : list N) : Prop := Forall (fun c => (c < 65536)%N) s.

(** ** White space: WhiteSpace and LineTerminator of ECMA-262 (12.2, 12.3)

    This one set is what [\s] matches in a regular expression and what
    [String.prototype.trim] and StringToNumber strip: TAB, VT, FF, SP,
    NBSP, ZWNBSP, the Zs category (U+1680, U+2000-U+200A, U+202F, U+205F,
    U+3000) and LF, CR, LS, PS. *)
Definition js_space_units : list N :=
  [9; 10; 11; 12; 13; 32; 160; 5760; 8232; 8233; 8239; 8287; 12288; 65279]%N.

Definition is_js_space (c : N) : bool :=
  existsb (N.eqb c) js_space_units || ((8192 <=? c) && (c <=? 8202))%N.

(** ** The result of a handler step that may return early *)

Inductive result (A E : Type) : Type :=
  | Ok (a : A)
  | Err (e : E).
Arguments Ok {A E} a.
Arguments Err {A E} e.

Definition result_bind {A B E} (r : result A E) (f : A -> result B E) : result B E :=
  match r with Ok a => f a | Err e => Err e end.

Notation "'let!' x := r 'in' k" := (result_bind r (fun x => k))
  (at level 10, x name, r at level 100, k at level 200) : js_scope.

Definition is_ok {A E} (r : result A E) : bool :=
  match r with Ok _ => true | Err _ => false end.

(** ** Automation *)

Create HintDb js discriminated.
Create Rewrite HintDb js_rw.

(** Case analysis on the boolean tests of a goal, keeping the equations. *)
Ltac case_bool :=
  match goal with
  | |- context [if ?b then _ else _] =>
      lazymatch b with
      | context [if _ then _ else _] => fail
      | _ => destruct b eqn:?
      end
  end.

(** ** Shared lemmas *)

Lemma js_of_string_app (s1 s2 : string) :
  js_of_string (s1 +:+ s2) = js_of_string s1 ++ js_of_string s2.
Proof. induction s1 as [|a s1 IH]; simpl; [done|]. by rewrite IH. Qed.

Lemma js_of_string_length (s : string) : length (js_of_string s) = String.length s.
Proof. induction s; simpl; auto. Qed.

Lemma result_bind_ok {A B E} (r : result A E) (f : A -> result B E) b :
  result_bind r f = Ok b -> exists a, r = Ok a /\ f a = Ok b.
Proof. destruct r; simpl; [eauto | discriminate]. Qed.

Lemma result_bind_err {A B E} (r : result A E) (f : A -> result B E) e :
  result_bind r f = Err e -> r = Err e \/ exists a, r = Ok a /\ f a = Err e.
Proof. destruct r; simpl; [eauto | intros [= ->]; auto]. Qed.

Lemma app_cons_eq_app_cons_notin {A} (x : A) (P : A -> Prop) l1 l2 r1 r2 :
  l1 ++ x :: r1 = l2 ++ x :: r2 -> Forall P l1 -> Forall P l2 -> ~ P x ->
  l1 = l2 /\ r1 = r2.
Proof.
  revert l2. induction l1 as [|a l1 IH]; intros [|b l2]; simpl;
    intros Heq H1 H2 Hx; inversion Heq; subst; auto.
  - by inversion H2.
  - by inversion H1.
  - inversion H1; inversion H2; subst.
    destruct (IH l2) as [-> ->]; auto.
Qed.

Lemma Exists_iff {A} (P Q : A -> Prop) (l : list A) :
  (forall x, P x <-> Q x) -> Exists P l <-> Exists Q l.
Proof. intros H. apply Exists_proper; [intros x; apply H | done]. Qed.

(** A string literal of the source is a string of 16-bit units. *)
Lemma js_of_string_wf (s : string) : wf_jsstr (js_of_string s).
Proof.
  induction s as [|a s IH]; constructor; [|done].
  pose proof (Ascii.N_ascii_bounded a). lia.
Qed.

#[export] Hint Resolve Forall_nil_2 : js.
#[export] Hint Rewrite js_of_string_app : js_rw.
