(* ===== verification/JsString.v ===== *)
(** String operations the handlers apply to form values:
    [String.prototype.trim] (ECMA-262 TrimString with where = start+end)
    and the coercion [String(formData.get(f) || '')] of main.js lines 52,
    60 and 135, with the characterisation of [trim] by the unique
    decomposition of a string into leading white space, a core that starts
    and ends with a non-space unit, and trailing white space. *)

From S2P Require Import Prelude.

(** ** TrimString *)

(** Leading white space removed. *)
Fixpoint trim_start (s : list N) : list N :=
  match s with
  | [] => []
  | c :: s' => if is_js_space c then trim_start s' else s
  end.

(** Trailing white space removed. *)
Definition trim_end (s : list N) : list N := reverse (trim_start (reverse s)).

(** [s.trim()]: both ends. *)
Definition trim (s : list N) : list N := trim_end (trim_start s).

(** ** [String(v || '')] for a [FormData.get] result

    [formData.get(name)] is [null] when the form has no entry of that name,
    and a string otherwise (the forms hold text controls only).  [null]
    and [''] are falsy, so [v || ''] is [''] for both and [v] for a
    non-empty string; [String] of a string is the string itself. *)
Definition or_empty (v : option (list N)) : list N :=
  match v with
  | Some s => s
  | None => []
  end.

(** [!s] for a string value: the empty string is the only falsy one. *)
Definition js_falsy (s : list N) : bool :=
  match s with [] => true | _ => false end.

(** ** Predicates of the characterisation *)

Definition all_space (s : list N) : Prop := Forall (fun c => is_js_space c = true) s.

(** Neither the first nor the last unit of [t] is white space. *)
Definition trimmed (t : list N) : Prop :=
  (forall c, head t = Some c -> is_js_space c = false) /\
    (forall c, last t = Some c -> is_js_space c = false).

(** ** Lemmas on [trim_start] and [trim_end] *)

Lemma trim_start_decomp s :
  exists pre, s = pre ++ trim_start s /\ all_space pre /\
    (forall c, head (trim_start s) = Some c -> is_js_space c = false).
Proof.
  induction s as [|c s IH]; simpl.
  - exists []. split; [done|]. split; [constructor | discriminate].
  - destruct (is_js_space c) eqn:Hc.
    + destruct IH as (pre & Hs & Hpre & Hh). exists (c :: pre).
      split; [simpl; congruence|]. split; [by constructor | done].
    + exists []. split; [done|]. split; [constructor | by intros ? [= <-]].
Qed.

Lemma trim_start_app_space pre s :
  all_space pre -> trim_start (pre ++ s) = trim_start s.
Proof. induction 1 as [|c pre Hc _ IH]; simpl; [done|]. by rewrite Hc. Qed.

Lemma trim_start_head_nonspace s :
  (forall c, head s = Some c -> is_js_space c = false) -> trim_start s = s.
Proof. destruct s as [|c s]; simpl; [done|]. intros H. by rewrite H. Qed.

Lemma trim_start_all_space s : all_space s -> trim_start s = [].
Proof. intros H. rewrite <- (app_nil_r s), trim_start_app_space; done. Qed.

Lemma all_space_reverse s : all_space (reverse s) <-> all_space s.
Proof. apply Forall_reverse. Qed.

Lemma trim_end_app_space t suf : all_space suf -> trim_end (t ++ suf) = trim_end t.
Proof.
  intros H. unfold trim_end. rewrite reverse_app, trim_start_app_space; [done|].
  by apply all_space_reverse.
Qed.

Lemma trim_end_last_nonspace t :
  (forall c, last t = Some c -> is_js_space c = false) -> trim_end t = t.
Proof.
  intros H. unfold trim_end. rewrite trim_start_head_nonspace.
  - apply reverse_involutive.
  - intros c. rewrite head_reverse. apply H.
Qed.

Lemma trim_start_idem s : trim_start (trim_start s) = trim_start s.
Proof.
  apply trim_start_head_nonspace. by destruct (trim_start_decomp s) as (? & ? & ? & ?).
Qed.

#[export] Hint Resolve trim_start_app_space trim_end_app_space : js.

(** ** The characterisation of [trim] *)

(** The result of [trim] and the white space it removes. *)
Lemma trim_decomp s :
  exists pre suf, s = pre ++ trim s ++ suf /\ all_space pre /\ all_space suf /\
    trimmed (trim s).
Proof.
  destruct (trim_start_decomp s) as (pre & Hs & Hpre & Hh).
  remember (trim_start s) as u eqn:Hu.
  destruct (trim_start_decomp (reverse u)) as (pre2 & Hr & Hpre2 & Hh2).
  unfold trim. rewrite <- Hu. unfold trim_end.
  exists pre, (reverse pre2).
  assert (Hu' : u = reverse (trim_start (reverse u)) ++ reverse pre2).
  { rewrite <- reverse_app, <- Hr. symmetry. apply reverse_involutive. }
  split; [rewrite <- Hu'; exact Hs|].
  split; [done|]. split; [by apply all_space_reverse|].
  split.
  - intros c Hc. apply Hh. rewrite Hu', head_app. by rewrite Hc.
  - intros c. rewrite last_reverse. apply Hh2.
Qed.

(** A trimmed core surrounded by white space is what [trim] returns. *)
Lemma trim_of_decomp pre t suf :
  all_space pre -> all_space suf -> trimmed t -> trim (pre ++ t ++ suf) = t.
Proof.
  intros Hpre Hsuf [Hh Hl]. unfold trim. rewrite trim_start_app_space by done.
  destruct t as [|c t'].
  - simpl. rewrite trim_start_all_space by done. reflexivity.
  - rewrite trim_start_head_nonspace.
    + rewrite trim_end_app_space by done. by apply trim_end_last_nonspace.
    + intros d. simpl. intros [= <-]. by apply Hh.
Qed.

(** [trim s] is [s] without its leading and trailing white space. *)
Lemma trim_characterisation s t :
  trim s = t <->
  exists pre suf, s = pre ++ t ++ suf /\ all_space pre /\ all_space suf /\ trimmed t.
Proof.
  split.
  - intros <-. apply trim_decomp.
  - intros (pre & suf & -> & Hpre & Hsuf & Ht). by apply trim_of_decomp.
Qed.

(** C3: [s.trim()] is exactly the part of [s] left when the leading and the
    trailing white space are removed: [trim s = t] if and only if [s] splits
    as white space, then [t], then white space, with [t] neither starting nor
    ending with white space. *)
Theorem trim_spec s t :
  trim s = t <->
  exists pre suf, s = pre ++ t ++ suf /\ all_space pre /\ all_space suf /\ trimmed t.
Proof. apply trim_characterisation. Qed.

(** A string trims to the empty string exactly when all its units are white space. *)
Lemma trim_nil_iff s : trim s = [] <-> all_space s.
Proof.
  rewrite trim_characterisation. split.
  - intros (pre & suf & -> & Hpre & Hsuf & _). simpl. by apply Forall_app_2.
  - intros H. exists s, []. rewrite !app_nil_r.
    split; [done|]. split; [done|]. split; [constructor|].
    split; intros c; simpl; discriminate.
Qed.

Lemma trim_idem s : trim (trim s) = trim s.
Proof.
  destruct (trim_decomp s) as (_ & _ & _ & _ & _ & Ht).
  apply trim_characterisation. exists [], []. rewrite app_nil_r.
  split; [done|]. split; [constructor|]. split; [constructor | done].
Qed.

#[export] Hint Rewrite trim_idem : js_rw.
