(* ===== verification/Json.v ===== *)
(** [JSON.stringify] of the records the handlers send (main.js lines 122
    and 187) and [JSON.parse] of the text it produces.

    The two records are flat objects whose property values are strings or
    [null] ([formData.get] returns a string or [null]), so the JSON values
    of this file are those two.  [quote_json_string] is QuoteJSONString of
    ECMA-262 (25.5.2.3) on the code units of the value: the escapes of its
    table, [\u00XX] for the other controls, lone surrogates as [\uXXXX] in
    lowercase hex, a surrogate pair kept as it is.  [json_stringify] is
    SerializeJSONObject with an empty gap.  [json_parse] is [JSON.parse]
    (ECMA-404 with its four white-space units) on objects of strings and
    [null]; it returns the members in text order.  The theorem of the file
    is the round trip [json_parse (json_stringify o) = Some o]. *)

From S2P Require Import Prelude.

Local Open Scope N_scope.

(** ** Values *)

Inductive json_value :=
  | JNull
  | JStr (s : list N).

#[export] Instance json_value_eq_dec : EqDecision json_value.
Proof. solve_decision. Defined.

(** A flat object: its properties in insertion order. *)
Abbreviation json_object := (list (list N * json_value)) (only parsing).

(** The JSON value of what [formData.get] returns: a string, or [null]
    for an absent field. *)
Definition json_of_nullable (v : option (list N)) : json_value :=
  match v with
  | None => JNull
  | Some s => JStr s
  end.

(** ** JSON.stringify *)

(** The lowercase hexadecimal digit of [n < 16]. *)
Definition hex_digit (n : N) : N := if n <? 10 then 48 + n else 87 + n.

(** UnicodeEscape(C): [\u] and the four lowercase hex digits of [C]. *)
Definition unicode_escape (c : N) : list N :=
  [92; 117; hex_digit (c / 4096 mod 16); hex_digit (c / 256 mod 16);
   hex_digit (c / 16 mod 16); hex_digit (c mod 16)].

(** The table of QuoteJSONString: the letter written after the
    backslash. *)
Definition json_escape_char (c : N) : option N :=
  if c =? 8 then Some 98            (* \b *)
  else if c =? 9 then Some 116      (* \t *)
  else if c =? 10 then Some 110     (* \n *)
  else if c =? 12 then Some 102     (* \f *)
  else if c =? 13 then Some 114     (* \r *)
  else if c =? 34 then Some 34      (* quotation mark *)
  else if c =? 92 then Some 92      (* reverse solidus *)
  else None.

Definition is_leading_surrogate (c : N) : bool := (55296 <=? c) && (c <=? 56319).
Definition is_trailing_surrogate (c : N) : bool := (56320 <=? c) && (c <=? 57343).

(** The loop of QuoteJSONString over StringToCodePoints(value): a leading
    surrogate followed by a trailing one is one code point, written back
    as its two units; any other surrogate is escaped. *)
Fixpoint quote_units (s : list N) : list N :=
  match s with
  | [] => []
  | c :: rest =>
      match json_escape_char c with
      | Some e => 92 :: e :: quote_units rest
      | None =>
          if c <? 32 then unicode_escape c ++ quote_units rest
          else if is_leading_surrogate c then
            match rest with
            | d :: rest' =>
                if is_trailing_surrogate d then c :: d :: quote_units rest'
                else unicode_escape c ++ quote_units rest
            | [] => unicode_escape c
            end
          else if is_trailing_surrogate c then unicode_escape c ++ quote_units rest
          else c :: quote_units rest
      end
  end.

Definition quote_json_string (s : list N) : list N := 34 :: quote_units s ++ [34].

(** SerializeJSONProperty on a string or [null]. *)
Definition serialize_value (v : json_value) : list N :=
  match v with
  | JNull => ⟪"null"⟫
  | JStr s => quote_json_string s
  end.

Definition serialize_member (m : list N * json_value) : list N :=
  quote_json_string m.1 ++ 58 :: serialize_value m.2.

(** The members joined by [","] (the empty gap). *)
Fixpoint join_members (o : list (list N * json_value)) : list N :=
  match o with
  | [] => []
  | [m] => serialize_member m
  | m :: o' => serialize_member m ++ 44 :: join_members o'
  end.

(** SerializeJSONObject: ["{}"] when there is no property, else
    ["{" + properties joined by "," + "}"]. *)
Definition json_stringify (o : list (list N * json_value)) : list N :=
  match o with
  | [] => [123; 125]
  | _ => 123 :: join_members o ++ [125]
  end.

(** ** JSON.parse *)

(** The white space of ECMA-404: TAB, LF, CR, SP. *)
Definition json_ws (c : N) : bool := (c =? 9) || (c =? 10) || (c =? 13) || (c =? 32).

Fixpoint skip_ws (s : list N) : list N :=
  match s with
  | c :: r => if json_ws c then skip_ws r else s
  | [] => []
  end.

Definition hex_value (c : N) : option N :=
  if (48 <=? c) && (c <=? 57) then Some (c - 48)
  else if (97 <=? c) && (c <=? 102) then Some (c - 87)
  else if (65 <=? c) && (c <=? 70) then Some (c - 55)
  else None.

(** The single-character escapes of a JSON string. *)
Definition unescape (e : N) : option N :=
  if e =? 34 then Some 34 else if e =? 92 then Some 92
  else if e =? 47 then Some 47 else if e =? 98 then Some 8
  else if e =? 102 then Some 12 else if e =? 110 then Some 10
  else if e =? 114 then Some 13 else if e =? 116 then Some 9
  else None.

Definition hex4_value (a b c d : N) : option N :=
  va ← hex_value a; vb ← hex_value b; vc ← hex_value c; vd ← hex_value d;
  Some (4096 * va + 256 * vb + 16 * vc + vd).

(** The characters of a string after its opening quote: the decoded units
    and the text after the closing quote. *)
Fixpoint parse_string_body (s : list N) : option (list N * list N) :=
  match s with
  | [] => None
  | c :: r =>
      if c =? 34 then Some ([], r)
      else if c =? 92 then
        match r with
        | [] => None
        | e :: r' =>
            if e =? 117 then
              match r' with
              | a :: b :: c' :: d :: r'' =>
                  u ← hex4_value a b c' d;
                  '(t, rest) ← parse_string_body r'';
                  Some (u :: t, rest)
              | _ => None
              end
            else
              u ← unescape e;
              '(t, rest) ← parse_string_body r';
              Some (u :: t, rest)
        end
      else if c <? 32 then None
      else '(t, rest) ← parse_string_body r; Some (c :: t, rest)
  end.

Fixpoint strip_prefix (p s : list N) : option (list N) :=
  match p, s with
  | [], _ => Some s
  | a :: p', b :: s' => if a =? b then strip_prefix p' s' else None
  | _ :: _, [] => None
  end.

Definition parse_value (s : list N) : option (json_value * list N) :=
  match s with
  | c :: r =>
      if c =? 34 then '(t, rest) ← parse_string_body r; Some (JStr t, rest)
      else rest ← strip_prefix ⟪"null"⟫ s; Some (JNull, rest)
  | [] => None
  end.

(** One member [string ws : ws value ws] followed by [","] and more
    members or by ["}"]; the fuel bounds the number of members. *)
Fixpoint parse_members (fuel : nat) (s : list N)
    : option (list (list N * json_value) * list N) :=
  match fuel with
  | O => None
  | S fuel' =>
      match skip_ws s with
      | q :: r =>
          if q =? 34 then
            '(k, r1) ← parse_string_body r;
            r2 ← strip_prefix [58] (skip_ws r1);
            '(v, r3) ← parse_value (skip_ws r2);
            match skip_ws r3 with
            | c :: r4 =>
                if c =? 44 then '(ms, r5) ← parse_members fuel' r4; Some ((k, v) :: ms, r5)
                else if c =? 125 then Some ([(k, v)], r4)
                else None
            | [] => None
            end
          else None
      | [] => None
      end
  end.

(** [JSON.parse] of an object text; anything else (outside the objects of
    strings and [null] of this file) is [None]. *)
Definition json_parse (s : list N) : option (list (list N * json_value)) :=
  match skip_ws s with
  | b :: r =>
      if b =? 123 then
        '(o, rest) ←
          match skip_ws r with
          | c :: r' => if c =? 125 then Some ([], r') else parse_members (length r) r
          | [] => None
          end;
        match skip_ws rest with [] => Some o | _ :: _ => None end
      else None
  | [] => None
  end.

(** The value of a property of the parsed object: the last member with
    that key, as CreateDataProperty leaves it. *)
Definition json_get (k : list N) (o : list (list N * json_value)) : option json_value :=
  snd <$> find (fun m => bool_decide (m.1 = k)) (reverse o).

(** IsStringWellFormedUnicode: every leading surrogate is followed by a
    trailing one and every trailing surrogate follows a leading one. *)
Fixpoint well_formed_utf16 (s : list N) : bool :=
  match s with
  | [] => true
  | c :: r =>
      if is_leading_surrogate c then
        match r with
        | d :: r' => is_trailing_surrogate d && well_formed_utf16 r'
        | [] => false
        end
      else negb (is_trailing_surrogate c) && well_formed_utf16 r
  end.

(** A JSON text the wire carries unchanged: a string of 16-bit units,
    well-formed UTF-16 (so its UTF-8 encoding by [xhr.send] replaces
    nothing), with no control unit. *)
Definition json_text_ok (s : list N) : Prop :=
  well_formed_utf16 s = true /\ Forall (fun c => 32 <= c < 65536) s.

(** The keys and string values of an object are JavaScript strings. *)
Definition json_value_wf (v : json_value) : Prop :=
  match v with
  | JNull => True
  | JStr s => wf_jsstr s
  end.

Definition json_object_wf (o : list (list N * json_value)) : Prop :=
  Forall (fun m => wf_jsstr m.1 /\ json_value_wf m.2) o.

(** ** Lemmas *)

Ltac case_N_eqb :=
  repeat match goal with
  | |- context [N.eqb ?a ?b] => destruct (N.eqb_spec a b); subst
  end.

Lemma hex_value_digit n : n < 16 -> hex_value (hex_digit n) = Some n.
Proof.
  intros Hn. unfold hex_digit, hex_value.
  destruct (N.ltb_spec n 10); repeat case_bool;
    rewrite ?andb_true_iff, ?andb_false_iff, ?N.leb_le, ?N.leb_gt in *;
    try (f_equal; lia); exfalso; lia.
Qed.

Lemma hex4_digits c :
  4096 * (c / 4096 mod 16) + 256 * (c / 256 mod 16) + 16 * (c / 16 mod 16) + c mod 16 =
  c mod 65536.
Proof.
  replace (c / 4096) with (c / 16 / 16 / 16) by (rewrite !N.Div0.div_div; reflexivity).
  replace (c / 256) with (c / 16 / 16) by (rewrite !N.Div0.div_div; reflexivity).
  replace 65536 with (16 * (16 * (16 * 16))) by reflexivity.
  rewrite !N.Div0.mod_mul_r.
  set (q1 := c / 16). set (q2 := q1 / 16). lia.
Qed.

Lemma hex4_unicode_escape c : c < 65536 ->
  hex4_value (hex_digit (c / 4096 mod 16)) (hex_digit (c / 256 mod 16))
    (hex_digit (c / 16 mod 16)) (hex_digit (c mod 16)) = Some c.
Proof.
  intros Hc. unfold hex4_value.
  rewrite !hex_value_digit by (apply N.mod_lt; lia). simpl.
  rewrite hex4_digits, N.mod_small; done.
Qed.

Lemma unicode_escape_parse c rest : c < 65536 ->
  parse_string_body (unicode_escape c ++ rest) =
  '(t, r) ← parse_string_body rest; Some (c :: t, r).
Proof. intros Hc. simpl. rewrite hex4_unicode_escape by done. done. Qed.

Lemma json_escape_char_some c e : json_escape_char c = Some e ->
  e <> 117 /\ unescape e = Some c.
Proof. unfold json_escape_char. case_N_eqb; intros [= <-]; split; done. Qed.

Lemma json_escape_char_none c : json_escape_char c = None -> c <> 34 /\ c <> 92.
Proof. unfold json_escape_char. case_N_eqb; done. Qed.

Lemma parse_string_body_plain c r : 32 <= c -> c <> 34 -> c <> 92 ->
  parse_string_body (c :: r) = '(t, rest) ← parse_string_body r; Some (c :: t, rest).
Proof.
  intros H32 H34 H92. cbn [parse_string_body].
  case_N_eqb; try done. destruct (N.ltb_spec c 32); [lia | done].
Qed.

Lemma parse_string_body_escape c e r : json_escape_char c = Some e ->
  parse_string_body (92 :: e :: r) = '(t, rest) ← parse_string_body r; Some (c :: t, rest).
Proof.
  intros [H117 Hu]%json_escape_char_some. cbn [parse_string_body].
  apply N.eqb_neq in H117. simpl. by rewrite H117, Hu.
Qed.

(** Every string value comes back from its quoted form. *)
Lemma parse_quote_units s rest :
  parse_string_body (quote_units s ++ 34 :: rest) = Some (s, rest).
Proof.
  induction s as [s IH] using (induction_ltof1 _ (@length N)); unfold ltof in IH.
  destruct s as [|c s]; [done|]. cbn [quote_units].
  destruct (json_escape_char c) as [e|] eqn:He.
  { cbn [app]. rewrite (parse_string_body_escape c e) by done. rewrite IH; simpl; auto. }
  destruct (json_escape_char_none c He) as [H34 H92].
  destruct (N.ltb_spec c 32).
  { rewrite <- app_assoc, unicode_escape_parse by lia. rewrite IH; simpl; auto. }
  unfold is_leading_surrogate, is_trailing_surrogate.
  destruct ((55296 <=? c) && (c <=? 56319)) eqn:Hl.
  - apply andb_true_iff in Hl as [Hl1 Hl2].
    destruct s as [|d s].
    + rewrite unicode_escape_parse by (apply N.leb_le in Hl2; lia). done.
    + destruct ((56320 <=? d) && (d <=? 57343)) eqn:Hd.
      * apply andb_true_iff in Hd as [Hd1%N.leb_le Hd2%N.leb_le].
        apply N.leb_le in Hl1.
        cbn [app]. rewrite !parse_string_body_plain by lia. rewrite IH; simpl; auto.
      * rewrite <- app_assoc, unicode_escape_parse by (apply N.leb_le in Hl2; lia).
        rewrite IH; simpl; auto.
  - destruct ((56320 <=? c) && (c <=? 57343)) eqn:Ht.
    + apply andb_true_iff in Ht as [_ Ht%N.leb_le].
      rewrite <- app_assoc, unicode_escape_parse by lia. rewrite IH; simpl; auto.
    + cbn [app]. rewrite parse_string_body_plain by lia. rewrite IH; simpl; auto.
Qed.

Lemma skip_ws_cons c r : json_ws c = false -> skip_ws (c :: r) = c :: r.
Proof. intros H. simpl. by rewrite H. Qed.

Lemma serialize_value_head v : exists c t, serialize_value v = c :: t /\ json_ws c = false.
Proof. destruct v; eexists _, _; split; reflexivity. Qed.

Lemma skip_ws_serialize_value v tail :
  skip_ws (serialize_value v ++ tail) = serialize_value v ++ tail.
Proof. destruct (serialize_value_head v) as (c & t & -> & Hc). by apply skip_ws_cons. Qed.

Lemma parse_value_serialize v rest : parse_value (serialize_value v ++ rest) = Some (v, rest).
Proof.
  destruct v as [|t]; [done|]. unfold serialize_value, quote_json_string. cbn [app].
  rewrite <- app_assoc. simpl. by rewrite parse_quote_units.
Qed.

(** One member of the text, whatever follows it. *)
Lemma parse_members_step fuel k v tail :
  parse_members (S fuel) (serialize_member (k, v) ++ tail) =
  match skip_ws tail with
  | c :: r4 =>
      if c =? 44 then '(ms, r5) ← parse_members fuel r4; Some ((k, v) :: ms, r5)
      else if c =? 125 then Some ([(k, v)], r4)
      else None
  | [] => None
  end.
Proof.
  unfold serialize_member, quote_json_string. cbn [app fst snd].
  rewrite <- !app_assoc. simpl. rewrite parse_quote_units. simpl. rewrite skip_ws_serialize_value.
  by rewrite parse_value_serialize.
Qed.

Lemma parse_members_join o rest fuel : o <> [] -> (length o <= fuel)%nat ->
  parse_members fuel (join_members o ++ 125 :: rest) = Some (o, rest).
Proof.
  revert fuel. induction o as [|[k v] o IH]; intros fuel Hne Hf; [done|].
  destruct fuel as [|fuel]; [simpl in Hf; lia|].
  destruct o as [|m o].
  - cbn [join_members]. by rewrite parse_members_step.
  - cbn [join_members]. rewrite <- app_assoc, parse_members_step. cbn -[join_members parse_members].
    rewrite IH by (done || simpl in *; lia). done.
Qed.

Lemma join_members_head m o : exists t, join_members (m :: o) = 34 :: t.
Proof. destruct o; eexists; reflexivity. Qed.

Lemma join_members_length o : (length o <= length (join_members o))%nat.
Proof.
  induction o as [|m o IH]; [done|].
  destruct o as [|m' o]; cbn [join_members length]; rewrite ?length_app;
    destruct m; simpl in *; lia.
Qed.

(** [JSON.parse] gives back every object [JSON.stringify] writes: keys
    and string values come back unit for unit, lone surrogates and
    controls included, and the members keep their order. *)
Lemma json_parse_stringify_members o : json_parse (json_stringify o) = Some o.
Proof.
  destruct o as [|m o]; [done|].
  destruct (join_members_head m o) as [t Ht].
  pose proof (join_members_length (m :: o)) as Hl.
  unfold json_stringify, json_parse. cbn -[join_members parse_members].
  rewrite Ht. cbn -[join_members parse_members].
  replace (34 :: t ++ [125]) with (join_members (m :: o) ++ [125]) by (rewrite Ht; done).
  rewrite Ht in Hl. rewrite parse_members_join by (done || rewrite length_app; simpl in *; lia).
  done.
Qed.

Lemma hex_digit_range n : n < 16 -> 48 <= hex_digit n < 103.
Proof. unfold hex_digit. destruct (N.ltb_spec n 10); lia. Qed.

(** A unit below the surrogates and not a control: it changes nothing. *)
Lemma json_text_ok_cons c t : 32 <= c < 55296 -> json_text_ok t -> json_text_ok (c :: t).
Proof.
  intros Hc [Hw Hf]. split; [|constructor; [lia | done]].
  cbn [well_formed_utf16]. unfold is_leading_surrogate, is_trailing_surrogate.
  destruct (N.leb_spec 55296 c), (N.leb_spec 56320 c); simpl; [lia..|done].
Qed.

Lemma json_text_ok_app_low a t : Forall (fun c => 32 <= c < 55296) a ->
  json_text_ok t -> json_text_ok (a ++ t).
Proof. induction 1; simpl; auto using json_text_ok_cons. Qed.

Lemma unicode_escape_low c : Forall (fun c => 32 <= c < 55296) (unicode_escape c).
Proof.
  assert (H : forall x, 48 <= hex_digit (x mod 16) < 103)
    by (intros; apply hex_digit_range, N.mod_lt; lia).
  unfold unicode_escape. repeat constructor; pose proof (H c); pose proof (H (c / 16));
    pose proof (H (c / 256)); pose proof (H (c / 4096)); lia.
Qed.

Lemma json_text_ok_quote_units s t : wf_jsstr s -> json_text_ok t -> json_text_ok (quote_units s ++ t).
Proof.
  intros Hs Ht. revert t Ht Hs.
  induction s as [s IH] using (induction_ltof1 _ (@length N)); unfold ltof in IH.
  intros t Ht Hs. destruct s as [|c s]; [done|]. cbn [quote_units].
  apply Forall_cons in Hs as [Hc Hs].
  assert (Hesc : forall s', (length s' < S (length s))%nat ->
            wf_jsstr s' -> json_text_ok (unicode_escape c ++ quote_units s' ++ t)).
  { intros s' Hl Hs'. apply json_text_ok_app_low; [apply unicode_escape_low | apply IH; auto]. }
  destruct (json_escape_char c) as [e|] eqn:He.
  { apply json_escape_char_some in He as [_ Hu]. cbn [app].
    apply json_text_ok_cons, json_text_ok_cons; [..|apply IH; auto];
      revert Hu; unfold unescape; case_N_eqb; intros [= <-]; lia. }
  destruct (N.ltb_spec c 32); [rewrite <- app_assoc; apply Hesc; [lia | done]|].
  unfold is_leading_surrogate, is_trailing_surrogate.
  destruct ((55296 <=? c) && (c <=? 56319)) eqn:Hl.
  - destruct s as [|d s]; [apply (Hesc []); [simpl; lia | constructor]|].
    destruct ((56320 <=? d) && (d <=? 57343)) eqn:Hd; [|rewrite <- app_assoc; apply Hesc; [lia | done]].
    apply Forall_cons in Hs as [_ Hs].
    destruct (IH s ltac:(simpl; lia) t Ht Hs) as [Hw Hf].
    pose proof Hl as [Hl1%N.leb_le _]%andb_true_iff.
    pose proof Hd as [Hd1%N.leb_le Hd2%N.leb_le]%andb_true_iff.
    split; [|repeat constructor; auto; lia].
    cbn [app well_formed_utf16]. unfold is_leading_surrogate, is_trailing_surrogate.
    rewrite Hl, Hd. simpl. by rewrite Hw.
  - destruct ((56320 <=? c) && (c <=? 57343)) eqn:Ht'; [rewrite <- app_assoc; apply Hesc; [lia | done]|].
    destruct (IH s ltac:(simpl; lia) t Ht Hs) as [Hw Hf].
    split; [|constructor; auto; lia].
    cbn [app well_formed_utf16]. unfold is_leading_surrogate, is_trailing_surrogate.
    by rewrite Hl, Ht', Hw.
Qed.

Lemma json_text_ok_quote s t : wf_jsstr s -> json_text_ok t ->
  json_text_ok (quote_json_string s ++ t).
Proof.
  intros Hs Ht. unfold quote_json_string. cbn [app]. rewrite <- app_assoc.
  apply json_text_ok_cons; [lia|]. apply json_text_ok_quote_units, json_text_ok_cons; [done | lia | done].
Qed.

Lemma json_text_ok_member m t : wf_jsstr m.1 -> json_value_wf m.2 -> json_text_ok t ->
  json_text_ok (serialize_member m ++ t).
Proof.
  intros Hk Hv Ht. unfold serialize_member. rewrite <- app_assoc.
  apply json_text_ok_quote; [done|]. cbn [app]. apply json_text_ok_cons; [lia|].
  destruct m.2; [apply (json_text_ok_app_low ⟪"null"⟫); [cbn; repeat (apply Forall_cons_2; [lia|]); apply Forall_nil_2 | done]|].
  by apply json_text_ok_quote.
Qed.

Lemma json_text_ok_join o t : json_object_wf o -> json_text_ok t -> json_text_ok (join_members o ++ t).
Proof.
  induction o as [|m o IH]; intros Ho Ht; [done|]. apply Forall_cons in Ho as [[Hk Hv] Ho].
  destruct o as [|m' o]; cbn [join_members]; [by apply json_text_ok_member|].
  rewrite <- app_assoc. apply json_text_ok_member; [done..|]. cbn [app].
  apply json_text_ok_cons; [lia | auto].
Qed.

(** The text of an object of JavaScript strings is ready for the wire. *)
Lemma json_stringify_text_ok o : json_object_wf o -> json_text_ok (json_stringify o).
Proof.
  intros Ho. destruct o as [|m o]; [split; [done | repeat constructor; lia]|].
  apply json_text_ok_cons; [lia|]. apply json_text_ok_join; [done|].
  split; [done | repeat constructor; lia].
Qed.

(** C19: the text [JSON.stringify] writes for a flat object whose keys
    and string values are JavaScript strings is well-formed UTF-16, of
    16-bit units, and holds no control unit, whatever the values hold:
    controls are escaped and a lone surrogate is written as [\uXXXX], so
    the UTF-8 encoding of the body by [xhr.send] loses nothing. *)
Theorem json_stringify_well_formed o : json_object_wf o -> json_text_ok (json_stringify o).
Proof. apply json_stringify_text_ok. Qed.

(** The witness of C19: a value with a line feed and a lone surrogate. *)
Lemma json_stringify_well_formed_witness :
  json_object_wf [(⟪"name"⟫, JStr [65; 10; 55296]); (⟪"city"⟫, JNull)] /\
  json_text_ok (json_stringify [(⟪"name"⟫, JStr [65; 10; 55296]); (⟪"city"⟫, JNull)]).
Proof.
  assert (Hw : json_object_wf [(⟪"name"⟫, JStr [65; 10; 55296]); (⟪"city"⟫, JNull)])
    by (repeat constructor).
  split; [exact Hw | exact (json_stringify_well_formed _ Hw)].
Defined.
