(* ===== verification/Utf8.v ===== *)
(** The request body on the wire (main.js lines 122 and 187).

    [xhr.send(text)] converts its string argument to a USVString (WebIDL:
    every lone surrogate becomes U+FFFD) and encodes it with the UTF-8
    encoder of the Encoding Standard.  [code_points] is that conversion
    followed by the code points of the string, [utf8_encode_point] the
    encoder's step (its [count] and [offset], shifts and masks),
    [utf8_encode] the body's bytes.  A receiver decodes the bytes with the
    UTF-8 decoder of the Encoding Standard ([utf8_decode], its state
    machine with the boundaries of its second byte and its replacement
    of errors by U+FFFD) and builds the UTF-16 string back
    ([from_code_points], UTF16EncodeCodePoint).  Bytes are [N] values
    below 256. *)

From S2P Require Import Prelude Json.
From Stdlib Require Import Zify ZifyN.

Local Open Scope N_scope.

(** ** Encoding *)

(** The code points of [s] after the USVString conversion. *)
Fixpoint code_points (s : list N) : list N :=
  match s with
  | [] => []
  | c :: rest =>
      if is_leading_surrogate c then
        match rest with
        | d :: rest' =>
            if is_trailing_surrogate d then 65536 + (c - 55296) * 1024 + (d - 56320) :: code_points rest'
            else 65533 :: code_points rest
        | [] => [65533]
        end
      else if is_trailing_surrogate c then 65533 :: code_points rest
      else c :: code_points rest
  end.

(** The UTF-8 encoder's handler for one code point: one byte below
    U+0080, else a lead byte [(cp >> 6 count) + offset] and [count]
    continuation bytes [0x80 | ((cp >> 6 k) & 0x3F)], [k] from
    [count - 1] down to [0]. *)
Definition utf8_encode_point (cp : N) : list N :=
  if cp <? 128 then [cp]
  else
    let '(count, offset) :=
      if cp <? 2048 then (1%nat, 192) else if cp <? 65536 then (2%nat, 224) else (3%nat, 240) in
    N.shiftr cp (6 * N.of_nat count) + offset ::
    map (fun k => N.lor 128 (N.land (N.shiftr cp (6 * N.of_nat k)) 63)) (rev (seq 0 count)).

Definition utf8_encode (s : list N) : list N := concat (map utf8_encode_point (code_points s)).

(** ** Decoding *)

Record utf8_state := {
  u_point : N;
  u_seen : N;
  u_needed : N;
  u_lower : N;
  u_upper : N;
}.

Definition utf8_init : utf8_state :=
  {| u_point := 0; u_seen := 0; u_needed := 0; u_lower := 128; u_upper := 191 |}.

(** A byte read when no sequence is open: a code point, the start of a
    sequence (with the boundaries of its next byte), or an error. *)
Definition utf8_start (b : N) : list N * utf8_state :=
  if b <=? 127 then ([b], utf8_init)
  else if (194 <=? b) && (b <=? 223) then
    ([], {| u_point := N.land b 31; u_seen := 0; u_needed := 1; u_lower := 128; u_upper := 191 |})
  else if (224 <=? b) && (b <=? 239) then
    ([], {| u_point := N.land b 15; u_seen := 0; u_needed := 2;
            u_lower := if b =? 224 then 160 else 128; u_upper := if b =? 237 then 159 else 191 |})
  else if (240 <=? b) && (b <=? 244) then
    ([], {| u_point := N.land b 7; u_seen := 0; u_needed := 3;
            u_lower := if b =? 240 then 144 else 128; u_upper := if b =? 244 then 143 else 191 |})
  else ([65533], utf8_init).

(** The decoder over the byte queue; a byte outside the boundaries ends
    the open sequence with an error and is read again. *)
Fixpoint utf8_decode_from (st : utf8_state) (bs : list N) : list N :=
  match bs with
  | [] => if u_needed st =? 0 then [] else [65533]
  | b :: rest =>
      if u_needed st =? 0 then
        let '(out, st') := utf8_start b in out ++ utf8_decode_from st' rest
      else if negb ((u_lower st <=? b) && (b <=? u_upper st)) then
        let '(out, st') := utf8_start b in 65533 :: out ++ utf8_decode_from st' rest
      else
        let cp := N.lor (N.shiftl (u_point st) 6) (N.land b 63) in
        if u_seen st + 1 =? u_needed st then cp :: utf8_decode_from utf8_init rest
        else utf8_decode_from {| u_point := cp; u_seen := u_seen st + 1; u_needed := u_needed st;
                                 u_lower := 128; u_upper := 191 |} rest
  end.

Definition utf8_decode (bs : list N) : list N := utf8_decode_from utf8_init bs.

(** UTF16EncodeCodePoint over the decoded code points. *)
Definition utf16_encode_point (cp : N) : list N :=
  if cp <=? 65535 then [cp]
  else [(cp - 65536) / 1024 + 55296; (cp - 65536) mod 1024 + 56320].

Definition from_code_points (cps : list N) : list N := concat (map utf16_encode_point cps).

(** ** Bits as arithmetic *)

Lemma lor_shiftl_low x y n : y < 2 ^ n -> N.lor (N.shiftl x n) y = x * 2 ^ n + y.
Proof.
  intros Hy. rewrite <- N.shiftl_mul_pow2, <- N.lxor_lor, N.add_nocarry_lxor; [done| |];
  apply N.bits_inj_0; intros i; rewrite N.land_spec;
  (destruct (N.lt_ge_cases i n) as [Hi|Hi];
   [by rewrite N.shiftl_spec_low
   |destruct (N.eq_dec y 0) as [->|Hy0]; [by rewrite N.bits_0, andb_false_r|];
    rewrite (N.bits_above_log2 y i); [by rewrite andb_false_r|];
    apply N.log2_lt_pow2 in Hy; lia]).
Qed.

Lemma land_low x k : N.land x (2 ^ k - 1) = x mod 2 ^ k.
Proof. rewrite <- N.land_ones. f_equal. by rewrite N.ones_equiv, N.pred_sub. Qed.

Lemma lor_128 y : y < 64 -> N.lor 128 y = 128 + y.
Proof. intros Hy. change 128 with (N.shiftl 2 6). rewrite lor_shiftl_low; [done | exact Hy]. Qed.

Lemma lor_shiftl_6 p b : N.lor (N.shiftl p 6) (N.land b 63) = p * 64 + b mod 64.
Proof.
  change 63 with (2 ^ 6 - 1). rewrite land_low, lor_shiftl_low; [done|].
  apply N.mod_lt. lia.
Qed.

(** The encoder's bytes as arithmetic. *)
Lemma utf8_encode_point_eq cp :
  utf8_encode_point cp =
  if cp <? 128 then [cp]
  else if cp <? 2048 then [cp / 64 + 192; 128 + cp mod 64]
  else if cp <? 65536 then [cp / 4096 + 224; 128 + cp / 64 mod 64; 128 + cp mod 64]
  else [cp / 262144 + 240; 128 + cp / 4096 mod 64; 128 + cp / 64 mod 64; 128 + cp mod 64].
Proof.
  unfold utf8_encode_point.
  assert (Hb : forall x, N.lor 128 (N.land x 63) = 128 + x mod 64).
  { intros x. change 63 with (2 ^ 6 - 1). rewrite land_low. apply lor_128, N.mod_lt. lia. }
  destruct (cp <? 128); [done|].
  destruct (cp <? 2048); [|destruct (cp <? 65536)]; cbn -[N.shiftr N.land N.lor];
    rewrite ?Hb, ?N.shiftr_div_pow2; change (2 ^ (6 * N.of_nat 0)) with 1;
    rewrite N.div_1_r; reflexivity.
Qed.

(** ** Decoding what was encoded *)

(** A Unicode scalar value: below U+110000 and not a surrogate. *)
Definition scalar (cp : N) : Prop := cp < 1114112 /\ ~ (55296 <= cp <= 57343).

Ltac N_arith := zify; Z.div_mod_to_equations; lia.

Ltac leb_facts :=
  repeat match goal with
  | H : (_ && _) = true |- _ => apply andb_true_iff in H as [? ?]
  | H : (_ && _) = false |- _ => apply andb_false_iff in H as [?|?]
  | H : (_ <=? _) = true |- _ => apply N.leb_le in H
  | H : (_ <=? _) = false |- _ => apply N.leb_gt in H
  | H : (_ =? _) = true |- _ => apply N.eqb_eq in H
  | H : (_ =? _) = false |- _ => apply N.eqb_neq in H
  end.

Lemma utf8_start_ascii b : b <= 127 -> utf8_start b = ([b], utf8_init).
Proof. intros Hb. unfold utf8_start. by rewrite (proj2 (N.leb_le _ _) Hb). Qed.

Lemma utf8_start_lead2 b : 194 <= b <= 223 ->
  utf8_start b = ([], {| u_point := b mod 32; u_seen := 0; u_needed := 1;
                         u_lower := 128; u_upper := 191 |}).
Proof.
  intros Hb. unfold utf8_start. change 31 with (2 ^ 5 - 1). rewrite land_low.
  repeat case_bool; leb_facts; done || lia.
Qed.

Lemma utf8_start_lead3 b : 224 <= b <= 239 ->
  utf8_start b = ([], {| u_point := b mod 16; u_seen := 0; u_needed := 2;
                         u_lower := if b =? 224 then 160 else 128;
                         u_upper := if b =? 237 then 159 else 191 |}).
Proof.
  intros Hb. unfold utf8_start. change 15 with (2 ^ 4 - 1). rewrite land_low.
  do 3 (case_bool; leb_facts; try lia). done.
Qed.

Lemma utf8_start_lead4 b : 240 <= b <= 244 ->
  utf8_start b = ([], {| u_point := b mod 8; u_seen := 0; u_needed := 3;
                         u_lower := if b =? 240 then 144 else 128;
                         u_upper := if b =? 244 then 143 else 191 |}).
Proof.
  intros Hb. unfold utf8_start. change 7 with (2 ^ 3 - 1). rewrite land_low.
  do 4 (case_bool; leb_facts; try lia). done.
Qed.

(** A continuation byte within the boundaries. *)
Lemma utf8_decode_cont st b rest : u_needed st <> 0 -> u_lower st <= b <= u_upper st ->
  utf8_decode_from st (b :: rest) =
  if u_seen st + 1 =? u_needed st then (u_point st * 64 + b mod 64) :: utf8_decode_from utf8_init rest
  else utf8_decode_from {| u_point := u_point st * 64 + b mod 64; u_seen := u_seen st + 1;
                           u_needed := u_needed st; u_lower := 128; u_upper := 191 |} rest.
Proof.
  intros Hn [Hl Hu]. cbn [utf8_decode_from]. rewrite (proj2 (N.eqb_neq _ _) Hn).
  rewrite (proj2 (N.leb_le _ _) Hl), (proj2 (N.leb_le _ _) Hu). simpl.
  by rewrite lor_shiftl_6.
Qed.

Lemma utf8_decode_lead b rest :
  utf8_decode_from utf8_init (b :: rest) =
  let '(out, st') := utf8_start b in out ++ utf8_decode_from st' rest.
Proof. reflexivity. Qed.

(** One continuation byte: rewrite, then evaluate the counter test. *)
Ltac cont_step bound :=
  rewrite utf8_decode_cont by ((cbn [u_needed]; lia) || bound);
  cbn [u_seen u_needed u_point];
  match goal with
  | |- context [?a =? ?b] => let v := eval vm_compute in (a =? b) in change (a =? b) with v
  end;
  cbn iota.

Ltac bound_cases :=
  cbn [u_lower u_upper u_needed];
  repeat match goal with |- context [?a =? ?b] => destruct (N.eqb_spec a b) end;
  split; N_arith.

(** The bytes of one scalar value decode to it. *)
Lemma utf8_decode_point cp rest : scalar cp ->
  utf8_decode_from utf8_init (utf8_encode_point cp ++ rest) = cp :: utf8_decode_from utf8_init rest.
Proof.
  intros [Hmax Hsur]. rewrite utf8_encode_point_eq.
  destruct (N.ltb_spec cp 128); [cbn [app]; by rewrite utf8_decode_lead, utf8_start_ascii by lia|].
  destruct (N.ltb_spec cp 2048); [|destruct (N.ltb_spec cp 65536)]; cbn [app];
    rewrite utf8_decode_lead.
  - rewrite utf8_start_lead2 by N_arith. cbn [app].
    cont_step bound_cases.
    f_equal. N_arith.
  - rewrite utf8_start_lead3 by N_arith. cbn [app].
    cont_step bound_cases.
    cont_step bound_cases.
    f_equal. N_arith.
  - rewrite utf8_start_lead4 by N_arith. cbn [app].
    cont_step bound_cases.
    cont_step bound_cases.
    cont_step bound_cases.
    f_equal. N_arith.
Qed.

Lemma utf8_decode_points cps : Forall scalar cps ->
  utf8_decode (concat (map utf8_encode_point cps)) = cps.
Proof.
  unfold utf8_decode. induction 1 as [|cp cps Hcp _ IH]; [done|].
  cbn [map concat]. by rewrite utf8_decode_point, IH.
Qed.

(** After the USVString conversion every code point is a scalar value. *)
Lemma code_points_scalar s : wf_jsstr s -> Forall scalar (code_points s).
Proof.
  induction s as [s IH] using (induction_ltof1 _ (@length N)); unfold ltof in IH.
  destruct s as [|c s]; intros Hs; [constructor|]. apply Forall_cons in Hs as [Hc Hs].
  cbn [code_points]. unfold is_leading_surrogate, is_trailing_surrogate.
  destruct ((55296 <=? c) && (c <=? 56319)) eqn:Hl;
    [destruct s as [|d s]; [constructor; [split; lia | constructor]|];
     apply Forall_cons in Hs as [Hd Hs'];
     destruct ((56320 <=? d) && (d <=? 57343)) eqn:Hd'
    |destruct ((56320 <=? c) && (c <=? 57343)) eqn:Ht]; leb_facts;
    (constructor; [split; lia | apply IH; [simpl; lia | repeat constructor; assumption]]).
Qed.

(** A well-formed string is its code points written back in UTF-16. *)
Lemma from_code_points_code_points s : wf_jsstr s -> well_formed_utf16 s = true ->
  from_code_points (code_points s) = s.
Proof.
  induction s as [s IH] using (induction_ltof1 _ (@length N)); unfold ltof in IH.
  destruct s as [|c s]; intros Hs Hw; [done|]. apply Forall_cons in Hs as [Hc Hs].
  cbn [code_points well_formed_utf16] in *. unfold is_leading_surrogate, is_trailing_surrogate in *.
  destruct ((55296 <=? c) && (c <=? 56319)) eqn:Hl.
  - destruct s as [|d s]; [discriminate|]. apply Forall_cons in Hs as [Hd Hs'].
    apply andb_true_iff in Hw as [Hd' Hw]. rewrite Hd'. leb_facts.
    unfold from_code_points. cbn [map concat]. fold (from_code_points (code_points s)).
    rewrite IH by (simpl; lia || done). unfold utf16_encode_point.
    destruct (N.leb_spec (65536 + (c - 55296) * 1024 + (d - 56320)) 65535); [lia|].
    cbn [app]. do 2 f_equal; N_arith.
  - apply andb_true_iff in Hw as [Ht Hw]. apply negb_true_iff in Ht. rewrite Ht.
    unfold from_code_points. cbn [map concat]. fold (from_code_points (code_points s)).
    rewrite IH by (simpl; lia || done). unfold utf16_encode_point.
    destruct (N.leb_spec c 65535); [done | lia].
Qed.

(** Encoding a well-formed string and decoding the bytes gives it back. *)
Lemma utf8_roundtrip s : wf_jsstr s -> well_formed_utf16 s = true ->
  from_code_points (utf8_decode (utf8_encode s)) = s.
Proof.
  intros Hs Hw. unfold utf8_encode. rewrite utf8_decode_points by (by apply code_points_scalar).
  by apply from_code_points_code_points.
Qed.

(** A lone surrogate in a body that is not escaped reaches the receiver
    as U+FFFD. *)
Example utf8_lone_surrogate_replaced :
  from_code_points (utf8_decode (utf8_encode [65; 55296])) = [65; 65533].
Proof. vm_compute. reflexivity. Qed.

(** C27: the bytes [xhr.send] puts on the wire for the [JSON.stringify]
    body of an object of JavaScript strings decode (UTF-8 decoder, then
    UTF-16) to exactly that JSON text: nothing is replaced, since the text
    escapes the lone surrogates and controls the values may hold. *)
Theorem json_body_survives_wire o : json_object_wf o ->
  from_code_points (utf8_decode (utf8_encode (json_stringify o))) = json_stringify o.
Proof.
  intros Ho. destruct (json_stringify_text_ok o Ho) as [Hw Hf].
  apply utf8_roundtrip; [|done]. eapply Forall_impl; [exact Hf | simpl; lia].
Qed.

(** The witness of C27: a value with a lone surrogate and a character
    outside the BMP. *)
Lemma json_body_survives_wire_witness :
  json_object_wf [(⟪"name"⟫, JStr [55296; 65; 55357; 56832])] /\
  from_code_points (utf8_decode (utf8_encode (json_stringify [(⟪"name"⟫, JStr [55296; 65; 55357; 56832])]))) =
    json_stringify [(⟪"name"⟫, JStr [55296; 65; 55357; 56832])].
Proof.
  assert (Hw : json_object_wf [(⟪"name"⟫, JStr [55296; 65; 55357; 56832])]) by (repeat constructor).
  split; [exact Hw | exact (json_body_survives_wire _ Hw)].
Defined.
