(* ===== verification/Regex.v ===== *)
(** The fragment of ECMAScript regular expressions that main.js uses
    (lines 61 and 136), without flags: the assertions [^] and [$], pattern
    characters and identity escapes, character classes with [\s], the empty
    alternative, sequencing (MatchSequence) and quantifiers (RepeatMatcher),
    compiled to continuation-passing matchers as in ECMA-262 22.2.2, and the
    scan of RegExpBuiltinExec behind [RegExp.prototype.test].  The
    repetition is the only non-structural recursion; it runs on fuel, and
    [regex_fuel] is proved enough.  The matchers are sound and complete for
    the declarative semantics [matches]/[repeats]. *)

From S2P Require Import Prelude.

(** ** Syntax *)

(** ClassAtom of a CharacterClass: a unit, or the escape [\s]. *)
Inductive class_atom :=
  | CAChar (c : N)
  | CASpace.

Inductive regex :=
  | REmpty                                  (** the empty Alternative *)
  | RBegin                                  (** [^] *)
  | REnd                                    (** [$] *)
  | RChar (c : N)                           (** PatternCharacter, [\.] *)
  | RClass (invert : bool) (atoms : list class_atom)  (** [[...]], [[^...]] *)
  | RSeq (r1 r2 : regex)                    (** Alternative Term *)
  | RQuant (r : regex) (min : nat) (max : option nat) (greedy : bool).

#[export] Instance class_atom_eq_dec : EqDecision class_atom.
Proof. solve_decision. Defined.
#[export] Instance regex_eq_dec : EqDecision regex.
Proof. solve_decision. Defined.

(** An Alternative [t1 t2 ... tn] is parsed left-recursively from the empty
    Alternative: [((REmpty t1) t2) ... tn]. *)
Definition alternative (ts : list regex) : regex := fold_left RSeq ts REmpty.

(** The greatest [min] of a quantifier in [r]: it bounds the iterations a
    RepeatMatcher performs without consuming input. *)
Fixpoint qmin (r : regex) : nat :=
  match r with
  | RSeq r1 r2 => qmin r1 `max` qmin r2
  | RQuant r1 mn _ _ => mn `max` qmin r1
  | _ => 0
  end.

(** ** CharacterSetMatcher *)

(** Canonicalize is the identity without the [i] flag, so a unit is in the
    set when it equals an atom or, for [\s], is WhiteSpace or
    LineTerminator. *)
Definition class_atom_has (a : class_atom) (ch : N) : bool :=
  match a with
  | CAChar c => N.eqb c ch
  | CASpace => is_js_space ch
  end.

(** [found] xor [invert]: the test of CharacterSetMatcher. *)
Definition char_set_test (invert : bool) (atoms : list class_atom) (ch : N) : bool :=
  xorb invert (existsb (fun a => class_atom_has a ch) atoms).

Section Matcher.
Variable input : list N.

(** A MatcherContinuation maps the endIndex of a MatchState to a
    MatchResult: [None] is failure, [Some e] the endIndex of the whole
    match.  The pattern has no capture groups. *)
Definition cont := nat -> option nat.
Definition matcher := nat -> cont -> option nat.

Definition char_matcher (test : N -> bool) : matcher :=
  fun x c =>
    match input !! x with
    | None => None
    | Some ch => if test ch then c (S x) else None
    end.

(** RepeatMatcher(m, min, max, greedy, x, c), with the empty check of its
    continuation [d]; [fuel] bounds the iterations. *)
Fixpoint repeat_matcher (m : matcher) (fuel : nat) (min : nat) (max : option nat)
    (greedy : bool) (x : nat) (c : cont) : option nat :=
  match fuel with
  | 0 => None
  | S fuel' =>
      if decide (max = Some 0) then c x else
      let d : cont := fun y =>
        if (min =? 0) && (y =? x) then None
        else repeat_matcher m fuel' (pred min) (option_map pred max) greedy y c in
      if negb (min =? 0) then m x d
      else if negb greedy then
        match c x with Some z => Some z | None => m x d end
      else
        match m x d with Some z => Some z | None => c x end
  end.

(** CompileSubpattern. *)
Fixpoint compile (fuel : nat) (r : regex) : matcher :=
  match r with
  | REmpty => fun x c => c x
  | RBegin => fun x c => if x =? 0 then c x else None
  | REnd => fun x c => if x =? length input then c x else None
  | RChar ch => char_matcher (N.eqb ch)
  | RClass inv atoms => char_matcher (char_set_test inv atoms)
  | RSeq r1 r2 => fun x c => compile fuel r1 x (fun y => compile fuel r2 y c)
  | RQuant r1 mn mx g => repeat_matcher (compile fuel r1) fuel mn mx g
  end.

(** ** Declarative semantics: [r] matches [input] from [x] to [y]. *)
Inductive matches : regex -> nat -> nat -> Prop :=
  | m_empty x : matches REmpty x x
  | m_begin : matches RBegin 0 0
  | m_end : matches REnd (length input) (length input)
  | m_char x ch : input !! x = Some ch -> matches (RChar ch) x (S x)
  | m_class x ch inv atoms :
      input !! x = Some ch -> char_set_test inv atoms ch = true ->
      matches (RClass inv atoms) x (S x)
  | m_seq r1 r2 x y z : matches r1 x y -> matches r2 y z -> matches (RSeq r1 r2) x z
  | m_quant r mn mx g x y : repeats r mn mx x y -> matches (RQuant r mn mx g) x y
with repeats : regex -> nat -> option nat -> nat -> nat -> Prop :=
  | rep_stop r mn mx x : mn = 0 \/ mx = Some 0 -> repeats r mn mx x x
  | rep_step r mn mx x y z :
      mx <> Some 0 -> matches r x y -> (mn = 0 -> y <> x) ->
      repeats r (pred mn) (option_map pred mx) y z -> repeats r mn mx x z.

Scheme matches_mut := Induction for matches Sort Prop
with repeats_mut := Induction for repeats Sort Prop.

(** The fuel of a run of [r] on [input]. *)
Definition regex_fuel (r : regex) : nat := length input + qmin r + 1.

(** RegExpBuiltinExec for a regular expression without the [g] and [y]
    flags: try the matcher at lastIndex 0, 1, ..., length input. *)
Fixpoint exec_scan (m : matcher) (k i : nat) : option (nat * nat) :=
  match k with
  | 0 => None
  | S k' =>
      if length input <? i then None else
      match m i (fun y => Some y) with
      | Some e => Some (i, e)
      | None => exec_scan m k' (S i)
      end
  end.
End Matcher.

Arguments matches : clear implicits.
Arguments repeats : clear implicits.

Definition regexp_exec (r : regex) (s : list N) : option (nat * nat) :=
  exec_scan s (compile s (regex_fuel s r) r) (S (length s)) 0.

(** [r.test(s)]. *)
Definition regexp_test (r : regex) (s : list N) : bool :=
  match regexp_exec r s with Some _ => true | None => false end.

Section Correctness.
Variable input : list N.

(** *** Soundness: a match the matcher finds is a match of the semantics. *)

Lemma char_matcher_sound test x c z :
  char_matcher input test x c = Some z ->
  exists ch, input !! x = Some ch /\ test ch = true /\ c (S x) = Some z.
Proof.
  unfold char_matcher. destruct (input !! x) as [ch|]; [|discriminate].
  destruct (test ch) eqn:Ht; [eauto | discriminate].
Qed.

Lemma repeat_matcher_sound r (m : matcher) :
  (forall x c z, m x c = Some z -> exists y, matches input r x y /\ c y = Some z) ->
  forall fuel mn mx g x c z, repeat_matcher m fuel mn mx g x c = Some z ->
  exists y, repeats input r mn mx x y /\ c y = Some z.
Proof.
  intros Hm fuel. induction fuel as [|fuel IH]; intros mn mx g x c z; simpl; [discriminate|].
  case_decide as Hmx.
  { intros Hc. exists x. split; [constructor; by right | done]. }
  set (d := fun y => if (mn =? 0) && (y =? x) then None
                     else repeat_matcher m fuel (pred mn) (option_map pred mx) g y c).
  assert (Hstep : m x d = Some z -> exists y, repeats input r mn mx x y /\ c y = Some z).
  { intros Hmd. destruct (Hm _ _ _ Hmd) as (y & Hxy & Hd). subst d; simpl in Hd.
    destruct ((mn =? 0) && (y =? x)) eqn:E; [discriminate|].
    destruct (IH _ _ _ _ _ _ Hd) as (w & Hw & Hcw). exists w. split; [|done].
    apply rep_step with y; auto. intros -> ->. by rewrite !Nat.eqb_refl in E. }
  assert (Hstop : mn = 0 -> c x = Some z -> exists y, repeats input r mn mx x y /\ c y = Some z).
  { intros -> Hc. exists x. split; [constructor; by left | done]. }
  destruct (mn =? 0) eqn:Hmn; simpl; [apply Nat.eqb_eq in Hmn | exact Hstep].
  destruct g; simpl.
  - destruct (m x d) eqn:E; intros H; [inversion H; subst; auto | auto].
  - destruct (c x) eqn:E; intros H; [inversion H; subst; auto | auto].
Qed.

Theorem compile_sound fuel r :
  forall x c z, compile input fuel r x c = Some z ->
  exists y, matches input r x y /\ c y = Some z.
Proof.
  induction r as [| | |ch|inv atoms|r1 IH1 r2 IH2|r1 IH mn mx g]; intros x c z; simpl.
  - intros H. exists x. split; [constructor | done].
  - destruct (x =? 0) eqn:E; [apply Nat.eqb_eq in E; subst|discriminate].
    intros H. exists 0. split; [constructor | done].
  - destruct (x =? length input) eqn:E; [apply Nat.eqb_eq in E; subst|discriminate].
    intros H. exists (length input). split; [constructor | done].
  - intros (ch' & Hx & Ht & Hc)%char_matcher_sound. apply N.eqb_eq in Ht; subst.
    exists (S x). split; [by constructor | done].
  - intros (ch & Hx & Ht & Hc)%char_matcher_sound.
    exists (S x). split; [by econstructor | done].
  - intros (y & H1 & (w & H2 & Hc)%IH2)%IH1. exists w. split; [by econstructor | done].
  - intros (y & Hr & Hc)%(repeat_matcher_sound r1 _ (IH)). exists y.
    split; [by constructor | done].
Qed.

(** *** Completeness: the matcher finds every match, with enough fuel. *)

Lemma matches_bounds :
  forall r x y, matches input r x y -> x <= y /\ (y <= length input \/ y = x).
Proof.
  apply (matches_mut input (fun r x y _ => x <= y /\ (y <= length input \/ y = x))
                           (fun r mn mx x y _ => x <= y /\ (y <= length input \/ y = x)));
    intros; try lia.
  - apply lookup_lt_Some in e. lia.
  - apply lookup_lt_Some in e. lia.
Qed.

Lemma compile_complete :
  forall r x y, matches input r x y ->
  forall fuel c z, length input + qmin r + 1 <= fuel -> c y = Some z ->
  exists z', compile input fuel r x c = Some z'.
Proof.
  apply (matches_mut input
    (fun r x y _ => forall fuel c z, length input + qmin r + 1 <= fuel -> c y = Some z ->
                    exists z', compile input fuel r x c = Some z')
    (fun r mn mx x y _ => forall fuel f g c z, length input + qmin r + 1 <= fuel ->
                    mn + (length input - x) + 1 <= f -> c y = Some z ->
                    exists z', repeat_matcher (compile input fuel r) f mn mx g x c = Some z'));
    simpl.
  - eauto.
  - eauto.
  - intros. rewrite Nat.eqb_refl. eauto.
  - intros x ch Hx fuel c z _ Hc. unfold char_matcher. rewrite Hx, N.eqb_refl. eauto.
  - intros x ch inv atoms Hx Ht fuel c z _ Hc. unfold char_matcher. rewrite Hx, Ht. eauto.
  - intros r1 r2 x y z _ IH1 _ IH2 fuel c w Hf Hc.
    destruct (IH2 fuel c w) as [w' Hw']; [lia | done |].
    apply (IH1 fuel _ w'); [lia | done].
  - intros r mn mx g x y _ IH fuel c z Hf Hc. apply (IH fuel fuel g c z); [lia | lia | done].
  - intros r mn mx x Hstop fuel f g c z _ Hf Hc.
    destruct f as [|f]; [lia|]. simpl. case_decide; [eauto|].
    destruct Hstop as [->|]; [|done]. simpl.
    destruct g; simpl; [destruct (compile input fuel r x _) |]; eauto.
    rewrite Hc. eauto.
  - intros r mn mx x y z Hmx Hxy IHxy Hne _ IHyz fuel f g c w Hfuel Hf Hc.
    destruct (matches_bounds _ _ _ Hxy) as [Hle Hy].
    destruct f as [|f]; [lia|]. simpl. case_decide; [done|].
    destruct (IHyz fuel f g c w) as [w' Hw']; [lia | |done|].
    { destruct mn; simpl in *; [|lia].
      destruct Hy as [Hy | ->]; [|by destruct Hne]. assert (y <> x) by auto. lia. }
    edestruct (IHxy fuel (fun y0 => if (mn =? 0) && (y0 =? x) then None
               else repeat_matcher (compile input fuel r) f (pred mn) (option_map pred mx) g y0 c))
      as [v Hv]; [lia | |].
    { simpl. destruct (mn =? 0) eqn:Emn; simpl; [|exact Hw'].
      destruct (y =? x) eqn:Eyx; [|exact Hw'].
      apply Nat.eqb_eq in Emn, Eyx. by destruct (Hne Emn). }
    rewrite Hv. destruct (negb (mn =? 0)); [eauto|].
    destruct g; simpl; [eauto|]. destruct (c x); eauto.
Qed.
End Correctness.

(** ** [test] *)

Lemma exec_scan_sound input (m : matcher) k i j e :
  exec_scan input m k i = Some (j, e) ->
  i <= j /\ j <= length input /\ m j (fun y => Some y) = Some e.
Proof.
  revert i. induction k as [|k IH]; intros i; simpl; [discriminate|].
  destruct (length input <? i) eqn:E; [discriminate|]. apply Nat.ltb_ge in E.
  destruct (m i _) eqn:Em.
  - intros [= <- <-]. auto.
  - intros (? & ? & ?)%IH. split; [lia | auto].
Qed.

Lemma exec_scan_complete input (m : matcher) k i j e :
  i <= j < i + k -> j <= length input -> m j (fun y => Some y) = Some e ->
  exists p, exec_scan input m k i = Some p.
Proof.
  revert i. induction k as [|k IH]; intros i Hij Hj Hm; [lia|]. simpl.
  destruct (length input <? i) eqn:E; [apply Nat.ltb_lt in E; lia|].
  destruct (m i _) eqn:Em; [eauto|].
  destruct (decide (i = j)) as [->|]; [congruence|]. apply IH; [lia | done | done].
Qed.

(** [test] succeeds exactly when the pattern matches from some start index. *)
Lemma regexp_test_matches r s :
  regexp_test r s = true <-> exists x y, x <= length s /\ matches s r x y.
Proof.
  unfold regexp_test, regexp_exec. split.
  - destruct (exec_scan _ _ _ _) as [[j e]|] eqn:E; [|discriminate]. intros _.
    apply exec_scan_sound in E as (_ & Hj & Hm).
    apply compile_sound in Hm as (y & Hy & _). eauto.
  - intros (x & y & Hx & Hxy).
    destruct (compile_complete s r x y Hxy (regex_fuel s r) (fun y => Some y) y)
      as [e He]; [unfold regex_fuel; lia | done |].
    destruct (exec_scan_complete s (compile s (regex_fuel s r) r) (S (length s)) 0 x e)
      as [p ->]; [lia | done | done | done].
Qed.

(** C1: [r.test(s)] holds exactly when the pattern matches a part of [s]
    starting at some index from 0 to the length of [s] — the backtracking
    matcher with its fuel loses no match and invents none. *)
Theorem regexp_test_correct r s :
  regexp_test r s = true <-> exists x y, x <= length s /\ matches s r x y.
Proof. apply regexp_test_matches. Qed.
