(* ===== verification/Email.v ===== *)
(** The e-mail check of main.js, [/^[^\s@]+@[^\s@]+\.[^\s@]+$/.test(email)]
    (line 61 for the client form, line 136 for the candidate form), as a
    value of the [Regex] syntax, and the language it accepts: exactly the
    strings [a@b.c] with [a], [b], [c] non-empty and free of white space
    and of [@].  [b] and [c] may hold further dots: the pattern backtracks
    to any dot of the domain. *)

From S2P Require Import Prelude Regex.

(** ** The pattern *)

(** [[^\s@]]: an inverted class of [\s] and ['@'] (unit 64). *)
Definition not_space_or_at : regex := RClass true [CASpace; CAChar 64].

(** The quantifier [+]: [{1,}], greedy. *)
Definition plus (r : regex) : regex := RQuant r 1 None true.

(** [^[^\s@]+@[^\s@]+\.[^\s@]+$]; ['.'] is unit 46. *)
Definition email_regex : regex :=
  alternative [RBegin; plus not_space_or_at; RChar 64; plus not_space_or_at;
               RChar 46; plus not_space_or_at; REnd].

(** ** The language *)

(** A unit allowed in each of the three parts. *)
Definition email_unit (ch : N) : bool := negb (is_js_space ch) && negb (N.eqb ch 64).

Definition email_shape (s : list N) : Prop :=
  exists a b c, s = a ++ [64%N] ++ b ++ [46%N] ++ c /\
    a <> [] /\ b <> [] /\ c <> [] /\
    Forall (fun u => email_unit u = true) (a ++ b ++ c).

(** The units of [s] from index [x] (included) to [y] (excluded). *)
Definition slice (s : list N) (x y : nat) : list N := take (y - x) (drop x s).

(** ** Lemmas *)

Lemma not_space_or_at_test ch :
  char_set_test true [CASpace; CAChar 64] ch = email_unit ch.
Proof.
  unfold char_set_test, email_unit. cbn [existsb class_atom_has]. rewrite orb_false_r.
  destruct (is_js_space ch), (N.eqb_spec 64 ch), (N.eqb_spec ch 64); subst; simpl; congruence.
Qed.

Lemma drop_slice s x y : x <= y -> drop x s = slice s x y ++ drop y s.
Proof.
  intros Hxy. unfold slice. rewrite <- (take_drop (y - x) (drop x s)) at 1.
  f_equal. rewrite drop_drop. f_equal. lia.
Qed.

Lemma slice_cons s x y ch :
  s !! x = Some ch -> x < y -> slice s x y = ch :: slice s (S x) y.
Proof.
  intros Hx Hxy. unfold slice. rewrite (drop_S s ch x Hx).
  replace (y - x) with (S (y - S x)) by lia. done.
Qed.

Lemma length_slice s x y : y <= length s -> length (slice s x y) = y - x.
Proof. intros. unfold slice. rewrite length_take, length_drop. lia. Qed.

(** A run of a class quantified [{mn,}]: at least [mn] units, all in the class. *)
Lemma repeats_class_sound s inv atoms mn x y :
  repeats s (RClass inv atoms) mn None x y ->
  mn <= y - x /\ Forall (fun ch => char_set_test inv atoms ch = true) (slice s x y).
Proof.
  intros H. remember (RClass inv atoms) as r eqn:Hr. remember None as mx eqn:Hmx.
  induction H as [r mn mx x Hstop | r mn mx x y z _ Hm _ Hrep IH]; subst.
  - destruct Hstop as [->|]; [|discriminate].
    unfold slice. rewrite Nat.sub_diag. split; [lia | constructor].
  - inversion Hm as [| | | |x' ch inv' atoms' Hch Ht| |]; subst.
    pose proof (matches_bounds s _ _ _ (m_quant _ _ _ _ true _ _ Hrep)) as [Hyz _].
    destruct IH as [IH1 IH2]; [done | done |]. split; [destruct mn; simpl in *; lia|].
    rewrite (slice_cons s x z ch); [by constructor | done | lia].
Qed.

(** Any non-empty run of units of the class is matched. *)
Lemma repeats_class_complete inv atoms pre w post mn :
  Forall (fun ch => char_set_test inv atoms ch = true) w -> mn <= length w ->
  repeats (pre ++ w ++ post) (RClass inv atoms) mn None (length pre) (length pre + length w).
Proof.
  revert pre mn. induction w as [|ch w IH]; intros pre mn Hw Hmn; simpl in *.
  - rewrite Nat.add_0_r. apply rep_stop. left. lia.
  - inversion Hw as [|? ? Hch Hw']; subst.
    apply rep_step with (S (length pre)); [discriminate | | lia |].
    + apply m_class with ch; [|done]. by rewrite lookup_app_r, Nat.sub_diag by lia.
    + replace (pre ++ ch :: w ++ post) with ((pre ++ [ch]) ++ w ++ post)
        by by rewrite <- app_assoc.
      replace (length pre + S (length w)) with (length (pre ++ [ch]) + length w)
        by (rewrite length_app; simpl; lia).
      replace (S (length pre)) with (length (pre ++ [ch])) by (rewrite length_app; simpl; lia).
      apply IH; [done | lia].
Qed.

Lemma email_unit_class w :
  Forall (fun ch => char_set_test true [CASpace; CAChar 64] ch = true) w <->
  Forall (fun u => email_unit u = true) w.
Proof. apply Forall_iff. intros ch. by rewrite not_space_or_at_test. Qed.

Lemma plus_class_at s pre w post x y :
  s = pre ++ w ++ post -> w <> [] -> Forall (fun u => email_unit u = true) w ->
  x = length pre -> y = length pre + length w ->
  matches s (plus not_space_or_at) x y.
Proof.
  intros -> Hw Hu -> ->. constructor. apply repeats_class_complete.
  - by apply email_unit_class.
  - destruct w; [done | simpl; lia].
Qed.

Lemma char_at s pre ch post x :
  s = pre ++ ch :: post -> x = length pre -> matches s (RChar ch) x (S x).
Proof. intros -> ->. constructor. by rewrite lookup_app_r, Nat.sub_diag by lia. Qed.

Lemma plus_class_slice s x y :
  matches s (plus not_space_or_at) x y ->
  x < y /\ Forall (fun u => email_unit u = true) (slice s x y).
Proof.
  intros H. inversion H; subst.
  match goal with Hr : repeats _ _ _ _ _ _ |- _ => apply repeats_class_sound in Hr as [? ?] end.
  split; [lia | by apply email_unit_class].
Qed.

Lemma email_shape_of_positions s p1 p2 :
  0 < p1 -> S p1 < p2 -> S p2 < length s ->
  s !! p1 = Some 64%N -> s !! p2 = Some 46%N ->
  Forall (fun u => email_unit u = true) (slice s 0 p1) ->
  Forall (fun u => email_unit u = true) (slice s (S p1) p2) ->
  Forall (fun u => email_unit u = true) (slice s (S p2) (length s)) ->
  email_shape s.
Proof.
  intros H1 H2 H3 H64 H46 Ha Hb Hc.
  exists (slice s 0 p1), (slice s (S p1) p2), (slice s (S p2) (length s)).
  split; [|split; [|split; [|split]]].
  - rewrite <- (drop_0 s) at 1. rewrite (drop_slice s 0 p1) by lia.
    rewrite (drop_S s 64%N p1), (drop_slice s (S p1) p2), (drop_S s 46%N p2),
      (drop_slice s (S p2) (length s)), drop_all by (done || lia).
    by rewrite app_nil_r.
  - intros Ha'. apply (f_equal length) in Ha'. rewrite length_slice in Ha'; simpl in Ha'; lia.
  - intros Ha'. apply (f_equal length) in Ha'. rewrite length_slice in Ha'; simpl in Ha'; lia.
  - intros Ha'. apply (f_equal length) in Ha'. rewrite length_slice in Ha'; simpl in Ha'; lia.
  - repeat apply Forall_app_2; done.
Qed.

Ltac solve_positions :=
  first [ done
        | by rewrite ?app_nil_r, <- ?app_assoc
        | rewrite ?length_app; simpl; lia ].

Ltac invert_matches :=
  repeat match goal with
  | H : matches _ (RSeq _ _) _ _ |- _ => inversion H; subst; clear H
  | H : matches _ REmpty _ _ |- _ => inversion H; subst; clear H
  | H : matches _ RBegin _ _ |- _ => inversion H; subst; clear H
  | H : matches _ REnd _ _ |- _ => inversion H; subst; clear H
  | H : matches _ (RChar _) _ _ |- _ => inversion H; subst; clear H
  end.

(** The pattern accepts exactly the e-mail shape. *)
Lemma email_regex_shape s :
  regexp_test email_regex s = true <-> email_shape s.
Proof.
  rewrite regexp_test_matches. split.
  - intros (x & y & _ & H). cbn in H. invert_matches.
    repeat match goal with
      H : matches _ (plus _) _ _ |- _ => apply plus_class_slice in H as [? ?] end.
    eapply email_shape_of_positions; eassumption.
  - intros (a & b & c & -> & Ha & Hb & Hc & Hu).
    apply Forall_app in Hu as [Hua Hu]. apply Forall_app in Hu as [Hub Huc].
    exists 0, (length (a ++ [64%N] ++ b ++ [46%N] ++ c)). split; [lia|]. cbn.
    apply m_seq with (y := length (a ++ [64%N] ++ b ++ [46%N] ++ c)); [|apply m_end].
    apply m_seq with (y := length (a ++ [64%N] ++ b ++ [46%N])).
    2: apply (plus_class_at _ (a ++ [64%N] ++ b ++ [46%N]) c []); solve_positions.
    apply m_seq with (y := length (a ++ [64%N] ++ b)).
    2:{ replace (length (a ++ [64%N] ++ b ++ [46%N])) with (S (length (a ++ [64%N] ++ b)))
          by solve_positions.
        apply (char_at _ (a ++ [64%N] ++ b) _ c); solve_positions. }
    apply m_seq with (y := length (a ++ [64%N])).
    2: apply (plus_class_at _ (a ++ [64%N]) b ([46%N] ++ c)); solve_positions.
    apply m_seq with (y := length a).
    2:{ replace (length (a ++ [64%N])) with (S (length a)) by solve_positions.
        apply (char_at _ a _ (b ++ [46%N] ++ c)); solve_positions. }
    apply m_seq with (y := 0); [apply m_seq with (y := 0); constructor|].
    apply (plus_class_at _ [] a ([64%N] ++ b ++ [46%N] ++ c)); solve_positions.
Qed.

(** C2: the e-mail check of both forms accepts exactly the strings
    [a ++ "@" ++ b ++ "." ++ c] with [a], [b] and [c] non-empty and made
    of units that are neither white space nor ['@']. *)
Theorem email_regex_test_iff s :
  regexp_test email_regex s = true <-> email_shape s.
Proof. apply email_regex_shape. Qed.

(** The pattern on the strings of the spec's examples, by evaluation. *)
Example email_accepts_simple : regexp_test email_regex ⟪"a@b.c"⟫ = true.
Proof. vm_compute. reflexivity. Qed.

Example email_rejects_no_dot : regexp_test email_regex ⟪"a@bc"⟫ = false.
Proof. vm_compute. reflexivity. Qed.

Example email_rejects_leading_space : regexp_test email_regex ⟪" a@b.c"⟫ = false.
Proof. vm_compute. reflexivity. Qed.

Example email_accepts_dot_first_domain : regexp_test email_regex ⟪"a@.b.c"⟫ = true.
Proof. vm_compute. reflexivity. Qed.
