(* ===== verification/Binary64.v ===== *)
(** The binary64 format of Numbers, on the Standard Library's
    [SpecFloat]: precision 53, maximal exponent 1024, and what
    [binary_round] (round to nearest, ties to even) does to a positive
    integer.  Below [2^53] an integer is a Number exactly; from [2^53] on,
    its mantissa is shifted right with a round bit and a sticky bit, and
    the result is a finite Number exactly when the integer is below
    [2^1024 - 2^970], the midpoint between the largest finite Number
    [(2^53 - 1) * 2^971] and [2^1024], which rounds to the even [2^1024]
    and so to [+Infinity]. *)

From S2P Require Import Prelude.
From Stdlib Require Import SpecFloat.

Local Open Scope Z_scope.

Definition prec : Z := 53.
Definition emax : Z := 1024.

(** ** Sizes and shifts of positive numbers *)

Lemma digits2_pos_size p : digits2_pos p = Pos.size p.
Proof. induction p; simpl; congruence. Qed.

Lemma iter_xO_mul p k : Zpos (Pos.iter xO p k) = (Zpos p * 2 ^ Zpos k)%Z.
Proof.
  induction k as [|k IH] using Pos.peano_ind.
  - simpl. lia.
  - rewrite Pos.iter_succ, Pos2Z.inj_succ, Z.pow_succ_r by lia.
    change (Zpos (Pos.iter xO p k)~0) with (2 * Zpos (Pos.iter xO p k))%Z. lia.
Qed.

Lemma size_iter_xO p k : Pos.size (Pos.iter xO p k) = (Pos.size p + k)%positive.
Proof.
  induction k as [|k IH] using Pos.peano_ind.
  - simpl. lia.
  - rewrite Pos.iter_succ. simpl. lia.
Qed.

Lemma size_bounds p : (2 ^ Zpos (Pos.size p) <= 2 * Zpos p /\ Zpos p < 2 ^ Zpos (Pos.size p))%Z.
Proof.
  pose proof (Pos.size_le p) as H1. pose proof (Pos.size_gt p) as H2.
  split.
  - apply Pos2Z.pos_le_pos in H1. rewrite Pos2Z.inj_pow in H1. lia.
  - apply Pos2Z.pos_lt_pos in H2. rewrite Pos2Z.inj_pow in H2. lia.
Qed.

(** A positive number below [2^b] and at least [2^(b-1)] has [b] bits. *)
Lemma size_of_bounds p b :
  (2 ^ (b - 1) <= Zpos p < 2 ^ b)%Z -> Zpos (Pos.size p) = b.
Proof.
  intros Hb. pose proof (size_bounds p) as [H1 H2].
  destruct (Z.lt_trichotomy (Zpos (Pos.size p)) b) as [Hlt|[Heq|Hgt]]; [|done|].
  - assert (2 ^ Zpos (Pos.size p) <= 2 ^ (b - 1))%Z by (apply Z.pow_le_mono_r; lia). lia.
  - assert (2 ^ b <= 2 ^ (Zpos (Pos.size p) - 1))%Z by (apply Z.pow_le_mono_r; lia).
    assert (2 ^ Zpos (Pos.size p) = 2 * 2 ^ (Zpos (Pos.size p) - 1))%Z
      by (rewrite <- Z.pow_succ_r by lia; f_equal; lia).
    lia.
Qed.

(** ** Integers below [2^53] *)

(** A mantissa of exactly 53 bits at a normal exponent is rounded to itself. *)
Lemma round_aux_exact sx m e :
  Pos.size m = 53%positive -> (-1074 <= e <= 971) ->
  binary_round_aux prec emax sx (Zpos m) e loc_Exact = S754_finite sx m e.
Proof.
  intros Hm He.
  assert (Hf : fexp prec emax (Zpos (digits2_pos m) + e) = e)
    by (rewrite digits2_pos_size, Hm; unfold fexp, emin, prec, emax; lia).
  unfold binary_round_aux, shr_fexp, Zdigits2. rewrite Hf, Z.sub_diag.
  cbn -[Z.leb fexp digits2_pos]. rewrite Hf, Z.sub_diag. cbn -[Z.leb].
  replace (e <=? emax - prec) with true by (unfold emax, prec; lia). reflexivity.
Qed.

(** An integer below [2^53] is a Number exactly: its mantissa is shifted
    to 53 bits. *)
Lemma binary_round_small_int p :
  (Zpos p < 2 ^ 53) ->
  exists m, binary_round prec emax false p 0 = S754_finite false m (Zpos (Pos.size p) - 53) /\
            Zpos m = (Zpos p * 2 ^ (53 - Zpos (Pos.size p))).
Proof.
  intros Hp. pose proof (size_bounds p) as [Hs1 Hs2].
  assert (Hsz : (Zpos (Pos.size p) <= 53)).
  { destruct (Z.le_gt_cases (Zpos (Pos.size p)) 53) as [|Hgt]; [done|].
    assert (2 ^ 54 <= 2 ^ Zpos (Pos.size p)) by (apply Z.pow_le_mono_r; lia). lia. }
  unfold binary_round, shl_align. rewrite digits2_pos_size.
  replace (fexp prec emax (Zpos (Pos.size p) + 0)) with (Zpos (Pos.size p) - 53)
    by (unfold fexp, emin, prec, emax; lia).
  destruct (Zpos (Pos.size p) - 53 - 0) as [|d|d] eqn:E.
  - exists p. rewrite round_aux_exact by lia.
    replace (Zpos (Pos.size p) - 53) with 0 by lia. split; [done|].
    replace (53 - Zpos (Pos.size p)) with 0 by lia. lia.
  - lia.
  - exists (Pos.iter xO p d). rewrite round_aux_exact; [split; [done|] | | lia].
    + rewrite iter_xO_mul. do 2 f_equal. lia.
    + apply Pos2Z.inj. rewrite size_iter_xO, Pos2Z.inj_add. simpl. lia.
Qed.

(** ** The right shift with round and sticky bits *)

Lemma iter_pos_iter {A} (f : A -> A) p x : iter_pos f p x = Pos.iter f x p.
Proof.
  revert x. induction p as [p IH|p IH|]; intros x; simpl; [| |reflexivity].
  - by rewrite !IH, !Pos.iter_swap.
  - by rewrite !IH.
Qed.

Lemma shr_1_nonneg m r s : (0 <= m)%Z ->
  shr_1 {| shr_m := m; shr_r := r; shr_s := s |} =
  {| shr_m := m / 2; shr_r := Z.odd m; shr_s := r || s |}.
Proof.
  intros Hm. destruct m as [|[p|p|]|p]; [reflexivity | | | reflexivity | lia]; cbn [shr_1].
  - f_equal. change (Zpos p~1) with (2 * Zpos p + 1)%Z. Z.div_mod_to_equations. lia.
  - f_equal. change (Zpos p~0) with (2 * Zpos p)%Z. Z.div_mod_to_equations. lia.
Qed.

Lemma mod_mul_2 n b : 0 < b -> n mod (b * 2) = n mod b + b * ((n / b) mod 2).
Proof.
  intros Hb. symmetry. apply Z.mod_unique_pos with (q := n / b / 2).
  - pose proof (Z.mod_pos_bound n b Hb). pose proof (Z.mod_pos_bound (n / b) 2). nia.
  - rewrite (Z.div_mod n b) at 1 by lia. rewrite (Z.div_mod (n / b) 2) at 1 by lia. ring.
Qed.

(** [j + 1] shifts of [n]: the quotient by [2^(j+1)], the bit of weight
    [2^j] as round bit, and whether a lower bit is set as sticky bit. *)
Lemma shr_iter n j : (0 <= n)%Z -> (0 <= j)%Z ->
  Pos.iter shr_1 {| shr_m := n; shr_r := false; shr_s := false |} (Z.to_pos (j + 1)) =
  {| shr_m := n / 2 ^ (j + 1); shr_r := Z.odd (n / 2 ^ j); shr_s := negb (n mod 2 ^ j =? 0) |}.
Proof.
  intros Hn. revert j. apply natlike_ind.
  - change (Pos.iter shr_1 ?x (Z.to_pos (0 + 1))) with (shr_1 x).
    rewrite shr_1_nonneg by done. change (0 + 1) with 1.
    by rewrite Z.pow_1_r, Z.pow_0_r, Z.div_1_r, Z.mod_1_r.
  - intros j Hj IH. replace (Z.to_pos (Z.succ j + 1)) with (Pos.succ (Z.to_pos (j + 1))) by lia.
    rewrite Pos.iter_succ, IH, shr_1_nonneg by (apply Z.div_pos; lia).
    assert (Hp : (2 ^ (Z.succ j + 1) = 2 ^ (j + 1) * 2 /\ 2 ^ (j + 1) = 2 ^ j * 2)%Z)
      by (split; rewrite Z.mul_comm, <- Z.pow_succ_r by lia; f_equal; lia).
    destruct Hp as [Hp1 Hp2]. f_equal.
    + rewrite Hp1, Z.div_div by lia. reflexivity.
    + replace (Z.succ j) with (j + 1)%Z by lia.
      rewrite Hp2, mod_mul_2, Zmod_odd by lia.
      pose proof (Z.mod_pos_bound n (2 ^ j)) as Hb. pose proof (Z.pow_pos_nonneg 2 j).
      destruct (Z.odd (n / 2 ^ j)), (Z.eqb_spec (n mod 2 ^ j) 0);
        match goal with |- context [?x =? 0] => destruct (Z.eqb_spec x 0) end;
        simpl; try reflexivity; lia.
Qed.

Lemma round_nearest_even_loc m r s :
  round_nearest_even m (loc_of_shr_record {| shr_m := m; shr_r := r; shr_s := s |}) =
  if r && (s || negb (Z.even m)) then (m + 1)%Z else m.
Proof. destruct r, s; simpl; try reflexivity. by destruct (Z.even m). Qed.

(** ** Rounding a positive integer of at least [2^53] *)

(** The first shift: an integer of [s >= 54] bits keeps its top 53 bits,
    at exponent [s - 53]. *)
Lemma shr_fexp_large p : 54 <= Zpos (Pos.size p) ->
  shr_fexp prec emax (Zpos p) 0 loc_Exact =
  ({| shr_m := Zpos p / 2 ^ (Zpos (Pos.size p) - 53);
      shr_r := Z.odd (Zpos p / 2 ^ (Zpos (Pos.size p) - 54));
      shr_s := negb (Zpos p mod 2 ^ (Zpos (Pos.size p) - 54) =? 0) |}, Zpos (Pos.size p) - 53).
Proof.
  intros Hs. unfold shr_fexp, Zdigits2. rewrite digits2_pos_size.
  replace (fexp prec emax (Zpos (Pos.size p) + 0) - 0)
    with (Zpos (Z.to_pos ((Zpos (Pos.size p) - 54) + 1)))
    by (rewrite Z2Pos.id by lia; unfold fexp, emin, prec, emax; lia).
  cbn [shr shr_record_of_loc]. rewrite iter_pos_iter, shr_iter, Z2Pos.id by lia.
  by replace (Zpos (Pos.size p) - 54 + 1) with (Zpos (Pos.size p) - 53) by lia.
Qed.

(** The second shift: a rounded mantissa of 53 bits stays; the carry
    [2^53] becomes [2^52] one exponent up. *)
Lemma shr_fexp_rounded m e : 2 ^ 52 <= m <= 2 ^ 53 -> -1021 <= e ->
  shr_fexp prec emax m e loc_Exact =
  if m =? 2 ^ 53 then ({| shr_m := 2 ^ 52; shr_r := false; shr_s := false |}, e + 1)
  else ({| shr_m := m; shr_r := false; shr_s := false |}, e).
Proof.
  intros Hm He. destruct m as [|q|q]; [lia | | lia]. unfold shr_fexp, Zdigits2.
  rewrite digits2_pos_size. destruct (Z.eqb_spec (Zpos q) (2 ^ 53)) as [Hq|Hq].
  - rewrite (size_of_bounds q 54) by (rewrite Hq; split; reflexivity).
    replace (fexp prec emax (54 + e) - e) with 1 by (unfold fexp, emin, prec, emax; lia).
    cbn [shr shr_record_of_loc iter_pos]. rewrite shr_1_nonneg by lia. rewrite Hq. reflexivity.
  - rewrite (size_of_bounds q 53) by lia.
    replace (fexp prec emax (53 + e) - e) with 0 by (unfold fexp, emin, prec, emax; lia).
    reflexivity.
Qed.

(** The top 53 bits of an integer of [s] bits. *)
Lemma top_bits_range n s : 54 <= s -> 2 ^ (s - 1) <= n < 2 ^ s ->
  2 ^ 52 <= n / 2 ^ (s - 53) < 2 ^ 53.
Proof.
  intros Hs Hn. assert (Hk : 0 < 2 ^ (s - 53)) by (apply Z.pow_pos_nonneg; lia).
  assert (H1 : 2 ^ (s - 1) = 2 ^ 52 * 2 ^ (s - 53)) by (rewrite <- Z.pow_add_r by lia; f_equal; lia).
  assert (H2 : 2 ^ s = 2 ^ 53 * 2 ^ (s - 53)) by (rewrite <- Z.pow_add_r by lia; f_equal; lia).
  split; [apply Z.div_le_lower_bound | apply Z.div_lt_upper_bound]; lia.
Qed.

(** The mantissa rounded to nearest, ties to even, lies in
    [[2^52, 2^53]], and the exponent after the carry is at most [971]
    exactly when the integer is below [2^1024 - 2^970]. *)
Lemma rounded_exponent_bound n s : 54 <= s -> 2 ^ (s - 1) <= n < 2 ^ s ->
  let m1 := n / 2 ^ (s - 53) in
  let m2 := if Z.odd (n / 2 ^ (s - 54)) && (negb (n mod 2 ^ (s - 54) =? 0) || negb (Z.even m1))
            then m1 + 1 else m1 in
  2 ^ 52 <= m2 <= 2 ^ 53 /\
  ((if m2 =? 2 ^ 53 then s - 52 else s - 53) <= 971 <-> n < 2 ^ 1024 - 2 ^ 970).
Proof.
  intros Hs Hn m1 m2. pose proof (top_bits_range n s Hs Hn) as Hm1.
  assert (Hm2 : 2 ^ 52 <= m2 <= 2 ^ 53) by (unfold m2; destruct (_ && _); lia).
  split; [exact Hm2|].
  destruct (Z.lt_trichotomy s 1024) as [Hlt|[->|Hgt]].
  - assert (2 ^ s <= 2 ^ 1023) by (apply Z.pow_le_mono_r; lia).
    destruct (m2 =? 2 ^ 53); lia.
  - set (q := n / 2 ^ 970).
    assert (Hm1q : m1 = q / 2).
    { unfold m1, q. change (1024 - 53) with 971.
      replace (2 ^ 971) with (2 ^ 970 * 2) by reflexivity. symmetry. apply Z.div_div; lia. }
    assert (Hq2 : q < 2 ^ 54) by (apply Z.div_lt_upper_bound; lia).
    assert (Hiff : 2 ^ 54 - 1 <= q <-> 2 ^ 1024 - 2 ^ 970 <= n).
    { split; intros Hle.
      - pose proof (Z.mul_div_le n (2 ^ 970) ltac:(lia)) as Hmul. fold q in Hmul. lia.
      - apply Z.div_le_lower_bound; lia. }
    pose proof (Z.div_mod q 2 ltac:(lia)) as Hqd. rewrite Zmod_odd in Hqd.
    pose proof (Z.div_mod (q / 2) 2 ltac:(lia)) as Hmd. rewrite Zmod_even in Hmd.
    unfold m2. change (1024 - 54) with 970. fold q. rewrite Hm1q in *.
    destruct (Z.odd q), (Z.even (q / 2)), (negb (n mod 2 ^ 970 =? 0)); simpl;
      match goal with |- context [?x =? 2 ^ 53] => destruct (Z.eqb_spec x (2 ^ 53)) end; lia.
  - assert (2 ^ 1024 <= 2 ^ (s - 1)) by (apply Z.pow_le_mono_r; lia).
    destruct (m2 =? 2 ^ 53); lia.
Qed.

(** An integer of at least [2^53] rounds to a finite Number of exponent
    at least 1 below [2^1024 - 2^970], and to [+Infinity] from there on. *)
Lemma binary_round_large p : 2 ^ 53 <= Zpos p ->
  (Zpos p < 2 ^ 1024 - 2 ^ 970 ->
   exists m e, binary_round prec emax false p 0 = S754_finite false m e /\ 1 <= e) /\
  (2 ^ 1024 - 2 ^ 970 <= Zpos p -> binary_round prec emax false p 0 = S754_infinity false).
Proof.
  intros Hp. pose proof (size_bounds p) as [Hs1 Hs2].
  remember (Zpos (Pos.size p)) as s eqn:Hsdef.
  assert (Hs : 54 <= s).
  { destruct (Z.le_gt_cases 54 s) as [|Hlt]; [done|].
    assert (2 ^ s <= 2 ^ 53) by (apply Z.pow_le_mono_r; lia). lia. }
  assert (Hn : 2 ^ (s - 1) <= Zpos p < 2 ^ s).
  { assert (2 ^ s = 2 * 2 ^ (s - 1)) by (rewrite <- Z.pow_succ_r by lia; f_equal; lia). lia. }
  destruct (rounded_exponent_bound (Zpos p) s Hs Hn) as [Hm2 Hiff].
  unfold binary_round. rewrite digits2_pos_size, <- Hsdef.
  replace (fexp prec emax (s + 0)) with (s - 53) by (unfold fexp, emin, prec, emax; lia).
  unfold shl_align. replace (s - 53 - 0) with (Zpos (Z.to_pos (s - 53))) by (rewrite Z2Pos.id; lia).
  unfold binary_round_aux. rewrite shr_fexp_large, <- Hsdef by lia. cbn iota.
  rewrite round_nearest_even_loc. cbv zeta in Hm2, Hiff.
  match goal with |- context [shr_fexp prec emax ?m2 _ loc_Exact] => remember m2 as m eqn:Hm end.
  rewrite shr_fexp_rounded by (done || lia). unfold prec, emax.
  destruct (Z.eqb_spec m (2 ^ 53)) as [Hc|Hc].
  - cbn iota in Hiff. subst m. change (2 ^ 52) with (Zpos (2 ^ 52)). cbn iota.
    split; intros Hb.
    + rewrite (proj2 (Z.leb_le _ _)) by lia. eexists _, _. split; [reflexivity | lia].
    + rewrite (proj2 (Z.leb_gt _ _)) by lia. reflexivity.
  - cbn iota in Hiff. destruct m as [|q|q]; [lia | | lia]. cbn iota.
    split; intros Hb.
    + rewrite (proj2 (Z.leb_le _ _)) by lia. eexists _, _. split; [reflexivity | lia].
    + rewrite (proj2 (Z.leb_gt _ _)) by lia. reflexivity.
Qed.
