(* ===== verification/JsNumber.v ===== *)
(** [Number(v)] as main.js line 67 applies it to [formData.get('numResources')],
    and the test [!Number.isFinite(num) || num < 1] of line 68.

    Number values are IEEE 754 binary64 values, modelled by the Standard
    Library's [SpecFloat.spec_float] at precision 53 and maximal exponent
    1024.  [Number(null)] is +0; [Number(s)] for a string is StringToNumber
    (ECMA-262 7.1.4.1.1): the StringNumericLiteral grammar (optional white
    space around an optional sign and [Infinity], a decimal literal with an
    optional fraction and exponent, or a [0b]/[0o]/[0x] integer), and the
    value rounded to nearest, ties to even.  Where ECMA-262 lets an
    implementation round a literal of more than 20 significant digits after
    truncating it, the model rounds the exact value, as the engines do.
    The white space stripped around the literal is the set [trim] strips;
    no literal starts or ends with white space, so parsing [trim s] is
    parsing [s]. *)

From S2P Require Import Prelude JsString Binary64.
From Stdlib Require Import SpecFloat.

(** ** binary64 *)

(** The Number +1 of the comparison [num < 1]. *)
Definition number_one : spec_float := SFone prec emax.

(** ** The StringNumericLiteral grammar *)

Inductive str_numeric :=
  | SNEmpty                                    (** only white space: +0 *)
  | SNInfinity (neg : bool)                    (** [Infinity], [+Infinity], [-Infinity] *)
  | SNDecimal (neg : bool) (int frac : list N) (exp : Z)
      (** sign, DecimalDigits before and after the dot, ExponentPart *)
  | SNNonDecimal (radix : N) (digits : list N). (** [0b], [0o], [0x] *)

(** The value of a digit unit in a radix up to 16, if it is one. *)
Definition digit_value (radix : N) (c : N) : option N :=
  let v := if (48 <=? c)%N && (c <=? 57)%N then Some (c - 48)%N
           else if (97 <=? c)%N && (c <=? 102)%N then Some (c - 87)%N
           else if (65 <=? c)%N && (c <=? 70)%N then Some (c - 55)%N
           else None in
  match v with
  | Some d => if (d <? radix)%N then Some d else None
  | None => None
  end.

(** The longest prefix of digits, as values, and the rest. *)
Fixpoint span_digits (radix : N) (s : list N) : list N * list N :=
  match s with
  | c :: s' =>
      match digit_value radix c with
      | Some d => let '(ds, r) := span_digits radix s' in (d :: ds, r)
      | None => ([], s)
      end
  | [] => ([], [])
  end.

(** DecimalDigits that run to the end of the input. *)
Definition all_digits (radix : N) (s : list N) : option (list N) :=
  match span_digits radix s with
  | (ds, []) => if bool_decide (ds = []) then None else Some ds
  | _ => None
  end.

(** SignedInteger of an ExponentPart, to the end of the input. *)
Definition parse_signed_integer (s : list N) : option Z :=
  let digits_Z ds := fold_left (fun acc d => acc * 10 + Z.of_N d)%Z ds 0%Z in
  match s with
  | 43 :: r => ds ← all_digits 10 r; Some (digits_Z ds)
  | 45 :: r => ds ← all_digits 10 r; Some (- digits_Z ds)%Z
  | _ => ds ← all_digits 10 s; Some (digits_Z ds)
  end%N.

(** ExponentPart_opt, to the end of the input. *)
Definition parse_exponent_opt (s : list N) : option Z :=
  match s with
  | [] => Some 0%Z
  | c :: r => if (c =? 101)%N || (c =? 69)%N then parse_signed_integer r else None
  end.

(** StrUnsignedDecimalLiteral other than [Infinity]: [DecimalDigits . DecimalDigits_opt
    ExponentPart_opt], [. DecimalDigits ExponentPart_opt] or [DecimalDigits
    ExponentPart_opt]. *)
Definition parse_unsigned_decimal (s : list N) : option (list N * list N * Z) :=
  let '(d1, r1) := span_digits 10 s in
  match r1 with
  | 46 :: r2 =>
      let '(d2, r3) := span_digits 10 r2 in
      if bool_decide (d1 = []) && bool_decide (d2 = []) then None
      else e ← parse_exponent_opt r3; Some (d1, d2, e)
  | _ =>
      if bool_decide (d1 = []) then None
      else e ← parse_exponent_opt r1; Some (d1, [], e)
  end%N.

Definition parse_unsigned (neg : bool) (s : list N) : option str_numeric :=
  if bool_decide (s = ⟪"Infinity"⟫) then Some (SNInfinity neg)
  else '(d1, d2, e) ← parse_unsigned_decimal s; Some (SNDecimal neg d1 d2 e).

(** The prefix [0b]/[0B], [0o]/[0O] or [0x]/[0X] of a NonDecimalIntegerLiteral,
    as its radix, and the rest. *)
Definition nondecimal_prefix (t : list N) : option (N * list N) :=
  match t with
  | c :: x :: r =>
      if (c =? 48)%N then
        if (x =? 98)%N || (x =? 66)%N then Some (2%N, r)
        else if (x =? 111)%N || (x =? 79)%N then Some (8%N, r)
        else if (x =? 120)%N || (x =? 88)%N then Some (16%N, r)
        else None
      else None
  | _ => None
  end.

(** StrNumericLiteral: a NonDecimalIntegerLiteral (no sign) or a
    StrDecimalLiteral (an optional [+] or [-], then an unsigned literal). *)
Definition parse_numeric_literal (t : list N) : option str_numeric :=
  match nondecimal_prefix t with
  | Some (radix, r) => ds ← all_digits radix r; Some (SNNonDecimal radix ds)
  | None =>
      match t with
      | c :: r =>
          if (c =? 43)%N then parse_unsigned false r
          else if (c =? 45)%N then parse_unsigned true r
          else parse_unsigned false t
      | [] => parse_unsigned false t
      end
  end.

(** StringNumericLiteral: white space, then optionally a StrNumericLiteral
    followed by white space. *)
Definition parse_string_numeric (s : list N) : option str_numeric :=
  match trim s with
  | [] => Some SNEmpty
  | t => parse_numeric_literal t
  end.

(** ** Values *)

(** The mathematical value of a digit sequence in a radix. *)
Definition digits_value (radix : Z) (ds : list N) : Z :=
  fold_left (fun acc d => acc * radix + Z.of_N d)%Z ds 0%Z.

(** The Number value for [±m × 10^k] ([m ≥ 0]), rounded to nearest, ties
    to even: an exact product rounded when [k ≥ 0], the correctly rounded
    quotient [m / 10^-k] otherwise.  The zero keeps the sign, so that
    [-0] is the value of ["-0"]. *)
Definition round_decimal (neg : bool) (m k : Z) : spec_float :=
  match m with
  | Zpos p =>
      if (0 <=? k)%Z then binary_round prec emax neg (p * Z.to_pos (10 ^ k)) 0
      else let '(q, e, l) := SFdiv_core_binary prec emax (Zpos p) 0 (10 ^ (- k)) 0 in
           binary_round_aux prec emax neg q e l
  | _ => S754_zero neg
  end.

(** StringNumericValue. *)
Definition string_numeric_value (l : str_numeric) : spec_float :=
  match l with
  | SNEmpty => S754_zero false
  | SNInfinity neg => S754_infinity neg
  | SNDecimal neg d1 d2 e =>
      round_decimal neg (digits_value 10 (d1 ++ d2)) (e - Z.of_nat (length d2))
  | SNNonDecimal radix ds => round_decimal false (digits_value (Z.of_N radix) ds) 0
  end.

(** StringToNumber: a string that is not a StringNumericLiteral is NaN. *)
Definition string_to_number (s : list N) : spec_float :=
  match parse_string_numeric s with
  | Some l => string_numeric_value l
  | None => S754_nan
  end.

(** [Number(v)] of a [FormData.get] result: [Number(null)] is +0. *)
Definition js_Number (v : option (list N)) : spec_float :=
  match v with
  | Some s => string_to_number s
  | None => S754_zero false
  end.

(** [Number.isFinite(x)] for a Number [x]. *)
Definition number_is_finite (x : spec_float) : bool :=
  match x with
  | S754_zero _ | S754_finite _ _ _ => true
  | _ => false
  end.

(** [x < y] on Numbers: Number::lessThan, where NaN gives [undefined] and
    [<] then gives false. *)
Definition number_lt (x y : spec_float) : bool := SFltb x y.

(** Lines 67-68: the resource count is rejected when
    [!Number.isFinite(num) || num < 1]. *)
Definition num_resources_invalid (v : option (list N)) : bool :=
  let num := js_Number v in
  negb (number_is_finite num) || number_lt num number_one.

(** ** binary64 rounding lemmas *)

(** A Number the check rejects: NaN, an infinity, or below 1. *)
Definition float_rejected (x : spec_float) : bool :=
  negb (number_is_finite x) || number_lt x number_one.

(** Rounding with the sign bit set gives a negative zero, a negative
    number, minus infinity or NaN: never a Number [>= 1]. *)
Lemma round_aux_neg_rejected mx ex lx :
  float_rejected (binary_round_aux prec emax true mx ex lx) = true.
Proof.
  unfold binary_round_aux.
  destruct (shr_fexp prec emax mx ex lx) as [mrs' e'].
  destruct (shr_fexp prec emax _ e' loc_Exact) as [mrs'' e''].
  destruct (shr_m mrs''); [reflexivity | | reflexivity].
  destruct (e'' <=? emax - prec)%Z; reflexivity.
Qed.

Lemma binary_round_neg_rejected p e :
  float_rejected (binary_round prec emax true p e) = true.
Proof.
  unfold binary_round. destruct (shl_align _ _ _) as [mz ez]. apply round_aux_neg_rejected.
Qed.

Lemma round_decimal_neg_rejected m k : float_rejected (round_decimal true m k) = true.
Proof.
  unfold round_decimal. destruct m as [|p|p]; [reflexivity | | reflexivity].
  destruct (0 <=? k)%Z.
  - apply binary_round_neg_rejected.
  - destruct (SFdiv_core_binary _ _ _ _ _ _) as [[q e] l]. apply round_aux_neg_rejected.
Qed.


(** ** Parsing lemmas *)

Definition is_decimal_digit (c : N) : bool := (48 <=? c)%N && (c <=? 57)%N.

(** The value of a string of decimal digit units. *)
Definition decimal_value (t : list N) : Z := digits_value 10 (map (fun c => c - 48)%N t).

Lemma decimal_digit_not_space c : is_decimal_digit c = true -> is_js_space c = false.
Proof.
  unfold is_decimal_digit, is_js_space. intros [H1 H2]%andb_true_iff.
  apply N.leb_le in H1, H2. apply not_true_is_false. intros [H|H]%orb_true_iff.
  - apply existsb_exists in H as (u & Hu & ->%N.eqb_eq). unfold js_space_units in Hu.
    repeat destruct Hu as [<-|Hu]; try lia. done.
  - apply andb_true_iff in H as [H3 _]. apply N.leb_le in H3. lia.
Qed.

Lemma span_digits_decimal t :
  Forall (fun c => is_decimal_digit c = true) t ->
  span_digits 10 t = (map (fun c => c - 48)%N t, []).
Proof.
  induction 1 as [|c t Hc _ IH]; [done|]. simpl. rewrite IH.
  unfold digit_value. unfold is_decimal_digit in Hc. rewrite Hc.
  apply andb_true_iff in Hc as [H1 H2]. apply N.leb_le in H1, H2.
  destruct (N.ltb_spec (c - 48) 10); [done | lia].
Qed.

Lemma parse_numeric_literal_digits t :
  t <> [] -> Forall (fun c => is_decimal_digit c = true) t ->
  parse_numeric_literal t = Some (SNDecimal false (map (fun c => c - 48)%N t) [] 0).
Proof.
  intros Hne Hd.
  assert (Hu : parse_unsigned false t = Some (SNDecimal false (map (fun c => c - 48)%N t) [] 0)).
  { unfold parse_unsigned. rewrite bool_decide_false.
    - unfold parse_unsigned_decimal. rewrite span_digits_decimal by done.
      destruct t; [done|]. reflexivity.
    - intros ->. inversion Hd. discriminate. }
  destruct t as [|c r]; [done|]. inversion Hd as [|? ? Hc Hd']; subst.
  unfold is_decimal_digit in Hc. apply andb_true_iff in Hc as [H1 H2]. apply N.leb_le in H1, H2.
  unfold parse_numeric_literal, nondecimal_prefix.
  destruct r as [|x r].
  - rewrite (proj2 (N.eqb_neq c 43)), (proj2 (N.eqb_neq c 45)) by lia. done.
  - inversion Hd' as [|? ? Hx]; subst. unfold is_decimal_digit in Hx.
    apply andb_true_iff in Hx as [H3 H4]. apply N.leb_le in H3, H4.
    rewrite (proj2 (N.eqb_neq c 43)), (proj2 (N.eqb_neq c 45)) by lia.
    destruct (c =? 48)%N; [|done].
    rewrite !(proj2 (N.eqb_neq x _)) by lia. done.
Qed.



Lemma number_one_eq : number_one = S754_finite false (2 ^ 52) (-52).
Proof. reflexivity. Qed.
Lemma small_int_accepted p :
  (Zpos p < 2 ^ 53)%Z -> float_rejected (binary_round prec emax false p 0) = false.
Proof.
  intros Hp. destruct (binary_round_small_int p Hp) as (m & -> & Hm).
  pose proof (size_bounds p) as [Hs1 Hs2].
  unfold float_rejected, number_lt, SFltb. rewrite number_one_eq. 
  cbn [number_is_finite negb orb SFcompare].
  destruct (Z.compare_spec (Zpos (Pos.size p) - 53) (-52)) as [E|E|E]; [| lia | done].
  assert (Hp1 : p = 1%positive).
  { assert (Zpos (Pos.size p) = 1)%Z as Hs by lia. rewrite Hs in Hs2. lia. }
  subst p. assert (m = 2 ^ 52)%positive as ->.
  { apply Pos2Z.inj. rewrite Hm. reflexivity. }
  rewrite Pos.compare_cont_refl. reflexivity.
Qed.

(** A positive integer is rejected exactly when it rounds to [+Infinity],
    from [2^1024 - 2^970] on: below [2^53] it is exact and [>= 1], above
    it a finite result has an exponent [>= 1] and so exceeds 1. *)
Lemma int_rejected_iff p :
  float_rejected (binary_round prec emax false p 0) = negb (Zpos p <? 2 ^ 1024 - 2 ^ 970)%Z.
Proof.
  destruct (Z.lt_ge_cases (Zpos p) (2 ^ 53)) as [Hs|Hl].
  - rewrite small_int_accepted by done. symmetry. apply negb_false_iff, Z.ltb_lt. lia.
  - destruct (binary_round_large p Hl) as [Hfin Hinf].
    destruct (Z.ltb_spec (Zpos p) (2 ^ 1024 - 2 ^ 970)) as [Hlt|Hge].
    + destruct (Hfin Hlt) as (m & e & -> & He). unfold float_rejected, number_lt, SFltb.
      rewrite number_one_eq. cbn [number_is_finite negb orb SFcompare].
      by rewrite (proj2 (Z.compare_gt_iff e (-52))) by lia.
    + by rewrite (Hinf Hge).
Qed.

Lemma num_resources_invalid_rejected v : num_resources_invalid v = float_rejected (js_Number v).
Proof. reflexivity. Qed.

Lemma round_decimal_int p : round_decimal false (Zpos p) 0 = binary_round prec emax false p 0.
Proof. unfold round_decimal. simpl. by rewrite Pos.mul_1_r. Qed.

Lemma string_to_number_trimmed s t :
  trim s = t -> t <> [] -> string_to_number s = match parse_numeric_literal t with
                                                  | Some l => string_numeric_value l
                                                  | None => S754_nan end.
Proof.
  intros Ht Hne. unfold string_to_number, parse_string_numeric. rewrite Ht.
  destruct t; [done | reflexivity].
Qed.

Lemma digits_value_nonneg radix ds : (0 <= radix)%Z -> (0 <= digits_value radix ds)%Z.
Proof.
  intros Hr. unfold digits_value.
  assert (Hgen : forall acc, (0 <= acc)%Z ->
            (0 <= fold_left (fun acc d => acc * radix + Z.of_N d) ds acc)%Z).
  { induction ds as [|d ds IH]; intros acc Hacc; simpl; [done|]. apply IH. nia. }
  by apply Hgen.
Qed.

(** The Number of a non-negative integer [m * 10^k] passes the check
    exactly when [1 <= m * 10^k < 2^1024 - 2^970]. *)
Lemma round_decimal_int_accepted m k : (0 <= m)%Z -> (0 <= k)%Z ->
  float_rejected (round_decimal false m k) = false <-> (1 <= m * 10 ^ k < 2 ^ 1024 - 2 ^ 970)%Z.
Proof.
  intros Hm Hk. assert (H10 : (0 < 10 ^ k)%Z) by (apply Z.pow_pos_nonneg; lia).
  destruct m as [|p|p]; [split; [discriminate | lia] | | lia].
  unfold round_decimal. rewrite (proj2 (Z.leb_le 0 k) Hk), int_rejected_iff.
  rewrite Pos2Z.inj_mul, Z2Pos.id by lia. rewrite negb_false_iff, Z.ltb_lt. nia.
Qed.

(** The integer a StringNumericLiteral denotes, with its sign, when it
    denotes one: a decimal literal whose exponent covers its fraction
    digits, or a [0b], [0o] or [0x] literal. *)
Definition literal_integer (l : str_numeric) : option (bool * Z) :=
  match l with
  | SNDecimal neg d1 d2 e =>
      let k := (e - Z.of_nat (length d2))%Z in
      if (0 <=? k)%Z then Some (neg, digits_value 10 (d1 ++ d2) * 10 ^ k)%Z else None
  | SNNonDecimal radix ds => Some (false, digits_value (Z.of_N radix) ds)
  | _ => None
  end.

(** A resource count made of decimal digits, possibly surrounded by white
    space, is checked on the correctly rounded Number of its value. *)
Lemma num_resources_decimal pre t suf :
  all_space pre -> all_space suf -> t <> [] ->
  Forall (fun c => is_decimal_digit c = true) t ->
  num_resources_invalid (Some (pre ++ t ++ suf)) = float_rejected (round_decimal false (decimal_value t) 0).
Proof.
  intros Hpre Hsuf Hne Hd.
  assert (Htrim : trim (pre ++ t ++ suf) = t).
  { apply trim_of_decomp; [done | done |].
    destruct (exists_last Hne) as (t' & c & ->). split.
    - intros c'. destruct t' as [|c0 t']; simpl; intros [= <-];
        apply decimal_digit_not_space; [by inversion Hd | by inversion Hd].
    - intros c'. rewrite last_snoc. intros [= <-]. apply decimal_digit_not_space.
      apply Forall_app in Hd as [_ Hc]. by inversion Hc. }
  rewrite num_resources_invalid_rejected. unfold js_Number.
  rewrite (string_to_number_trimmed _ t Htrim Hne), parse_numeric_literal_digits by done.
  cbn [string_numeric_value length]. by rewrite app_nil_r, Z.sub_0_r.
Qed.

(** C4: a resource count made of decimal digits, possibly surrounded by
    white space, passes the check of line 68 exactly when its value [n]
    satisfies [1 <= n < 2^1024 - 2^970]: ["0"] and ["000"] are refused,
    and so is every count from [2^1024 - 2^970] on (309 digits and more),
    whose Number is [Infinity]. *)
Theorem num_resources_accepts_integer pre t suf :
  all_space pre -> all_space suf -> t <> [] ->
  Forall (fun c => is_decimal_digit c = true) t ->
  num_resources_invalid (Some (pre ++ t ++ suf)) = false <->
  (1 <= decimal_value t < 2 ^ 1024 - 2 ^ 970)%Z.
Proof.
  intros Hpre Hsuf Hne Hd. rewrite num_resources_decimal by done.
  pose proof (digits_value_nonneg 10 (map (fun c => c - 48)%N t)) as Hnn.
  unfold decimal_value in *. rewrite round_decimal_int_accepted by lia. lia.
Qed.

Lemma parse_numeric_literal_minus u :
  parse_numeric_literal (45%N :: u) = parse_unsigned true u.
Proof. destruct u as [|x u]; reflexivity. Qed.

(** C5: a resource count whose literal starts with [-] (after white space)
    is rejected: its Number is NaN, minus infinity, a negative number or
    [-0], all of which fail [isFinite] or are [< 1]. *)
Theorem num_resources_rejects_negative s u :
  trim s = 45%N :: u -> num_resources_invalid (Some s) = true.
Proof.
  intros Ht. rewrite num_resources_invalid_rejected. unfold js_Number.
  rewrite (string_to_number_trimmed s _ Ht), parse_numeric_literal_minus by done.
  unfold parse_unsigned. case_bool; [reflexivity|].
  destruct (parse_unsigned_decimal u) as [[[d1 d2] e]|]; [|reflexivity].
  apply round_decimal_neg_rejected.
Qed.

(** C34: a resource count whose literal denotes a non-negative integer
    [n] (["1e3"], ["2.50e1"], [" 0x10 "], ["0b101"], ["00"]) passes the
    check of line 68 exactly when [1 <= n < 2^1024 - 2^970]: for integer
    values, [Number] and the two tests of line 68 amount to that range. *)
Theorem num_resources_integer_literal s l n :
  parse_string_numeric s = Some l -> literal_integer l = Some (false, n) ->
  num_resources_invalid (Some s) = false <-> (1 <= n < 2 ^ 1024 - 2 ^ 970)%Z.
Proof.
  intros Hp Hl. rewrite num_resources_invalid_rejected. unfold js_Number, string_to_number.
  rewrite Hp. destruct l as [| |neg d1 d2 e|radix ds]; simpl in Hl; try discriminate.
  - destruct (Z.leb_spec 0 (e - Z.of_nat (length d2))) as [Hk|]; [|discriminate].
    injection Hl as -> <-. cbn [string_numeric_value].
    apply round_decimal_int_accepted; [apply digits_value_nonneg; lia | done].
  - injection Hl as <-. cbn [string_numeric_value].
    rewrite round_decimal_int_accepted by (try apply digits_value_nonneg; lia). lia.
Qed.

(** The inputs of the spec's test list, by evaluation: ["0"], ["-1"],
    ["abc"] and [""] are rejected, ["1"], ["5"] and ["100"] accepted. *)
Example num_resources_spec_inputs :
  map (fun s => num_resources_invalid (Some (js_of_string s)))
      ["0"; "-1"; "abc"; ""; "1"; "5"; "100"]%string
  = [true; true; true; true; false; false; false].
Proof. vm_compute. reflexivity. Qed.

(** Literals the check also accepts: a fraction, a hexadecimal integer, an
    exponent, surrounding white space. *)
Example num_resources_accepts_non_integers :
  map (fun s => num_resources_invalid (Some (js_of_string s)))
      ["1.5"; "0x10"; "1e3"; " 2 "; ".5e1"]%string
  = [false; false; false; false; false].
Proof. vm_compute. reflexivity. Qed.

(** A resource count whose value is below 1 passes the check: the
    literal ["0.99999999999999999"] rounds to the Number 1, which is not
    [< 1]. *)
Example num_resources_accepts_below_one :
  num_resources_invalid (Some ⟪"0.99999999999999999"⟫) = false.
Proof. vm_compute. reflexivity. Qed.

(** A count of 310 decimal digits is an integer [>= 1], but its Number
    is [Infinity] and the check refuses it; [2^53 + 1] is accepted, as
    its Number [2^53]. *)
Example num_resources_overflow :
  num_resources_invalid (Some (49%N :: repeat 48%N 309)) = true /\
  num_resources_invalid (Some ⟪"9007199254740993"⟫) = false.
Proof. split; vm_compute; reflexivity. Qed.

(** The witness of C4: [" 42"]. *)
Lemma num_resources_accepts_integer_witness :
  all_space [32%N] /\ Forall (fun c => is_decimal_digit c = true) ⟪"42"⟫ /\
  num_resources_invalid (Some ([32%N] ++ ⟪"42"⟫ ++ [])) = false.
Proof.
  assert (Hs : all_space [32%N]) by (unfold all_space; repeat constructor).
  assert (Hd : Forall (fun c => is_decimal_digit c = true) ⟪"42"⟫) by (simpl; repeat constructor).
  split; [exact Hs|]. split; [exact Hd|].
  apply (num_resources_accepts_integer [32%N] ⟪"42"⟫ [] Hs);
    [unfold all_space; constructor | discriminate | exact Hd |].
  change (decimal_value ⟪"42"⟫) with 42%Z. lia.
Defined.

(** The witness of C34: [" 0x10 "], the integer 16. *)
Lemma num_resources_integer_literal_witness :
  parse_string_numeric ⟪" 0x10 "⟫ = Some (SNNonDecimal 16 [1; 0]%N) /\
  literal_integer (SNNonDecimal 16 [1; 0]%N) = Some (false, 16%Z) /\
  num_resources_invalid (Some ⟪" 0x10 "⟫) = false.
Proof.
  assert (Hp : parse_string_numeric ⟪" 0x10 "⟫ = Some (SNNonDecimal 16 [1; 0]%N))
    by (vm_compute; reflexivity).
  assert (Hl : literal_integer (SNNonDecimal 16 [1; 0]%N) = Some (false, 16%Z)) by reflexivity.
  split; [exact Hp|]. split; [exact Hl|].
  apply (num_resources_integer_literal _ _ _ Hp Hl). lia.
Defined.

(** The witness of C5: [" -3"]. *)
Lemma num_resources_rejects_negative_witness :
  trim ⟪" -3"⟫ = 45%N :: ⟪"3"⟫ /\ num_resources_invalid (Some ⟪" -3"⟫) = true.
Proof.
  assert (Ht : trim ⟪" -3"⟫ = 45%N :: ⟪"3"⟫) by (vm_compute; reflexivity).
  split; [exact Ht | exact (num_resources_rejects_negative _ _ Ht)].
Defined.
