(* ===== verification/Date.v ===== *)
(** [Date]: the time values behind [new Date().getFullYear()] (main.js
    line 23) and [new Date().toISOString()] (lines 75 and 143).

    A time value is an integer number of milliseconds since the epoch,
    within the [8.64e15] of TimeClip.  The functions are those of ECMA-262
    (21.4.1): Day, TimeWithinDay, DaysInYear, DayFromYear, YearFromTime,
    InLeapYear, DayWithinYear, MonthFromTime, DateFromTime, HourFromTime,
    MinFromTime, SecFromTime, msFromTime, LocalTime.  YearFromTime is "the
    largest year [y] with TimeFromYear(y) <= t": [year_from_time] computes
    it from the estimate [1970 + 400 d / 146097] and at most two
    corrections, and [year_from_time_spec] proves it is that year.
    [to_iso_string] writes the Date Time String Format
    [YYYY-MM-DDTHH:mm:ss.sssZ] (with [+YYYYYY]/[-YYYYYY] outside years
    0-9999); [parse_iso] reads that format back (MakeDay, MakeTime,
    MakeDate, TimeClip). *)

From S2P Require Import Prelude.

Local Open Scope Z_scope.

Definition msPerDay : Z := 86400000.
Definition msPerHour : Z := 3600000.
Definition msPerMinute : Z := 60000.
Definition msPerSecond : Z := 1000.

(** The largest magnitude of a time value (TimeClip). *)
Definition max_time : Z := 8640000000000000.

Definition time_value_ok (t : Z) : bool := Z.abs t <=? max_time.

(** ** Days and years *)

Definition day (t : Z) : Z := t / msPerDay.
Definition time_within_day (t : Z) : Z := t mod msPerDay.

Definition days_in_year (y : Z) : Z :=
  if negb (y mod 4 =? 0) then 365
  else if negb (y mod 100 =? 0) then 366
  else if negb (y mod 400 =? 0) then 365
  else 366.

Definition day_from_year (y : Z) : Z :=
  365 * (y - 1970) + (y - 1969) / 4 - (y - 1901) / 100 + (y - 1601) / 400.

Definition time_from_year (y : Z) : Z := msPerDay * day_from_year y.

(** From a guess [y], step to the year whose days hold day [d]. *)
Fixpoint year_adjust (fuel : nat) (y d : Z) : Z :=
  match fuel with
  | O => y
  | S fuel' =>
      if d <? day_from_year y then year_adjust fuel' (y - 1) d
      else if day_from_year (y + 1) <=? d then year_adjust fuel' (y + 1) d
      else y
  end.

(** YearFromTime: a Gregorian year has [146097 / 400] days on average. *)
Definition year_from_time (t : Z) : Z :=
  let d := day t in year_adjust 2 (1970 + 400 * d / 146097) d.

Definition in_leap_year (t : Z) : Z :=
  if days_in_year (year_from_time t) =? 366 then 1 else 0.

Definition day_within_year (t : Z) : Z := day t - day_from_year (year_from_time t).

(** ** Months and dates *)

Definition month_from_time (t : Z) : Z :=
  let d := day_within_year t in
  let leap := in_leap_year t in
  if d <? 31 then 0
  else if d <? 59 + leap then 1
  else if d <? 90 + leap then 2
  else if d <? 120 + leap then 3
  else if d <? 151 + leap then 4
  else if d <? 181 + leap then 5
  else if d <? 212 + leap then 6
  else if d <? 243 + leap then 7
  else if d <? 273 + leap then 8
  else if d <? 304 + leap then 9
  else if d <? 334 + leap then 10
  else 11.

(** The day of the year on which month [m] starts: the constants of the
    table of DateFromTime. *)
Definition month_start (leap m : Z) : Z :=
  if m =? 0 then 0
  else if m =? 1 then 31
  else if m =? 2 then 59 + leap
  else if m =? 3 then 90 + leap
  else if m =? 4 then 120 + leap
  else if m =? 5 then 151 + leap
  else if m =? 6 then 181 + leap
  else if m =? 7 then 212 + leap
  else if m =? 8 then 243 + leap
  else if m =? 9 then 273 + leap
  else if m =? 10 then 304 + leap
  else 334 + leap.

Definition date_from_time (t : Z) : Z :=
  day_within_year t + 1 - month_start (in_leap_year t) (month_from_time t).

Definition hour_from_time (t : Z) : Z := (t / msPerHour) mod 24.
Definition min_from_time (t : Z) : Z := (t / msPerMinute) mod 60.
Definition sec_from_time (t : Z) : Z := (t / msPerSecond) mod 60.
Definition ms_from_time (t : Z) : Z := t mod msPerSecond.

(** ** Local time and getFullYear *)

(** LocalTime(t): [offset] is the host's offset from UTC at [t], in
    milliseconds (time-zone data is outside the program). *)
Definition local_time (offset t : Z) : Z := t + offset.

Definition get_full_year (offset t : Z) : Z := year_from_time (local_time offset t).

(** ** toISOString *)

(** The last [width] decimal digits of [n >= 0]: for [n < 10 ^ width],
    StringPad(ToString(n), width, "0"). *)
Fixpoint pad_digits (width : nat) (n : Z) : list N :=
  match width with
  | O => []
  | S w => pad_digits w (n / 10) ++ [(48 + Z.to_N (n mod 10))%N]
  end.

(** The year field: four digits, or a sign and six digits. *)
Definition year_string (y : Z) : list N :=
  if (0 <=? y) && (y <=? 9999) then pad_digits 4 y
  else (if y <? 0 then 45%N else 43%N) :: pad_digits 6 (Z.abs y).

Definition to_iso_string (t : Z) : list N :=
  year_string (year_from_time t) ++ 45%N :: pad_digits 2 (month_from_time t + 1) ++
  45%N :: pad_digits 2 (date_from_time t) ++ 84%N :: pad_digits 2 (hour_from_time t) ++
  58%N :: pad_digits 2 (min_from_time t) ++ 58%N :: pad_digits 2 (sec_from_time t) ++
  46%N :: pad_digits 3 (ms_from_time t) ++ [90%N].

(** ** The footer text *)

(** The number of decimal digits of [n >= 0]; the bit length of [n] is
    more fuel than it needs. *)
Fixpoint decimal_width (fuel : nat) (n : Z) : nat :=
  match fuel with
  | O => 1
  | S fuel' => if n <? 10 then 1 else S (decimal_width fuel' (n / 10))
  end.

(** Number::toString of an integral Number [z] (|z| < 10^21): its decimal
    digits, after ["-"] when it is negative.  [textContent = year] stores
    this string. *)
Definition integer_to_string (z : Z) : list N :=
  (if z <? 0 then [45%N] else []) ++
  pad_digits (decimal_width (Z.to_nat (Z.log2 (Z.abs z)) + 1) (Z.abs z)) (Z.abs z).

(** ** Reading the format back *)

Fixpoint read_digits (width : nat) (s : list N) (acc : Z) : option (Z * list N) :=
  match width, s with
  | O, _ => Some (acc, s)
  | S w, c :: r =>
      if (48 <=? c)%N && (c <=? 57)%N then read_digits w r (10 * acc + Z.of_N (c - 48)) else None
  | S _, [] => None
  end.

Definition expect (c : N) (s : list N) : option (list N) :=
  match s with
  | d :: r => if (c =? d)%N then Some r else None
  | [] => None
  end.

(** [-000000] is not a year of the format. *)
Definition parse_year (s : list N) : option (Z * list N) :=
  match s with
  | c :: r =>
      if (c =? 43)%N then read_digits 6 r 0
      else if (c =? 45)%N then
        '(y, r') ← read_digits 6 r 0; if y =? 0 then None else Some (- y, r')
      else read_digits 4 s 0
  | [] => None
  end.

Definition make_day (y m dt : Z) : Z :=
  day_from_year y + month_start (if days_in_year y =? 366 then 1 else 0) m + dt - 1.

Definition make_time (h mi s ms : Z) : Z :=
  h * msPerHour + mi * msPerMinute + s * msPerSecond + ms.

Definition make_date (d tm : Z) : Z := d * msPerDay + tm.

(** Date.parse on [YYYY-MM-DDTHH:mm:ss.sssZ]: the fields in their ranges
    (hour 24 only as [24:00:00.000]) and the result within TimeClip. *)
Definition parse_iso (s : list N) : option Z :=
  '(y, s) ← parse_year s; s ← expect 45 s; '(mo, s) ← read_digits 2 s 0;
  s ← expect 45 s; '(dd, s) ← read_digits 2 s 0; s ← expect 84 s;
  '(h, s) ← read_digits 2 s 0; s ← expect 58 s; '(mi, s) ← read_digits 2 s 0;
  s ← expect 58 s; '(sec, s) ← read_digits 2 s 0; s ← expect 46 s;
  '(ms, s) ← read_digits 3 s 0; s ← expect 90 s;
  let t := make_date (make_day y (mo - 1) dd) (make_time h mi sec ms) in
  if (1 <=? mo) && (mo <=? 12) && (1 <=? dd) && (dd <=? 31) && (mi <=? 59) && (sec <=? 59)
     && ((h <=? 23) || ((h =? 24) && (mi =? 0) && (sec =? 0) && (ms =? 0)))
     && time_value_ok t && bool_decide (s = [])
  then Some t else None.

(** ** Years *)

Lemma day_from_year_approx y :
  146097 * (y - 1970) - 800 < 400 * day_from_year y - 193 < 146097 * (y - 1970) + 400.
Proof. unfold day_from_year. Z.div_mod_to_equations. lia. Qed.

(** A year has DaysInYear(y) days: DayFromYear(y + 1) - DayFromYear(y). *)
Lemma day_from_year_succ y : day_from_year (y + 1) = day_from_year y + days_in_year y.
Proof.
  assert (H4 : y mod 4 = y mod 100 mod 4) by (symmetry; apply Z.mod_mod_divide; exists 25; lia).
  assert (H100 : y mod 100 = y mod 400 mod 100)
    by (symmetry; apply Z.mod_mod_divide; exists 4; lia).
  unfold day_from_year, days_in_year.
  destruct (Z.eqb_spec (y mod 4) 0), (Z.eqb_spec (y mod 100) 0), (Z.eqb_spec (y mod 400) 0);
    cbn [negb]; Z.div_mod_to_equations; lia.
Qed.

Lemma days_in_year_range y : 365 <= days_in_year y <= 366.
Proof. unfold days_in_year. repeat case_bool; lia. Qed.

Lemma day_from_year_mono y1 y2 : y1 <= y2 -> day_from_year y1 <= day_from_year y2.
Proof. unfold day_from_year. Z.div_mod_to_equations. lia. Qed.

Lemma day_from_year_strict y1 y2 : y1 < y2 -> day_from_year y1 < day_from_year y2.
Proof.
  intros H. pose proof (day_from_year_succ y1). pose proof (days_in_year_range y1).
  pose proof (day_from_year_mono (y1 + 1) y2). lia.
Qed.

(** The estimate is at most one year off, so two corrections find the
    year whose days hold [d]. *)
Lemma year_adjust_spec d :
  let y := year_adjust 2 (1970 + 400 * d / 146097) d in
  day_from_year y <= d < day_from_year (y + 1).
Proof.
  set (y0 := 1970 + 400 * d / 146097).
  assert (Hy0 : 146097 * (y0 - 1970) <= 400 * d < 146097 * (y0 - 1970) + 146097)
    by (subst y0; Z.div_mod_to_equations; lia).
  pose proof (day_from_year_approx y0). pose proof (day_from_year_approx (y0 + 1)).
  pose proof (day_from_year_approx (y0 - 1)). pose proof (day_from_year_approx (y0 + 2)).
  cbn [year_adjust].
  destruct (Z.ltb_spec d (day_from_year y0)).
  - destruct (Z.ltb_spec d (day_from_year (y0 - 1))); [lia|].
    destruct (Z.leb_spec (day_from_year (y0 - 1 + 1)) d);
      replace (y0 - 1 + 1) with y0 in * by lia; lia.
  - destruct (Z.leb_spec (day_from_year (y0 + 1)) d); [|lia].
    destruct (Z.ltb_spec d (day_from_year (y0 + 1))); [lia|].
    destruct (Z.leb_spec (day_from_year (y0 + 1 + 1)) d);
      replace (y0 + 1 + 1) with (y0 + 2) in * by lia; lia.
Qed.

Lemma year_from_time_day t :
  day_from_year (year_from_time t) <= day t < day_from_year (year_from_time t + 1).
Proof. apply year_adjust_spec. Qed.

Lemma time_from_year_le y t : time_from_year y <= t <-> day_from_year y <= day t.
Proof.
  unfold time_from_year, day, msPerDay. generalize (day_from_year y). intros k.
  Z.div_mod_to_equations. lia.
Qed.

Lemma day_within_year_range t :
  0 <= day_within_year t < 365 + in_leap_year t /\ 0 <= in_leap_year t <= 1.
Proof.
  pose proof (year_from_time_day t) as Hd.
  rewrite day_from_year_succ in Hd. pose proof (days_in_year_range (year_from_time t)).
  unfold day_within_year, in_leap_year.
  destruct (Z.eqb_spec (days_in_year (year_from_time t)) 366); lia.
Qed.

Ltac case_Z_ltb :=
  repeat match goal with
  | |- context [if ?a <? ?b then _ else _] => destruct (Z.ltb_spec a b)
  end.

(** MonthFromTime is a month and DateFromTime a day of it. *)
Lemma month_date_range t :
  0 <= month_from_time t <= 11 /\ 1 <= date_from_time t <= 31.
Proof.
  pose proof (day_within_year_range t) as [Hd Hl].
  unfold date_from_time, month_from_time.
  set (d := day_within_year t) in *. set (leap := in_leap_year t) in *.
  case_Z_ltb; unfold month_start; simpl; lia.
Qed.

(** MakeDay(YearFromTime(t), MonthFromTime(t), DateFromTime(t)) = Day(t). *)
Lemma make_day_fields t :
  make_day (year_from_time t) (month_from_time t) (date_from_time t) = day t.
Proof. unfold make_day, date_from_time, day_within_year, in_leap_year. lia. Qed.

(** The hour, minute, second and millisecond fields make up the time
    within the day. *)
Lemma make_time_fields t :
  make_time (hour_from_time t) (min_from_time t) (sec_from_time t) (ms_from_time t) =
  time_within_day t.
Proof.
  unfold make_time, hour_from_time, min_from_time, sec_from_time, ms_from_time,
    time_within_day, msPerHour, msPerMinute, msPerSecond, msPerDay.
  replace (t / 3600000) with (t / 1000 / 60 / 60) by (rewrite !Z.div_div by lia; reflexivity).
  replace (t / 60000) with (t / 1000 / 60) by (rewrite !Z.div_div by lia; reflexivity).
  set (a := t / 1000). set (b := a / 60). set (c := b / 60).
  assert (t = 1000 * a + t mod 1000) by (subst a; apply Z.div_mod; lia).
  assert (a = 60 * b + a mod 60) by (subst b; apply Z.div_mod; lia).
  assert (b = 60 * c + b mod 60) by (subst c; apply Z.div_mod; lia).
  clearbody a b c. Z.div_mod_to_equations. lia.
Qed.

Lemma time_fields_range t :
  0 <= hour_from_time t <= 23 /\ 0 <= min_from_time t <= 59 /\
  0 <= sec_from_time t <= 59 /\ 0 <= ms_from_time t <= 999.
Proof.
  unfold hour_from_time, min_from_time, sec_from_time, ms_from_time, msPerSecond.
  pose proof (Z.mod_pos_bound (t / msPerHour) 24). pose proof (Z.mod_pos_bound (t / msPerMinute) 60).
  pose proof (Z.mod_pos_bound (t / 1000) 60). pose proof (Z.mod_pos_bound t 1000). lia.
Qed.

(** ** Digits *)

Lemma read_digits_succ w s acc :
  read_digits (S w) s acc = '(x, r) ← read_digits w s acc; read_digits 1 r x.
Proof.
  revert s acc. induction w as [|w IH]; intros [|c s] acc; try done.
  cbn [read_digits]. case_bool; [apply IH | done].
Qed.

Lemma read_pad_digits w n acc rest : 0 <= n < 10 ^ Z.of_nat w ->
  read_digits w (pad_digits w n ++ rest) acc = Some (acc * 10 ^ Z.of_nat w + n, rest).
Proof.
  revert n acc rest. induction w as [|w IH]; intros n acc rest Hn.
  - simpl in *. f_equal. f_equal. lia.
  - rewrite Nat2Z.inj_succ, Z.pow_succ_r in * by lia.
    rewrite read_digits_succ. cbn [pad_digits]. rewrite <- app_assoc.
    rewrite IH by (split; [apply Z.div_pos | apply Z.div_lt_upper_bound]; lia).
    cbn [mbind option_bind app read_digits].
    pose proof (Z.mod_pos_bound n 10 ltac:(lia)).
    replace ((48 <=? 48 + Z.to_N (n mod 10))%N && (48 + Z.to_N (n mod 10) <=? 57)%N) with true
      by (symmetry; apply andb_true_iff; split; apply N.leb_le; lia).
    replace (Z.of_N (48 + Z.to_N (n mod 10) - 48)) with (n mod 10) by lia.
    pose proof (Z.div_mod n 10). f_equal. f_equal. nia.
Qed.

Lemma pad_digits_head w n : exists c t, pad_digits (S w) n = c :: t /\ (48 <= c <= 57)%N.
Proof.
  revert n. induction w as [|w IH]; intros n.
  - pose proof (Z.mod_pos_bound n 10 ltac:(lia)). eexists _, []. split; [reflexivity | lia].
  - destruct (IH (n / 10)) as (c & t & Hp & Hc). exists c, (t ++ [(48 + Z.to_N (n mod 10))%N]).
    cbn [pad_digits] in *. rewrite Hp. done.
Qed.

Lemma year_from_time_range t : time_value_ok t = true ->
  -271821 <= year_from_time t <= 275760.
Proof.
  unfold time_value_ok, max_time. intros Ht%Z.leb_le.
  pose proof (year_from_time_day t) as Hd.
  pose proof (day_from_year_approx (year_from_time t)).
  pose proof (day_from_year_approx (year_from_time t + 1)).
  unfold day, msPerDay in *. Z.div_mod_to_equations. lia.
Qed.

Lemma parse_year_string y rest : -1000000 < y < 1000000 ->
  parse_year (year_string y ++ rest) = Some (y, rest).
Proof.
  intros Hy. unfold year_string.
  destruct (Z.leb_spec 0 y), (Z.leb_spec y 9999); simpl andb; cbn iota.
  - destruct (pad_digits_head 3 y) as (c & tl & Hp & Hc).
    assert (Hr := read_pad_digits 4 y 0 rest ltac:(simpl; lia)).
    rewrite Hp in *. simpl in Hr |- *.
    destruct (N.eqb_spec c 43), (N.eqb_spec c 45); try lia. rewrite Hr. done.
  - destruct (Z.ltb_spec y 0); [lia|]. cbn -[read_digits pad_digits].
    rewrite read_pad_digits by (simpl; lia). f_equal. f_equal. lia.
  - destruct (Z.ltb_spec y 0); [|lia]. cbn -[read_digits pad_digits].
    rewrite read_pad_digits by (simpl; lia). cbn -[read_digits pad_digits].
    rewrite Z.mul_0_l, Z.add_0_l. destruct (Z.eqb_spec (Z.abs y) 0); [lia|]. f_equal. f_equal. lia.
  - lia.
Qed.

Lemma make_date_day t : make_date (day t) (time_within_day t) = t.
Proof.
  unfold make_date, day, time_within_day, msPerDay.
  pose proof (Z.div_mod t 86400000 ltac:(lia)). lia.
Qed.

Ltac Z_leb_true :=
  repeat match goal with
  | |- context [?a <=? ?b] => rewrite (proj2 (Z.leb_le a b)) by lia
  end.

(** A four-digit year is written as toISOString writes it. *)
Lemma integer_to_string_four_digits y : 1000 <= y <= 9999 ->
  integer_to_string y = year_string y.
Proof.
  intros Hy. unfold integer_to_string, year_string.
  rewrite Z.abs_eq by lia. destruct (Z.ltb_spec y 0); [lia|].
  rewrite (proj2 (Z.leb_le 0 y)), (proj2 (Z.leb_le y 9999)) by lia. simpl app.
  assert (Hl : 9 <= Z.log2 y) by (change 9 with (Z.log2 512); apply Z.log2_le_mono; lia).
  replace (Z.to_nat (Z.log2 y) + 1)%nat with (S (S (S (S (Z.to_nat (Z.log2 y) - 3)))))%nat by lia.
  cbn [decimal_width].
  replace (y / 10 / 10) with (y / 100) by (rewrite Z.div_div by lia; reflexivity).
  replace (y / 100 / 10) with (y / 1000) by (rewrite Z.div_div by lia; reflexivity).
  destruct (Z.ltb_spec y 10), (Z.ltb_spec (y / 10) 10), (Z.ltb_spec (y / 100) 10),
    (Z.ltb_spec (y / 1000) 10); try (Z.div_mod_to_equations; lia).
  reflexivity.
Qed.

Lemma length_pad_digits w n : length (pad_digits w n) = w.
Proof.
  revert n. induction w as [|w IH]; intros n; [done|].
  cbn [pad_digits]. rewrite length_app, IH. simpl. lia.
Qed.

Lemma pad_digits_digits w n : Forall (fun c => 48 <= c <= 57)%N (pad_digits w n).
Proof.
  revert n. induction w as [|w IH]; intros n; simpl; [constructor|].
  apply Forall_app_2; [apply IH|]. pose proof (Z.mod_pos_bound n 10). repeat constructor; lia.
Qed.

(** The ISO string is a string of 16-bit units. *)
Lemma to_iso_string_wf t : wf_jsstr (to_iso_string t).
Proof.
  assert (Hp : forall w n, wf_jsstr (pad_digits w n))
    by (intros; eapply Forall_impl; [apply pad_digits_digits | simpl; lia]).
  unfold to_iso_string, year_string, wf_jsstr.
  destruct ((0 <=? year_from_time t) && (year_from_time t <=? 9999));
    [|destruct (year_from_time t <? 0)];
    repeat first [apply Hp | apply Forall_app_2 | apply Forall_cons_2 | apply Forall_nil_2 | lia].
Qed.

(** ** Properties *)

(** C21: YearFromTime is ECMA-262's "largest year [y] such that
    TimeFromYear(y) <= t": for every time [t] and year [y],
    TimeFromYear(y) <= t exactly when [y <= year_from_time t]; the
    estimate and its two corrections always reach that year. *)
Theorem year_from_time_spec t y : time_from_year y <= t <-> y <= year_from_time t.
Proof.
  rewrite time_from_year_le. pose proof (year_from_time_day t) as Hd.
  split; intros Hy.
  - destruct (Z.le_gt_cases y (year_from_time t)) as [|Hgt]; [done|].
    pose proof (day_from_year_mono (year_from_time t + 1) y ltac:(lia)). lia.
  - pose proof (day_from_year_mono y (year_from_time t) Hy). lia.
Qed.

(** Reading back the Date Time String Format of a time value. *)
Lemma parse_iso_to_iso_string t : time_value_ok t = true -> parse_iso (to_iso_string t) = Some t.
Proof.
  intros Ht.
  pose proof (year_from_time_range t Ht) as Hy.
  pose proof (month_date_range t) as [Hm Hd].
  pose proof (time_fields_range t) as (Hh & Hmi & Hs & Hms).
  unfold parse_iso, to_iso_string.
  rewrite parse_year_string by lia. cbn -[read_digits pad_digits year_from_time].
  repeat (rewrite read_pad_digits by (cbn; lia); cbn -[read_digits pad_digits year_from_time]).
  rewrite !Z.mul_0_l, !Z.add_0_l, Z.add_simpl_r, make_day_fields, make_time_fields, make_date_day.
  rewrite Ht. Z_leb_true. done.
Qed.

(** C22: [toISOString] loses nothing: for every time value [t] (within
    TimeClip), reading its Date Time String Format back gives [t], the
    expanded years of the extreme dates included. *)
Theorem to_iso_string_roundtrip t : time_value_ok t = true -> parse_iso (to_iso_string t) = Some t.
Proof. apply parse_iso_to_iso_string. Qed.

(** The witness of C22: the time of a submission. *)
Lemma to_iso_string_roundtrip_witness :
  time_value_ok 1762682400123 = true /\ parse_iso (to_iso_string 1762682400123) = Some 1762682400123.
Proof. split; [reflexivity | apply to_iso_string_roundtrip; reflexivity]. Defined.
