(* ===== verification/IsoOrder.v ===== *)
(** The order of the timestamps the forms send (main.js lines 75 and 143,
    [new Date().toISOString()]): for the years 0 to 9999, comparing two
    timestamps as strings, the way JavaScript's [<] on strings and a text
    sort compare them, is comparing the times they stand for.

    [str_lt] is IsLessThan on two Strings (ECMA-262 7.2.13, the String
    case): the code units are compared in order, and a proper prefix comes
    first.  The proof reads the ISO string as its fields of fixed width,
    each a run of decimal digits: two runs of the same width compare as
    their numbers, and a later time has a lexicographically larger tuple
    (year, month, date, hour, minute, second, millisecond). *)

From S2P Require Import Prelude Date.

Local Open Scope Z_scope.

(** IsLessThan on two Strings. *)
Fixpoint str_lt (a b : list N) : bool :=
  match a, b with
  | _, [] => false
  | [], _ :: _ => true
  | x :: a', y :: b' => (x <? y)%N || ((x =? y)%N && str_lt a' b')
  end.

(** ** The string order *)

Lemma str_lt_irrefl a : str_lt a a = false.
Proof. induction a as [|x a IH]; simpl; [done|]. by rewrite N.ltb_irrefl, N.eqb_refl, IH. Qed.

Lemma str_lt_asym a b : str_lt a b = true -> str_lt b a = false.
Proof.
  revert b. induction a as [|x a IH]; intros [|y b]; simpl; try done.
  destruct (N.ltb_spec x y), (N.eqb_spec x y), (N.ltb_spec y x), (N.eqb_spec y x);
    simpl; try lia; intros Hab; auto.
Qed.

Lemma str_lt_cons c a b : str_lt (c :: a) (c :: b) = str_lt a b.
Proof. simpl. by rewrite N.ltb_irrefl, N.eqb_refl. Qed.

Lemma str_lt_app_same p a b : str_lt (p ++ a) (p ++ b) = str_lt a b.
Proof. induction p as [|c p IH]; [done|]. simpl app. by rewrite str_lt_cons. Qed.

(** Two strings of the same length decide the order of what follows them. *)
Lemma str_lt_app_length p q a b :
  length p = length q -> str_lt p q = true -> str_lt (p ++ a) (q ++ b) = true.
Proof.
  revert q. induction p as [|x p IH]; intros [|y q] Hl Hlt; try discriminate.
  simpl in *. destruct (N.ltb_spec x y); [done|]. simpl in *.
  apply andb_true_iff in Hlt as [-> Hlt]. simpl. apply IH; [lia | done].
Qed.

(** ** Fields of decimal digits *)

Lemma str_lt_pad_digits w a b :
  0 <= a < b -> b < 10 ^ Z.of_nat w -> str_lt (pad_digits w a) (pad_digits w b) = true.
Proof.
  revert a b. induction w as [|w IH]; intros a b Hab Hb; [simpl in Hb; lia|].
  rewrite Nat2Z.inj_succ, Z.pow_succ_r in Hb by lia. cbn [pad_digits].
  assert (Hq : a / 10 <= b / 10) by (apply Z.div_le_mono; lia).
  destruct (Z.le_gt_cases (b / 10) (a / 10)) as [Hle|Hlt].
  - assert (Heq : a / 10 = b / 10) by lia. rewrite Heq, str_lt_app_same.
    assert (a mod 10 < b mod 10) by (Z.div_mod_to_equations; lia).
    pose proof (Z.mod_pos_bound a 10). pose proof (Z.mod_pos_bound b 10).
    simpl. apply orb_true_intro. left. apply N.ltb_lt, N.add_lt_mono_l, Z2N.inj_lt; lia.
  - apply str_lt_app_length; [by rewrite !length_pad_digits|].
    apply IH; [split; [apply Z.div_pos|]; lia | apply Z.div_lt_upper_bound; lia].
Qed.

(** A field decides the order when it differs, and hands it on when the
    two fields are equal. *)
Lemma str_lt_field w a b r1 r2 :
  0 <= a < 10 ^ Z.of_nat w -> 0 <= b < 10 ^ Z.of_nat w ->
  a < b \/ (a = b /\ str_lt r1 r2 = true) ->
  str_lt (pad_digits w a ++ r1) (pad_digits w b ++ r2) = true.
Proof.
  intros Ha Hb [Hlt | [-> Hr]].
  - apply str_lt_app_length; [by rewrite !length_pad_digits | apply str_lt_pad_digits; lia].
  - by rewrite str_lt_app_same.
Qed.

(** ** The fields of a later time *)

(** The fields of the date depend on the day only. *)
Lemma date_fields_of_day t1 t2 : day t1 = day t2 ->
  year_from_time t1 = year_from_time t2 /\ month_from_time t1 = month_from_time t2 /\
  date_from_time t1 = date_from_time t2.
Proof.
  intros Hd. assert (Hy : year_from_time t1 = year_from_time t2) by (unfold year_from_time; by rewrite Hd).
  assert (Hw : day_within_year t1 = day_within_year t2) by (unfold day_within_year; by rewrite Hd, Hy).
  assert (Hl : in_leap_year t1 = in_leap_year t2) by (unfold in_leap_year; by rewrite Hy).
  unfold date_from_time, month_from_time. by rewrite Hy, Hw, Hl.
Qed.

(** Within a year, a later month starts after every day of an earlier one. *)
Lemma month_order t1 t2 :
  year_from_time t1 = year_from_time t2 -> month_from_time t1 < month_from_time t2 ->
  day_within_year t1 < day_within_year t2.
Proof.
  intros Hy. pose proof (day_within_year_range t1) as [_ Hl].
  assert (Hl2 : in_leap_year t1 = in_leap_year t2) by (unfold in_leap_year; by rewrite Hy).
  unfold month_from_time. rewrite <- Hl2.
  set (d1 := day_within_year t1). set (d2 := day_within_year t2). set (leap := in_leap_year t1) in *.
  case_Z_ltb; lia.
Qed.

(** A later day has a lexicographically larger (year, month, date). *)
Lemma day_lex t1 t2 : day t1 < day t2 ->
  year_from_time t1 < year_from_time t2 \/
  year_from_time t1 = year_from_time t2 /\
  (month_from_time t1 < month_from_time t2 \/
   month_from_time t1 = month_from_time t2 /\ date_from_time t1 < date_from_time t2).
Proof.
  intros Hd. pose proof (year_from_time_day t1). pose proof (year_from_time_day t2).
  destruct (Z.lt_trichotomy (year_from_time t1) (year_from_time t2)) as [|[Hy|Hy]]; [by left| |].
  - right. split; [done|].
    assert (Hw : day_within_year t1 < day_within_year t2) by (unfold day_within_year; rewrite Hy; lia).
    destruct (Z.lt_trichotomy (month_from_time t1) (month_from_time t2)) as [|[Hm|Hm]]; [by left| |].
    + right. split; [done|]. unfold date_from_time, in_leap_year. rewrite Hm, Hy. lia.
    + pose proof (month_order t2 t1 (eq_sym Hy) Hm). lia.
  - pose proof (day_from_year_mono (year_from_time t2 + 1) (year_from_time t1) ltac:(lia)). lia.
Qed.

(** A later time has a lexicographically larger tuple of fields. *)
Lemma time_lex t1 t2 : t1 < t2 ->
  year_from_time t1 < year_from_time t2 \/ year_from_time t1 = year_from_time t2 /\
  (month_from_time t1 < month_from_time t2 \/ month_from_time t1 = month_from_time t2 /\
  (date_from_time t1 < date_from_time t2 \/ date_from_time t1 = date_from_time t2 /\
  (hour_from_time t1 < hour_from_time t2 \/ hour_from_time t1 = hour_from_time t2 /\
  (min_from_time t1 < min_from_time t2 \/ min_from_time t1 = min_from_time t2 /\
  (sec_from_time t1 < sec_from_time t2 \/ sec_from_time t1 = sec_from_time t2 /\
   ms_from_time t1 < ms_from_time t2))))).
Proof.
  intros Ht. pose proof (make_date_day t1) as E1. pose proof (make_date_day t2) as E2.
  pose proof (make_time_fields t1) as W1. pose proof (make_time_fields t2) as W2.
  pose proof (time_fields_range t1). pose proof (time_fields_range t2).
  unfold make_date, make_time, time_within_day, msPerDay, msPerHour, msPerMinute, msPerSecond in *.
  pose proof (Z.mod_pos_bound t1 86400000). pose proof (Z.mod_pos_bound t2 86400000).
  destruct (Z.lt_trichotomy (day t1) (day t2)) as [Hd|[Hd|Hd]].
  - destruct (day_lex t1 t2 Hd) as [Hy|[Hy [Hm|[Hm Hdt]]]]; [by left|..]; right; split; [done| |done|].
    + by left.
    + right. split; [done|]. by left.
  - destruct (date_fields_of_day t1 t2 Hd) as (-> & -> & ->).
    right; split; [done|]; right; split; [done|]; right; split; [done|]. lia.
  - lia.
Qed.

(** ** Timestamps sort as the times *)

Lemma year_string_four y : 0 <= y <= 9999 -> year_string y = pad_digits 4 y.
Proof.
  intros Hy. unfold year_string.
  by rewrite (proj2 (Z.leb_le 0 y)), (proj2 (Z.leb_le y 9999)) by lia.
Qed.

(** One field of the chain: it decides, or the comparison moves on past
    the separator that follows it. *)
Ltac iso_field H :=
  apply str_lt_field; [simpl; lia | simpl; lia |];
  destruct H as [?|[? H]]; [left; lia | right; split; [lia | rewrite str_lt_cons]].

Lemma iso_string_lt t1 t2 :
  0 <= year_from_time t1 <= 9999 -> 0 <= year_from_time t2 <= 9999 -> t1 < t2 ->
  str_lt (to_iso_string t1) (to_iso_string t2) = true.
Proof.
  intros Hy1 Hy2 Ht. pose proof (time_lex t1 t2 Ht) as Hlex.
  pose proof (month_date_range t1). pose proof (month_date_range t2).
  pose proof (time_fields_range t1). pose proof (time_fields_range t2).
  unfold to_iso_string. rewrite !year_string_four by done.
  do 6 iso_field Hlex.
  apply str_lt_field; [simpl; lia | simpl; lia | by left].
Qed.

(** C35: for times in the years 0 to 9999, one timestamp comes before
    another as a string (JavaScript's [<] on strings, a text sort of the
    sheet's timestamp column) exactly when its time is earlier. *)
Theorem iso_strings_sort_chronologically t1 t2 :
  0 <= year_from_time t1 <= 9999 -> 0 <= year_from_time t2 <= 9999 ->
  t1 < t2 <-> str_lt (to_iso_string t1) (to_iso_string t2) = true.
Proof.
  intros Hy1 Hy2. split; [by apply iso_string_lt|]. intros Hs.
  destruct (Z.lt_trichotomy t1 t2) as [|[->|Hgt]]; [done | by rewrite str_lt_irrefl in Hs |].
  by rewrite (str_lt_asym _ _ (iso_string_lt t2 t1 Hy2 Hy1 Hgt)) in Hs.
Qed.

(** The witness of C35: two submissions one millisecond apart. *)
Lemma iso_strings_sort_chronologically_witness :
  0 <= year_from_time 1762682400123 <= 9999 /\ 0 <= year_from_time 1762682400124 <= 9999 /\
  str_lt (to_iso_string 1762682400123) (to_iso_string 1762682400124) = true.
Proof.
  assert (H1 : 0 <= year_from_time 1762682400123 <= 9999) by (vm_compute; split; discriminate).
  assert (H2 : 0 <= year_from_time 1762682400124 <= 9999) by (vm_compute; split; discriminate).
  split; [exact H1|]. split; [exact H2|].
  apply (iso_strings_sort_chronologically _ _ H1 H2). lia.
Defined.

(** Outside those years the string order breaks: the first millisecond of
    the year 10000, written [+010000-01-01T00:00:00.000Z], sorts before
    the last one of 9999. *)
Example iso_strings_expanded_year_misorder :
  253402300799999 < 253402300800000 /\
  str_lt (to_iso_string 253402300800000) (to_iso_string 253402300799999) = true.
Proof. split; [lia | vm_compute; reflexivity]. Qed.
