(* ===== verification/Form.v ===== *)
(** The form objects the handlers read and reset: a form as its list of
    text controls in tree order, [new FormData(form)] (main.js lines 47 and
    132) as the entry list of the enabled, named controls,
    [formData.get(name)] as the first entry of that name ([null] when there
    is none), and [form.reset()] (lines 102 and 167), which puts every
    control back to its default value. *)

From S2P Require Import Prelude JsString.

(** A text control ([input], [select] or [textarea]) of a form. *)
Record control := {
  ctl_name : string;
  ctl_value : list N;
  ctl_default : list N;
  ctl_disabled : bool;
}.

(** The entry list of FormData: disabled controls and controls without a
    name are skipped; the submit button is not the submitter of
    [new FormData(form)] and adds no entry. *)
Definition form_data (form : list control) : list (string * list N) :=
  map (fun c => (ctl_name c, ctl_value c))
      (List.filter (fun c => negb (ctl_disabled c) && negb (String.eqb (ctl_name c) "")) form).

(** [formData.get(name)]: the value of the first entry with that name. *)
Fixpoint fd_get (fd : list (string * list N)) (name : string) : option (list N) :=
  match fd with
  | [] => None
  | (n, v) :: fd' => if String.eqb n name then Some v else fd_get fd' name
  end.

(** [form.reset()]: every control gets its default value back. *)
Definition form_reset (form : list control) : list control :=
  map (fun c => {| ctl_name := ctl_name c; ctl_value := ctl_default c;
                   ctl_default := ctl_default c; ctl_disabled := ctl_disabled c |}) form.

(** A control of the given name with a value, default empty. *)
Definition text_control (name : string) (value : list N) : control :=
  {| ctl_name := name; ctl_value := value; ctl_default := []; ctl_disabled := false |}.

(** The values and defaults of the controls are JavaScript strings. *)
Definition controls_wf (form : list control) : Prop :=
  Forall (fun c => wf_jsstr (ctl_value c) /\ wf_jsstr (ctl_default c)) form.

(** ** Lemmas *)

Lemma form_reset_idem form : form_reset (form_reset form) = form_reset form.
Proof. unfold form_reset. rewrite map_map. by apply map_ext. Qed.

Lemma form_reset_wf form : controls_wf form -> controls_wf (form_reset form).
Proof.
  unfold controls_wf, form_reset. rewrite Forall_map. intros Hf.
  eapply Forall_impl; [exact Hf | simpl; tauto].
Qed.

Lemma form_data_wf form : controls_wf form -> Forall (fun e => wf_jsstr e.2) (form_data form).
Proof.
  unfold controls_wf, form_data. intros Hf. rewrite Forall_map.
  induction Hf as [|c form [Hv _] _ IH]; simpl; [constructor|].
  destruct (_ && _); [constructor|]; auto.
Qed.

Lemma fd_get_wf fd name v : Forall (fun e => wf_jsstr e.2) fd -> fd_get fd name = Some v -> wf_jsstr v.
Proof.
  induction fd as [|[n v'] fd IH]; intros Hfd; [discriminate|]. apply Forall_cons in Hfd as [Hv Hfd].
  simpl. destruct (String.eqb n name); [intros [= <-]; done | auto].
Qed.

Lemma fd_get_or_empty_wf fd name : Forall (fun e => wf_jsstr e.2) fd -> wf_jsstr (or_empty (fd_get fd name)).
Proof.
  intros Hfd. destruct (fd_get fd name) eqn:E; [exact (fd_get_wf _ _ _ Hfd E) | constructor].
Qed.
