(* ===== verification/Handler.v ===== *)
(** What the two submit handlers of main.js share: the messages they
    [alert], the label of the busy button, the 6000 ms of the success
    banner, the endpoint configuration [GOOGLE_SHEETS_CONFIG] (lines
    12-15), and the interface [FormSpec] through which the submission
    protocol of [Submission] uses a form: its validation (the checks and
    the record built before the request, with the early returns as
    errors) and its endpoint.  [ClientForm] and [CandidateForm] are its
    two instances. *)

From S2P Require Import Prelude JsString Json Form.

(** The checks that end a handler early with an [alert] and a [return]. *)
Inductive validation_error :=
  | EMissing     (** a required field is blank, line 54 *)
  | EEmail       (** the e-mail fails the pattern, lines 62 and 137 *)
  | EResources.  (** the resource count is not a finite Number >= 1, line 69 *)

#[export] Instance validation_error_eq_dec : EqDecision validation_error.
Proof. solve_decision. Defined.

Definition validation_alert (e : validation_error) : list N :=
  match e with
  | EMissing => ⟪"Please fill all required fields."⟫
  | EEmail => ⟪"Please enter a valid email."⟫
  | EResources => ⟪"Please enter a valid number of resources."⟫
  end.

(** The alert of [onload] for a status other than 200 and 0. *)
Definition submit_error_alert : list N :=
  ⟪"There was an error submitting your form. Please try again."⟫.

(** The alert of [onerror]. *)
Definition network_error_alert : list N :=
  ⟪"Network error. Please check your connection and try again."⟫.

(** The message of [console.error] for a status other than 200 and 0,
    logged with the status (lines 108, 173). *)
Definition status_error_log : list N := ⟪"Error submitting form. Status:"⟫.

(** The message of [console.error] in [onerror] (lines 116, 181). *)
Definition network_error_log : list N := ⟪"Network error submitting form"⟫.

(** The label of the submit button while a request is out. *)
Definition submitting_label : list N := ⟪"Submitting..."⟫.

(** The delay of [setTimeout] that hides the success banner. *)
Definition success_hide_delay : Z := 6000.

(** [GOOGLE_SHEETS_CONFIG]. *)
Definition clientFormUrl : list N :=
  ⟪"https://script.google.com/macros/s/AKfycbyGHyJNo_ZHgGuwSJJ53hzOtvhZB4Z2sVMFRvgTA-Wl9N7yD___PpdgNvzMqJFq3uCX/exec"⟫.
Definition candidateFormUrl : list N :=
  ⟪"https://script.google.com/macros/s/AKfycbxmEqrnZgwa6X8zwl9lIuoiRoiFMSwhZIoRW3DKVmFmwbRykH7qPcYB3X_OMxC70ymQ/exec"⟫.

(** A form as the submission protocol sees it: [form_validate ts fd] runs
    the checks of the handler on the FormData [fd] and builds the record
    with timestamp [ts]; [form_endpoint] is the URL of [xhr.open];
    [form_json r] is the object [data] of the record, its properties in
    the order the object literal writes them, as [JSON.stringify] sees
    it; [form_log_label] is the message [console.log] writes before the
    record when the request succeeds. *)
Class FormSpec (R : Type) := {
  form_validate : list N -> list (string * list N) -> result R validation_error;
  form_endpoint : list N;
  form_json : R -> list (list N * json_value);
  form_log_label : list N;
}.

(** What a form promises the page beyond [FormSpec]: a record it accepts
    from a timestamp and FormData entries that are JavaScript strings is
    an object of JavaScript strings, so that its JSON text survives the
    UTF-8 encoding of [xhr.send]; and the object's [timestamp] member is
    the timestamp the handler was given. *)
Class FormSpecLaws (R : Type) `{FormSpec R} := {
  form_json_wf : forall ts fd r,
    wf_jsstr ts -> Forall (fun e => wf_jsstr e.2) fd ->
    form_validate ts fd = Ok r -> json_object_wf (form_json r);
  form_json_timestamp : forall ts fd r,
    form_validate ts fd = Ok r -> json_get ⟪"timestamp"⟫ (form_json r) = Some (JStr ts);
}.
