(* ===== verification/ClientForm.v ===== *)
(** The client form handler's checks and record (main.js lines 45-85): the
    loop over the six required fields with its early return, the e-mail
    pattern on the untrimmed value, the resource count, and the record
    sent to [GOOGLE_SHEETS_CONFIG.clientFormUrl]; the [FormSpec] instance
    of the client form. *)

From S2P Require Import Prelude JsString Regex Email JsNumber Json Form Handler.

Module Client.

(** [requiredFields], line 50. *)
Definition requiredFields : list string :=
  ["companyName"; "contactPerson"; "email"; "phone"; "city"; "numResources"]%string.

(** A field is blank when [String(formData.get(field) || '').trim()] is
    falsy. *)
Definition blank (fd : list (string * list N)) (field : string) : bool :=
  js_falsy (trim (or_empty (fd_get fd field))).

(** Lines 51-57: the first blank field ends the handler. *)
Fixpoint check_required (fd : list (string * list N)) (fields : list string)
    : result unit validation_error :=
  match fields with
  | [] => Ok tt
  | field :: rest => if blank fd field then Err EMissing else check_required fd rest
  end.

(** The object [data] of lines 74-85; a [formData.get] without [|| '']
    keeps [null] as [None]. *)
Record client_record := {
  timestamp : list N;
  companyName : option (list N);
  contactPerson : option (list N);
  email : option (list N);
  phone : option (list N);
  city : option (list N);
  manpowerType : list N;
  numResources : option (list N);
  duration : list N;
  details : list N;
}.

Definition build_record (ts : list N) (fd : list (string * list N)) : client_record :=
  {| timestamp := ts;
     companyName := fd_get fd "companyName";
     contactPerson := fd_get fd "contactPerson";
     email := fd_get fd "email";
     phone := fd_get fd "phone";
     city := fd_get fd "city";
     manpowerType := or_empty (fd_get fd "manpowerType");
     numResources := fd_get fd "numResources";
     duration := or_empty (fd_get fd "duration");
     details := or_empty (fd_get fd "details") |}.

(** Lines 47-85, from the FormData to the record or the first failing
    check; [ts] is [new Date().toISOString()]. *)
Definition validate (ts : list N) (fd : list (string * list N))
    : result client_record validation_error :=
  let! _ := check_required fd requiredFields in
  let em := or_empty (fd_get fd "email") in
  if negb (regexp_test email_regex em) then Err EEmail
  else if num_resources_invalid (fd_get fd "numResources") then Err EResources
  else Ok (build_record ts fd).

(** The object literal of lines 74-85 as [JSON.stringify] walks it. *)
Definition to_json (r : client_record) : list (list N * json_value) :=
  [(⟪"timestamp"⟫, JStr (timestamp r));
   (⟪"companyName"⟫, json_of_nullable (companyName r));
   (⟪"contactPerson"⟫, json_of_nullable (contactPerson r));
   (⟪"email"⟫, json_of_nullable (email r));
   (⟪"phone"⟫, json_of_nullable (phone r));
   (⟪"city"⟫, json_of_nullable (city r));
   (⟪"manpowerType"⟫, JStr (manpowerType r));
   (⟪"numResources"⟫, json_of_nullable (numResources r));
   (⟪"duration"⟫, JStr (duration r));
   (⟪"details"⟫, JStr (details r))].

#[export] Instance client_form : FormSpec client_record := {
  form_validate := validate;
  form_endpoint := clientFormUrl;
  form_json := to_json;
  form_log_label := ⟪"Client requirement submitted to Google Sheets:"⟫;
}.

(** ** Lemmas *)

Lemma blank_iff fd field : blank fd field = true <-> all_space (or_empty (fd_get fd field)).
Proof.
  unfold blank. rewrite <- trim_nil_iff.
  destruct (trim _); simpl; split; congruence.
Qed.

Lemma check_required_cases fd fields :
  check_required fd fields = Ok tt \/ check_required fd fields = Err EMissing.
Proof.
  induction fields as [|f fields IH]; simpl; [auto|]. destruct (blank fd f); auto.
Qed.

Lemma check_required_err fd fields :
  check_required fd fields = Err EMissing <-> Exists (fun f => blank fd f = true) fields.
Proof.
  induction fields as [|f fields IH]; simpl.
  - split; [discriminate | inversion 1].
  - rewrite Exists_cons. destruct (blank fd f) eqn:E; [split; auto|].
    rewrite IH. split; [auto | intros [?|?]; [congruence | done]].
Qed.

Lemma check_required_ok fd fields :
  check_required fd fields = Ok tt <-> Forall (fun f => blank fd f = false) fields.
Proof.
  induction fields as [|f fields IH]; simpl.
  - split; auto.
  - rewrite Forall_cons. destruct (blank fd f) eqn:E; [split; [discriminate | intros [? _]; congruence]|].
    rewrite IH. split; [auto | intros [_ ?]; done].
Qed.

(** Once the required fields are present, the handler stops at the e-mail,
    at the resource count, or builds the record. *)
Lemma validate_after_required ts fd :
  check_required fd requiredFields = Ok tt ->
  validate ts fd =
    if negb (regexp_test email_regex (or_empty (fd_get fd "email"))) then Err EEmail
    else if num_resources_invalid (fd_get fd "numResources") then Err EResources
    else Ok (build_record ts fd).
Proof. intros H. unfold validate. by rewrite H. Qed.

(** An accepted form gives the record of lines 74-85. *)
Lemma validate_ok_record ts fd r : validate ts fd = Ok r -> r = build_record ts fd.
Proof.
  unfold validate, result_bind. destruct (check_required fd requiredFields); [|discriminate].
  destruct (negb _); [discriminate|]. destruct (num_resources_invalid _); [discriminate|].
  by intros [= <-].
Qed.

(** A record built from JavaScript strings is an object of JavaScript
    strings. *)
Lemma to_json_wf ts fd : wf_jsstr ts -> Forall (fun e => wf_jsstr e.2) fd ->
  json_object_wf (to_json (build_record ts fd)).
Proof.
  intros Hts Hfd.
  assert (Hget : forall k, json_value_wf (json_of_nullable (fd_get fd k)))
    by (intros k; destruct (fd_get fd k) eqn:E; [exact (fd_get_wf _ _ _ Hfd E) | exact I]).
  repeat apply Forall_cons_2; try apply Forall_nil_2;
    (split; [apply js_of_string_wf | first [exact Hts | apply Hget | by apply fd_get_or_empty_wf]]).
Qed.

#[export] Instance client_form_laws : FormSpecLaws client_record.
Proof.
  constructor.
  - intros ts fd r Hts Hfd ->%validate_ok_record. by apply to_json_wf.
  - intros ts fd r ->%validate_ok_record. reflexivity.
Qed.

(** ** Properties *)

(** The missing-field error is a blank required field. *)
Lemma validate_missing_blank ts fd :
  validate ts fd = Err EMissing <->
  Exists (fun f => all_space (or_empty (fd_get fd f))) requiredFields.
Proof.
  rewrite <- (Exists_iff _ _ _ (blank_iff fd)), <- check_required_err.
  destruct (check_required_cases fd requiredFields) as [H|H].
  - rewrite validate_after_required by done. rewrite H.
    split; [|discriminate]. by repeat case_match.
  - unfold validate. rewrite H. done.
Qed.

(** C6: the client form is refused with "Please fill all required fields."
    exactly when one of the six required fields is absent or holds only
    white space, whatever the other fields hold: the required-field loop
    runs first. *)
Theorem validate_missing_iff ts fd :
  validate ts fd = Err EMissing <->
  Exists (fun f => all_space (or_empty (fd_get fd f))) requiredFields.
Proof. apply validate_missing_blank. Qed.

(** C7: the client form passes its checks exactly when no required field
    is blank, the e-mail has the shape [a@b.c] of the pattern, and the
    resource count is a finite Number [>= 1]; the record then holds the
    FormData values, the optional fields defaulting to the empty string. *)
Theorem validate_ok_iff ts fd r :
  validate ts fd = Ok r <->
  Forall (fun f => ~ all_space (or_empty (fd_get fd f))) requiredFields /\
  email_shape (or_empty (fd_get fd "email")) /\
  num_resources_invalid (fd_get fd "numResources") = false /\
  r = build_record ts fd.
Proof.
  assert (Hb : forall f, blank fd f = false <-> ~ all_space (or_empty (fd_get fd f))).
  { intros f. rewrite <- blank_iff. destruct (blank fd f); split; congruence. }
  rewrite <- (Forall_iff _ _ _ Hb), <- check_required_ok, <- email_regex_shape.
  destruct (check_required_cases fd requiredFields) as [H|H].
  - rewrite validate_after_required by done.
    destruct (regexp_test _ _), (num_resources_invalid _); simpl;
      split; try discriminate; try (intros (_ & ? & ? & _); discriminate).
    + intros [= <-]. auto.
    + intros (_ & _ & _ & ->). done.
  - unfold validate. rewrite H. simpl. split; [discriminate | intros (? & _); congruence].
Qed.

(** C8: with every required field present, an e-mail that does not have
    the shape [a@b.c] refuses the form with "Please enter a valid email.",
    before the resource count is looked at. *)
Theorem validate_email_error ts fd :
  Forall (fun f => ~ all_space (or_empty (fd_get fd f))) requiredFields ->
  ~ email_shape (or_empty (fd_get fd "email")) ->
  validate ts fd = Err EEmail.
Proof.
  intros Hreq Hem. rewrite validate_after_required.
  - rewrite <- email_regex_shape in Hem. destruct (regexp_test _ _); [done | reflexivity].
  - apply check_required_ok. eapply Forall_impl; [exact Hreq|]. simpl. intros f Hf.
    destruct (blank fd f) eqn:E; [apply blank_iff in E; done | done].
Qed.

(** A client form with every required field filled and the e-mail [bad]. *)
Definition example_fd : list (string * list N) :=
  [("companyName", ⟪"Acme"⟫); ("contactPerson", ⟪"Ann"⟫); ("email", ⟪"bad"⟫);
   ("phone", ⟪"555"⟫); ("city", ⟪"Pune"⟫); ("numResources", ⟪"3"⟫)]%string.

(** The witness of C8. *)
Lemma validate_email_error_witness :
  Forall (fun f => ~ all_space (or_empty (fd_get example_fd f))) requiredFields /\
  ~ email_shape (or_empty (fd_get example_fd "email")) /\
  validate ⟪"2026-11-09T10:00:00.000Z"⟫ example_fd = Err EEmail.
Proof.
  assert (Hreq : Forall (fun f => ~ all_space (or_empty (fd_get example_fd f))) requiredFields).
  { repeat constructor; intros Hsp%blank_iff; vm_compute in Hsp; discriminate. }
  assert (Hem : ~ email_shape (or_empty (fd_get example_fd "email"))).
  { rewrite <- email_regex_shape. vm_compute. discriminate. }
  split; [exact Hreq|]. split; [exact Hem|]. exact (validate_email_error _ _ Hreq Hem).
Defined.

End Client.
