(* ===== verification/CandidateForm.v ===== *)
(** The candidate form handler's check and record (main.js lines 130-150):
    only the e-mail is checked, and only when it is non-empty; every field
    of the record defaults to the empty string.  The [FormSpec] instance
    of the candidate form. *)

From S2P Require Import Prelude JsString Regex Email Json Form Handler.

Module Candidate.

(** The object [data] of lines 142-150. *)
Record candidate_record := {
  timestamp : list N;
  fullName : list N;
  phone : list N;
  email : list N;
  city : list N;
  primarySkill : list N;
  experienceYears : list N;
}.

Definition build_record (ts : list N) (fd : list (string * list N)) : candidate_record :=
  {| timestamp := ts;
     fullName := or_empty (fd_get fd "fullName");
     phone := or_empty (fd_get fd "candidatePhone");
     email := or_empty (fd_get fd "candidateEmail");
     city := or_empty (fd_get fd "candidateCity");
     primarySkill := or_empty (fd_get fd "primarySkill");
     experienceYears := or_empty (fd_get fd "experienceYears") |}.

(** Lines 132-150: [if (email && !pattern.test(email))] returns early. *)
Definition validate (ts : list N) (fd : list (string * list N))
    : result candidate_record validation_error :=
  let em := or_empty (fd_get fd "candidateEmail") in
  if negb (js_falsy em) && negb (regexp_test email_regex em) then Err EEmail
  else Ok (build_record ts fd).

(** The object literal of lines 142-150 as [JSON.stringify] walks it. *)
Definition to_json (r : candidate_record) : list (list N * json_value) :=
  [(⟪"timestamp"⟫, JStr (timestamp r)); (⟪"fullName"⟫, JStr (fullName r));
   (⟪"phone"⟫, JStr (phone r)); (⟪"email"⟫, JStr (email r));
   (⟪"city"⟫, JStr (city r)); (⟪"primarySkill"⟫, JStr (primarySkill r));
   (⟪"experienceYears"⟫, JStr (experienceYears r))].

#[export] Instance candidate_form : FormSpec candidate_record := {
  form_validate := validate;
  form_endpoint := candidateFormUrl;
  form_json := to_json;
  form_log_label := ⟪"Candidate registration submitted to Google Sheets:"⟫;
}.

(** ** Lemmas *)

(** An accepted form gives the record of lines 142-150. *)
Lemma candidate_validate_ok_record ts fd r : validate ts fd = Ok r -> r = build_record ts fd.
Proof. unfold validate. destruct (_ && _); [discriminate | by intros [= <-]]. Qed.

(** A record built from JavaScript strings is an object of JavaScript
    strings. *)
Lemma candidate_to_json_wf ts fd : wf_jsstr ts -> Forall (fun e => wf_jsstr e.2) fd ->
  json_object_wf (to_json (build_record ts fd)).
Proof.
  intros Hts Hfd.
  repeat apply Forall_cons_2; try apply Forall_nil_2;
    (split; [apply js_of_string_wf | first [exact Hts | by apply fd_get_or_empty_wf]]).
Qed.

#[export] Instance candidate_form_laws : FormSpecLaws candidate_record.
Proof.
  constructor.
  - intros ts fd r Hts Hfd ->%candidate_validate_ok_record. by apply candidate_to_json_wf.
  - intros ts fd r ->%candidate_validate_ok_record. reflexivity.
Qed.

(** ** Properties *)

(** C9: the candidate form passes its check exactly when its e-mail is
    empty (or absent) or has the shape [a@b.c]; every other field is free,
    and the record holds the FormData values or empty strings.  So a
    non-empty malformed e-mail blocks the submission (alert and [return],
    lines 136-139), although the comment of line 134 calls the check
    "non-blocking". *)
Theorem candidate_validate_ok_iff ts fd r :
  validate ts fd = Ok r <->
  (or_empty (fd_get fd "candidateEmail") = [] \/
   email_shape (or_empty (fd_get fd "candidateEmail"))) /\
  r = build_record ts fd.
Proof.
  unfold validate. rewrite <- email_regex_shape.
  destruct (or_empty (fd_get fd "candidateEmail")) as [|c em]; simpl.
  - split; [intros [= <-]; auto | intros [_ ->]; done].
  - destruct (regexp_test _ _); simpl.
    + split; [intros [= <-]; auto | intros [_ ->]; done].
    + split; [discriminate | intros [[?|?] _]; discriminate].
Qed.

(** C10: a candidate form whose fields are all empty, e-mail included, is
    sent, with a record of empty strings (the spec's fourth test). *)
Theorem validate_all_empty ts fd :
  Forall (fun e => snd e = []) fd ->
  validate ts fd = Ok {| timestamp := ts; fullName := []; phone := []; email := [];
                         city := []; primarySkill := []; experienceYears := [] |}.
Proof.
  intros Hfd.
  assert (Hget : forall n, or_empty (fd_get fd n) = []).
  { intros n. induction Hfd as [|[n' v] fd' Hv _ IH]; [done|]. simpl in *.
    destruct (String.eqb n' n); [done | exact IH]. }
  unfold validate, build_record. rewrite !Hget. reflexivity.
Qed.

(** A form of empty text controls. *)
Example validate_all_empty_witness :
  Forall (fun e => snd e = []) (form_data [text_control "fullName" []; text_control "candidateEmail" []]) /\
  validate ⟪"2026-01-01T00:00:00.000Z"⟫
    (form_data [text_control "fullName" []; text_control "candidateEmail" []]) =
  Ok {| timestamp := ⟪"2026-01-01T00:00:00.000Z"⟫; fullName := []; phone := []; email := [];
        city := []; primarySkill := []; experienceYears := [] |}.
Proof.
  split; [repeat constructor|].
  apply validate_all_empty. repeat constructor.
Defined.

End Candidate.
