(* ===== verification/ClassList.v ===== *)
(** [element.classList] (a DOMTokenList) as the script uses it:
    [add('hidden')] (lines 36, 105, 170), [remove('hidden')] (lines 104,
    169) and [toggle('hidden')] (line 31).  The token set is an ordered
    list without duplicates; [add] appends a missing token, [remove]
    deletes it, [toggle] does whichever makes the token's presence flip.
    An element is shown when it does not carry the class [hidden]. *)

From S2P Require Import Prelude.
From stdpp Require Import sets.

Module ClassList.

Definition add (tok : string) (cl : list string) : list string :=
  if bool_decide (tok ∈ cl) then cl else cl ++ [tok].

Definition remove (tok : string) (cl : list string) : list string :=
  filter (fun t => t ≠ tok) cl.

Definition toggle (tok : string) (cl : list string) : list string :=
  if bool_decide (tok ∈ cl) then remove tok cl else add tok cl.

Definition contains (tok : string) (cl : list string) : bool := bool_decide (tok ∈ cl).

Definition hidden (cl : list string) : bool := contains "hidden" cl.

(** ** Lemmas *)

Ltac solve_tokens :=
  repeat case_bool_decide; simpl; try done; exfalso; set_solver.

Lemma contains_add tok tok' cl :
  contains tok (add tok' cl) = (bool_decide (tok = tok') || contains tok cl).
Proof. unfold contains, add. solve_tokens. Qed.

Lemma contains_remove tok tok' cl :
  contains tok (remove tok' cl) = (negb (bool_decide (tok = tok')) && contains tok cl).
Proof.
  unfold contains, remove.
  repeat case_bool_decide; simpl; try done; exfalso;
    rewrite ?list_elem_of_filter in *; naive_solver.
Qed.

Lemma contains_toggle tok cl : contains tok (toggle tok cl) = negb (contains tok cl).
Proof.
  unfold toggle. destruct (contains tok cl) eqn:E; unfold contains in E; rewrite E.
  - rewrite contains_remove, bool_decide_true; done.
  - rewrite contains_add, bool_decide_true; done.
Qed.

#[export] Hint Rewrite contains_add contains_remove contains_toggle : js_rw.

End ClassList.
