(* ===== verification/Submission.v ===== *)
(** The submission protocol both handlers run (main.js lines 45-123 for the
    client form, 130-188 for the candidate form), generic over the
    [FormSpec] of the form.  The page state of one form is a record: its
    controls, its submit button, the class list of its success banner (if
    the page has one), the requests sent and not yet answered, the
    deadlines of the pending [setTimeout] callbacks, the [alert]s shown,
    the POSTs issued (endpoint and [JSON.stringify] text of the record),
    the console lines written, the clock and the next request number.  Events are
    the [submit] event, [xhr.onload] with a status, [xhr.onerror] and the
    passing of time; [step] is the handler each runs, [run] a sequence.

    Each request carries [originalButtonText], read when it was sent: the
    [onload]/[onerror] closures restore that text.  [reachable] is the
    browser's use, where a disabled submit button cannot be clicked; under
    it the button is always restored to its label (C12).  A programmatic
    second submit while a request is out is not prevented by the code, and
    then the label "Submitting..." can stay for good (C17).  The body of
    every POST parses back to the record (C20). *)

From S2P Require Import Prelude JsString Json Form Handler ClientForm CandidateForm ClassList.

(** ** State and events *)

Record button := {
  btn_disabled : bool;
  btn_text : list N;
}.

Section Controller.
Context {R : Type} `{FormSpec R}.

(** A request sent by [xhr.send] and not yet answered, with the closure's
    [originalButtonText]. *)
Record request := {
  req_id : nat;
  req_url : list N;
  req_body : R;
  req_original_text : list N;
}.

(** A line of the console: [console.log(msg, data)] (lines 101, 166) or
    [console.error(msg)] and [console.error(msg, status)] (lines 108, 116,
    173, 181). *)
Inductive console_entry :=
  | ConsoleLog (msg : list N) (data : R)
  | ConsoleError (msg : list N) (status : option Z).

Record state := {
  st_form : list control;
  st_button : button;
  st_success : option (list string);
  st_pending : list request;
  st_timers : list Z;
  st_alerts : list (list N);
  st_sent : list (list N * list N);
  st_console : list console_entry;
  st_clock : Z;
  st_next : nat;
}.

Inductive event :=
  | Submit (ts : list N)       (** the [submit] event; [ts] is [new Date().toISOString()] *)
  | Load (id : nat) (status : Z) (** [xhr.onload] of request [id] with [xhr.status] *)
  | NetError (id : nat)        (** [xhr.onerror] of request [id] *)
  | Tick (ms : N).             (** [ms] milliseconds pass; due timers fire *)

(** ** Handlers *)

Definition alert (msg : list N) (st : state) : state :=
  {| st_form := st_form st; st_button := st_button st; st_success := st_success st;
     st_pending := st_pending st; st_timers := st_timers st;
     st_alerts := st_alerts st ++ [msg]; st_sent := st_sent st; st_console := st_console st;
     st_clock := st_clock st; st_next := st_next st |}.

(** A line written to the console. *)
Definition console (e : console_entry) (st : state) : state :=
  {| st_form := st_form st; st_button := st_button st; st_success := st_success st;
     st_pending := st_pending st; st_timers := st_timers st;
     st_alerts := st_alerts st; st_sent := st_sent st; st_console := st_console st ++ [e];
     st_clock := st_clock st; st_next := st_next st |}.

(** Lines 46-96 and 122: validate; on success disable the button, show
    "Submitting...", and POST [JSON.stringify(data)] to the endpoint. *)
Definition on_submit (ts : list N) (st : state) : state :=
  match form_validate ts (form_data (st_form st)) with
  | Err e => alert (validation_alert e) st
  | Ok r =>
      let req := {| req_id := st_next st; req_url := form_endpoint; req_body := r;
                    req_original_text := btn_text (st_button st) |} in
      {| st_form := st_form st;
         st_button := {| btn_disabled := true; btn_text := submitting_label |};
         st_success := st_success st;
         st_pending := st_pending st ++ [req];
         st_timers := st_timers st;
         st_alerts := st_alerts st;
         st_sent := st_sent st ++ [(form_endpoint, json_stringify (form_json r))];
         st_console := st_console st;
         st_clock := st_clock st;
         st_next := S (st_next st) |}
  end.

Definition find_request (id : nat) (reqs : list request) : option request :=
  find (fun r => req_id r =? id) reqs.

Definition drop_request (id : nat) (reqs : list request) : list request :=
  List.filter (fun r => negb (req_id r =? id)) reqs.

(** Lines 111-112 and 118-119: the request is over, the button is enabled
    and gets back the text it had when the request was sent. *)
Definition finish (req : request) (st : state) : state :=
  {| st_form := st_form st;
     st_button := {| btn_disabled := false; btn_text := req_original_text req |};
     st_success := st_success st;
     st_pending := drop_request (req_id req) (st_pending st);
     st_timers := st_timers st; st_alerts := st_alerts st; st_sent := st_sent st; st_console := st_console st;
     st_clock := st_clock st; st_next := st_next st |}.

(** Lines 101-106: reset the form; if the banner exists, show it and
    schedule its hiding 6000 ms later. *)
Definition on_success (st : state) : state :=
  {| st_form := form_reset (st_form st);
     st_button := st_button st;
     st_success := option_map (ClassList.remove "hidden") (st_success st);
     st_pending := st_pending st;
     st_timers := match st_success st with
                  | Some _ => st_timers st ++ [(st_clock st + success_hide_delay)%Z]
                  | None => st_timers st
                  end;
     st_alerts := st_alerts st; st_sent := st_sent st; st_console := st_console st;
     st_clock := st_clock st; st_next := st_next st |}.

(** [status === 200 || status === 0]. *)
Definition success_status (status : Z) : bool := (status =? 200)%Z || (status =? 0)%Z.

(** [xhr.onload], lines 98-113. *)
Definition on_load (id : nat) (status : Z) (st : state) : state :=
  match find_request id (st_pending st) with
  | None => st
  | Some req =>
      finish req (if success_status status
                  then on_success (console (ConsoleLog form_log_label (req_body req)) st)
                  else alert submit_error_alert (console (ConsoleError status_error_log (Some status)) st))
  end.

(** [xhr.onerror], lines 115-120. *)
Definition on_error (id : nat) (st : state) : state :=
  match find_request id (st_pending st) with
  | None => st
  | Some req => finish req (alert network_error_alert (console (ConsoleError network_error_log None) st))
  end.

(** Time passes; every timer whose deadline is reached runs
    [success.classList.add('hidden')] (lines 105 and 170), in order. *)
Definition on_tick (ms : N) (st : state) : state :=
  let now := (st_clock st + Z.of_N ms)%Z in
  let due := List.filter (fun d => (d <=? now)%Z) (st_timers st) in
  {| st_form := st_form st; st_button := st_button st;
     st_success := option_map (fun cl => fold_left (fun cl _ => ClassList.add "hidden" cl) due cl)
                              (st_success st);
     st_pending := st_pending st;
     st_timers := List.filter (fun d => negb (d <=? now)%Z) (st_timers st);
     st_alerts := st_alerts st; st_sent := st_sent st; st_console := st_console st;
     st_clock := now; st_next := st_next st |}.

Definition step (st : state) (ev : event) : state :=
  match ev with
  | Submit ts => on_submit ts st
  | Load id status => on_load id status st
  | NetError id => on_error id st
  | Tick ms => on_tick ms st
  end.

Definition run (st : state) (evs : list event) : state := fold_left step evs st.

(** A click on a disabled submit button fires no [submit] event. *)
Definition user_can (st : state) (ev : event) : bool :=
  match ev with
  | Submit _ => negb (btn_disabled (st_button st))
  | _ => true
  end.

Inductive reachable (init : state) : state -> Prop :=
  | reach_init : reachable init init
  | reach_step st ev : reachable init st -> user_can st ev = true -> reachable init (step st ev).

(** The state of a freshly loaded page: [label] is the button's text. *)
Definition initial (form : list control) (label : list N) (success : option (list string)) : state :=
  {| st_form := form; st_button := {| btn_disabled := false; btn_text := label |};
     st_success := success; st_pending := []; st_timers := []; st_alerts := []; st_sent := []; st_console := [];
     st_clock := 0%Z; st_next := 0 |}.

End Controller.

Arguments request R : clear implicits.
Arguments state R : clear implicits.
Arguments event : clear implicits.
Arguments console_entry R : clear implicits.

Section Properties.
Context {R : Type} `{FormSpec R}.

(** ** What the handlers leave unchanged *)

Lemma alert_pending msg (st : state R) : st_pending (alert msg st) = st_pending st.
Proof. reflexivity. Qed.
Lemma alert_button msg (st : state R) : st_button (alert msg st) = st_button st.
Proof. reflexivity. Qed.
Lemma on_success_pending (st : state R) : st_pending (on_success st) = st_pending st.
Proof. reflexivity. Qed.
Lemma on_success_button (st : state R) : st_button (on_success st) = st_button st.
Proof. reflexivity. Qed.

#[local] Hint Rewrite alert_pending alert_button on_success_pending on_success_button : js_rw.

Lemma find_request_single id (r : request R) :
  find_request id [r] = if req_id r =? id then Some r else None.
Proof. unfold find_request. simpl. by destruct (req_id r =? id). Qed.

Lemma find_request_some id (reqs : list (request R)) r :
  find_request id reqs = Some r -> In r reqs /\ req_id r = id.
Proof.
  unfold find_request. intros (Hin & Hid)%find_some. by apply Nat.eqb_eq in Hid.
Qed.

(** ** The button invariant *)

(** Either nothing is pending and the button shows its label, or exactly
    one request is out, it will restore the label, and the button is
    disabled and says "Submitting...". *)
Definition button_inv (label : list N) (st : state R) : Prop :=
  (st_pending st = [] /\ st_button st = {| btn_disabled := false; btn_text := label |}) \/
  (exists r, st_pending st = [r] /\ req_original_text r = label /\
             st_button st = {| btn_disabled := true; btn_text := submitting_label |}).

(** Finishing the one pending request leaves none and restores its label. *)
Lemma finish_single (r : request R) (st : state R) :
  st_pending st = [r] ->
  st_pending (finish r st) = [] /\
  st_button (finish r st) = {| btn_disabled := false; btn_text := req_original_text r |}.
Proof.
  intros Hp. unfold finish, drop_request. simpl. rewrite Hp. simpl.
  by rewrite Nat.eqb_refl.
Qed.

Lemma finish_inv label (r : request R) (st : state R) :
  st_pending st = [r] -> req_original_text r = label -> button_inv label (finish r st).
Proof. intros Hp <-. left. by apply finish_single. Qed.

Lemma step_button_inv label (st : state R) ev :
  button_inv label st -> user_can st ev = true -> button_inv label (step st ev).
Proof.
  intros [[Hp Hb] | (r & Hp & Hl & Hb)] Hcan; destruct ev as [ts|id status|id|ms]; simpl in *.
  - unfold on_submit. destruct (form_validate _ _) as [r|e].
    + right. eexists. rewrite Hp, Hb. simpl. eauto.
    + left. autorewrite with js_rw. auto.
  - unfold on_load. rewrite Hp. left. auto.
  - unfold on_error. rewrite Hp. left. auto.
  - left. auto.
  - rewrite Hb in Hcan. discriminate.
  - unfold on_load. rewrite Hp, find_request_single.
    destruct (req_id r =? id); [|right; eauto].
    apply finish_inv; [|done]. destruct (success_status status); by autorewrite with js_rw.
  - unfold on_error. rewrite Hp, find_request_single.
    destruct (req_id r =? id); [|right; eauto].
    apply finish_inv; [|done]. by autorewrite with js_rw.
  - right. eauto.
Qed.

Lemma reachable_inv form label success (st : state R) :
  reachable (initial form label success) st -> button_inv label st.
Proof.
  induction 1 as [|st ev _ IH Hcan].
  - left. done.
  - by apply step_button_inv.
Qed.

(** C12: on a page used through its button (a disabled button cannot be
    clicked), the submit button is always either enabled with its original
    label and no request out, or disabled with "Submitting..." while
    exactly one request, which will restore that label, is out. *)
Theorem reachable_button_inv form label success (st : state R) :
  reachable (initial form label success) st -> button_inv label st.
Proof. apply reachable_inv. Qed.
(** ** Completion of a request *)

Lemma find_request_drop id (reqs : list (request R)) :
  find_request id (drop_request id reqs) = None.
Proof.
  unfold find_request, drop_request. induction reqs as [|r reqs IH]; [done|]. simpl.
  destruct (req_id r =? id) eqn:E; simpl; [done|]. by rewrite E.
Qed.

Lemma finish_button (req : request R) st :
  st_button (finish req st) = {| btn_disabled := false; btn_text := req_original_text req |}.
Proof. reflexivity. Qed.

Lemma finish_gone id (req : request R) st :
  req_id req = id -> find_request id (st_pending (finish req st)) = None.
Proof. intros <-. apply find_request_drop. Qed.

(** C13: when request [id] is answered with a status, the button is enabled
    again with the text it had when the request was sent, and the request
    is over; on status 200 or 0 the form is reset, no alert is shown and a
    present success banner is shown, on any other status (500 in the
    spec's test) the form keeps its values, the banner is untouched and the
    submission-error alert is shown. *)
Theorem load_outcome id status (st : state R) req :
  find_request id (st_pending st) = Some req ->
  let st' := step st (Load id status) in
  st_button st' = {| btn_disabled := false; btn_text := req_original_text req |} /\
  find_request id (st_pending st') = None /\
  (if success_status status then
     st_form st' = form_reset (st_form st) /\ st_alerts st' = st_alerts st /\
     st_success st' = option_map (ClassList.remove "hidden") (st_success st) /\
     (forall cl, st_success st' = Some cl -> ClassList.hidden cl = false)
   else
     st_form st' = st_form st /\ st_alerts st' = st_alerts st ++ [submit_error_alert] /\
     st_success st' = st_success st).
Proof.
  intros Hf. pose proof (find_request_some _ _ _ Hf) as [_ Hid]. simpl. unfold on_load.
  rewrite Hf. split; [apply finish_button|]. split; [by apply finish_gone|].
  destruct (success_status status); [|done].
  split; [done|]. split; [done|]. split; [done|].
  simpl. intros cl. destruct (st_success st) as [cl0|]; simpl; [|discriminate].
  intros [= <-]. unfold ClassList.hidden. rewrite ClassList.contains_remove.
  by rewrite bool_decide_true.
Qed.

(** C14: when request [id] fails at the network level, the
    network-error alert is shown, the form keeps its values, and the button
    is enabled again with the text it had when the request was sent. *)
Theorem error_outcome id (st : state R) req :
  find_request id (st_pending st) = Some req ->
  let st' := step st (NetError id) in
  st_button st' = {| btn_disabled := false; btn_text := req_original_text req |} /\
  find_request id (st_pending st') = None /\
  st_form st' = st_form st /\ st_alerts st' = st_alerts st ++ [network_error_alert] /\
  st_success st' = st_success st.
Proof.
  intros Hf. pose proof (find_request_some _ _ _ Hf) as [_ Hid]. simpl. unfold on_error.
  rewrite Hf. split; [apply finish_button|]. split; [by apply finish_gone|]. done.
Qed.

(** ** The success banner and its timer *)

Lemma hidden_fold_add (due : list Z) cl :
  ClassList.hidden (fold_left (fun cl _ => ClassList.add "hidden" cl) due cl) =
  negb (bool_decide (due = [])) || ClassList.hidden cl.
Proof.
  revert cl. induction due as [|d due IH]; intros cl; simpl; [done|].
  rewrite IH. unfold ClassList.hidden. rewrite ClassList.contains_add.
  rewrite (bool_decide_true ("hidden" = "hidden")%string) by done.
  destruct (bool_decide (d :: due = [])) eqn:E; [by apply bool_decide_eq_true in E|].
  by rewrite !orb_true_r.
Qed.

Lemma hidden_remove cl : ClassList.hidden (ClassList.remove "hidden" cl) = false.
Proof. unfold ClassList.hidden. by rewrite ClassList.contains_remove, bool_decide_true. Qed.

(** The state after a successful answer, when the banner exists. *)
Lemma load_success_state id status (st : state R) req cl :
  find_request id (st_pending st) = Some req -> success_status status = true ->
  st_success st = Some cl ->
  st_success (step st (Load id status)) = Some (ClassList.remove "hidden" cl) /\
  st_timers (step st (Load id status)) = st_timers st ++ [(st_clock st + success_hide_delay)%Z] /\
  st_clock (step st (Load id status)) = st_clock st.
Proof.
  intros Hf Hs Hcl. simpl. unfold on_load. rewrite Hf, Hs. simpl. by rewrite Hcl.
Qed.

Lemma tick_success (ms : N) (st : state R) cl :
  st_success st = Some cl ->
  st_success (step st (Tick ms)) =
  Some (fold_left (fun cl _ => ClassList.add "hidden" cl)
          (List.filter (fun d => (d <=? st_clock st + Z.of_N ms)%Z) (st_timers st)) cl).
Proof. intros Hcl. simpl. unfold on_tick. simpl. by rewrite Hcl. Qed.

Lemma tick_clock (ms : N) (st : state R) :
  st_clock (step st (Tick ms)) = (st_clock st + Z.of_N ms)%Z.
Proof. reflexivity. Qed.

(** C15: after a successful answer the banner is shown, and with no other
    timer pending it is hidden by the first clock tick that reaches 6000 ms
    after the answer, and not before. *)
Theorem success_banner_hides id status (st : state R) req cl ms :
  find_request id (st_pending st) = Some req -> success_status status = true ->
  st_success st = Some cl -> st_timers st = [] ->
  let st1 := step st (Load id status) in
  (exists cl1, st_success st1 = Some cl1 /\ ClassList.hidden cl1 = false) /\
  (forall cl2, st_success (step st1 (Tick ms)) = Some cl2 ->
               ClassList.hidden cl2 = (success_hide_delay <=? Z.of_N ms)%Z).
Proof.
  intros Hf Hs Hcl Ht st1.
  destruct (load_success_state id status st req cl Hf Hs Hcl) as (H1 & H2 & H3).
  split; [eexists; split; [exact H1 | apply hidden_remove]|].
  intros cl2. rewrite (tick_success _ _ _ H1), H2, H3, Ht. simpl. intros [= <-].
  rewrite hidden_fold_add, hidden_remove, orb_false_r.
  unfold success_hide_delay.
  destruct (Z.leb_spec (st_clock st + 6000) (st_clock st + Z.of_N ms)),
           (Z.leb_spec 6000 (Z.of_N ms)); simpl; try lia; done.
Qed.

(** C16: the timer of an earlier success still pending hides the banner of
    a later success: a success answered at a time [c] while an earlier
    timer is due at [t0 < c + 6000] leaves its banner hidden at [t0],
    before the 6000 ms of the later success have passed. *)
Theorem success_banner_hidden_early id status (st : state R) req cl t0 :
  find_request id (st_pending st) = Some req -> success_status status = true ->
  st_success st = Some cl -> st_timers st = [t0] ->
  (st_clock st < t0 < st_clock st + success_hide_delay)%Z ->
  let st2 := step (step st (Load id status)) (Tick (Z.to_N (t0 - st_clock st))) in
  (exists cl2, st_success st2 = Some cl2 /\ ClassList.hidden cl2 = true) /\
  (st_clock st2 < st_clock st + success_hide_delay)%Z.
Proof.
  intros Hf Hs Hcl Ht Hlt st2.
  destruct (load_success_state id status st req cl Hf Hs Hcl) as (H1 & H2 & H3).
  split.
  - eexists. split; [subst st2; rewrite (tick_success _ _ _ H1); reflexivity|].
    rewrite hidden_fold_add, H2, H3, Ht. simpl.
    rewrite Z2N.id by lia. replace (t0 <=? st_clock st + (t0 - st_clock st))%Z with true by lia.
    done.
  - subst st2. rewrite tick_clock, H3, Z2N.id by lia. lia.
Qed.

(** A submit whose checks fail only shows the alert of the first failing
    check: no request, no POST, the button untouched. *)
Lemma submit_err ts (st : state R) e :
  form_validate ts (form_data (st_form st)) = Err e ->
  step st (Submit ts) = alert (validation_alert e) st.
Proof. intros Hv. simpl. unfold on_submit. by rewrite Hv. Qed.

(** ** Overlapping submissions *)

Lemma submit_ok ts (st : state R) r :
  form_validate ts (form_data (st_form st)) = Ok r ->
  let st' := step st (Submit ts) in
  st_pending st' = st_pending st ++ [{| req_id := st_next st; req_url := form_endpoint;
                                        req_body := r; req_original_text := btn_text (st_button st) |}] /\
  st_button st' = {| btn_disabled := true; btn_text := submitting_label |} /\
  st_form st' = st_form st /\ st_next st' = S (st_next st).
Proof. intros Hv. simpl. unfold on_submit. by rewrite Hv. Qed.

Lemma submit_sent ts (st : state R) r :
  form_validate ts (form_data (st_form st)) = Ok r ->
  st_sent (step st (Submit ts)) = st_sent st ++ [(form_endpoint, json_stringify (form_json r))].
Proof. intros Hv. simpl. unfold on_submit. by rewrite Hv. Qed.

(** C20: a submit the checks accept POSTs one body to the form's
    endpoint, and [JSON.parse] of that body gives back the object [data]
    of the record built from the FormData: every property, in order, with
    its value unit for unit. *)
Theorem submit_posts_record_json ts (st : state R) r :
  form_validate ts (form_data (st_form st)) = Ok r ->
  exists body, st_sent (step st (Submit ts)) = st_sent st ++ [(form_endpoint, body)] /\
               json_parse body = Some (form_json r).
Proof.
  intros Hv. eexists. split; [exact (submit_sent ts st r Hv) | apply json_parse_stringify_members].
Qed.

Lemma load_pending id status (st : state R) req :
  find_request id (st_pending st) = Some req ->
  st_pending (step st (Load id status)) = drop_request id (st_pending st) /\
  st_button (step st (Load id status)) =
    {| btn_disabled := false; btn_text := req_original_text req |}.
Proof.
  intros Hf. pose proof (find_request_some _ _ _ Hf) as [_ <-]. simpl. unfold on_load.
  rewrite Hf. by destruct (success_status status).
Qed.

(** C17: the code does not guard against a second submit while a request
    is out (only the disabled button does, and a script or a second
    trigger bypasses it): the second request then captures "Submitting..."
    as the original label, and when the answers come back in order the
    button ends enabled but labelled "Submitting..." for good. *)
Theorem overlapping_submits_keep_busy_label (st : state R) ts1 ts2 r1 r2 label s1 s2 :
  st_pending st = [] -> st_button st = {| btn_disabled := false; btn_text := label |} ->
  form_validate ts1 (form_data (st_form st)) = Ok r1 ->
  form_validate ts2 (form_data (st_form st)) = Ok r2 ->
  let st' := run st [Submit ts1; Submit ts2; Load (st_next st) s1; Load (S (st_next st)) s2] in
  st_pending st' = [] /\ st_button st' = {| btn_disabled := false; btn_text := submitting_label |}.
Proof.
  intros Hp Hb H1 H2 st'. unfold st', run. cbn [fold_left].
  destruct (submit_ok ts1 st r1 H1) as (Hp1 & Hb1 & Hf1 & Hn1).
  remember (step st (Submit ts1)) as st1 eqn:E1.
  rewrite <- Hf1 in H2.
  destruct (submit_ok ts2 st1 r2 H2) as (Hp2 & Hb2 & _ & _).
  remember (step st1 (Submit ts2)) as st2 eqn:E2.
  rewrite Hp1, Hp, Hn1, Hb1 in Hp2. cbn [app btn_text] in Hp2. clear E1 E2.
  set (q1 := {| req_id := st_next st; req_url := form_endpoint; req_body := r1;
                req_original_text := btn_text (st_button st) |}) in *.
  set (q2 := {| req_id := S (st_next st); req_url := form_endpoint; req_body := r2;
                req_original_text := submitting_label |}) in *.
  assert (Hne : (S (st_next st) =? st_next st) = false) by (apply Nat.eqb_neq; lia).
  assert (Hf3 : find_request (st_next st) (st_pending st2) = Some q1).
  { rewrite Hp2. unfold find_request. simpl. by rewrite Nat.eqb_refl. }
  destruct (load_pending _ s1 _ _ Hf3) as [Hp3 _].
  remember (step st2 (Load (st_next st) s1)) as st3 eqn:E3.
  assert (Hq : st_pending st3 = [q2]).
  { rewrite Hp3, Hp2. unfold drop_request. cbn [List.filter req_id q1 q2].
    by rewrite Nat.eqb_refl, Hne. }
  assert (Hf4 : find_request (S (st_next st)) (st_pending st3) = Some q2).
  { rewrite Hq, find_request_single. simpl. by rewrite Nat.eqb_refl. }
  destruct (load_pending _ s2 _ _ Hf4) as [Hp4 Hb4].
  split; [|exact Hb4].
  rewrite Hp4, Hq. unfold drop_request. simpl. by rewrite Nat.eqb_refl.
Qed.

(** ** Every submission completes *)

(** The answer of request [r]: [xhr.onload] with a status, or
    [xhr.onerror] for [None]. *)
Definition answer (r : request R) (a : option Z) : event :=
  match a with
  | Some status => Load (req_id r) status
  | None => NetError (req_id r)
  end.

(** C25: every submission completes: from any state the page reaches
    through its button, answering each request still out (with any status
    or a network error) leaves no request pending and the button enabled
    with its original label. *)
Theorem answers_complete form label success (st : state R) answers :
  reachable (initial form label success) st -> length answers = length (st_pending st) ->
  let st' := run st (zip_with answer (st_pending st) answers) in
  st_pending st' = [] /\ st_button st' = {| btn_disabled := false; btn_text := label |}.
Proof.
  intros Hr Hl. destruct (reachable_inv _ _ _ _ Hr) as [[Hp Hb] | (r & Hp & <- & Hb)];
    rewrite Hp in *; [by destruct answers|].
  destruct answers as [|a [|]]; try discriminate. cbn [zip_with run fold_left].
  assert (Hf : find_request (req_id r) (st_pending st) = Some r)
    by (rewrite Hp, find_request_single; simpl; by rewrite Nat.eqb_refl).
  destruct a as [s|]; cbn [answer step]; unfold on_load, on_error; rewrite Hf;
    [destruct (success_status s)|]; apply finish_single; by autorewrite with js_rw.
Qed.

(** ** What is sent *)

(** A POST of the form: to its endpoint, with a body that parses to the
    JSON object of a record its checks accepted. *)
Definition sent_ok (post : list N * list N) : Prop :=
  post.1 = form_endpoint /\
  exists ts fd r, form_validate ts fd = Ok r /\ json_parse post.2 = Some (form_json r).

(** What one handler run does to the controls and to the POSTs: the
    controls stay or are reset; the POSTs stay, or a submit the checks
    accept adds the JSON of its record. *)
Lemma step_form_sent (st : state R) ev :
  (st_form (step st ev) = st_form st \/ st_form (step st ev) = form_reset (st_form st)) /\
  (st_sent (step st ev) = st_sent st \/
   exists ts r, ev = Submit ts /\ form_validate ts (form_data (st_form st)) = Ok r /\
     st_sent (step st ev) = st_sent st ++ [(form_endpoint, json_stringify (form_json r))]).
Proof.
  destruct ev as [ts|id status|id|ms]; simpl.
  - unfold on_submit. destruct (form_validate ts _) as [r|e] eqn:Hv; [|auto].
    split; [auto | right; eauto].
  - unfold on_load. destruct (find_request _ _); [|auto].
    destruct (success_status status); simpl; auto.
  - unfold on_error. destruct (find_request _ _); simpl; auto.
  - auto.
Qed.

Lemma step_sent_ok (st : state R) ev :
  Forall sent_ok (st_sent st) -> Forall sent_ok (st_sent (step st ev)).
Proof.
  intros Hs. destruct (step_form_sent st ev) as [_ [-> | (ts & r & _ & Hv & ->)]]; [done|].
  apply Forall_app_2; [done|]. constructor; [|done].
  split; [done|]. exists ts, (form_data (st_form st)), r. split; [done|].
  apply json_parse_stringify_members.
Qed.

(** A property every handler run keeps holds after any sequence of
    events. *)
Lemma run_preserves (P : state R -> Prop) (st : state R) evs :
  (forall st ev, P st -> P (step st ev)) -> P st -> P (run st evs).
Proof.
  intros HP. revert st. induction evs as [|ev evs IH]; intros st Hs; [done|].
  apply IH, HP, Hs.
Qed.

Lemma run_sent_ok (st : state R) evs :
  Forall sent_ok (st_sent st) -> Forall sent_ok (st_sent (run st evs)).
Proof. apply (run_preserves (fun st => Forall sent_ok (st_sent st))), step_sent_ok. Qed.

End Properties.

(** ** A concrete page: the candidate form, filled in *)

Module Scenario.

#[local] Existing Instance Candidate.candidate_form.

Definition form : list control :=
  [text_control "fullName" ⟪"Ann Lee"⟫; text_control "candidatePhone" ⟪"555 0100"⟫;
   text_control "candidateEmail" ⟪"ann@example.com"⟫].

Definition label : list N := ⟪"Register"⟫.
Definition ts : list N := ⟪"2026-11-09T10:00:00.000Z"⟫.

Definition init : state Candidate.candidate_record := initial form label (Some ["hidden"%string]).

(** The page after one submit. *)
Definition sent : state Candidate.candidate_record := step init (Submit ts).

Definition req : request Candidate.candidate_record :=
  {| req_id := 0; req_url := candidateFormUrl;
     req_body := Candidate.build_record ts (form_data form); req_original_text := label |}.

Lemma sent_pending : find_request 0 (st_pending sent) = Some req.
Proof. vm_compute. reflexivity. Qed.

(** The witness of C20: the candidate's body parses to her record. *)
Lemma submit_posts_record_json_witness :
  form_validate ts (form_data (st_form init)) = Ok (Candidate.build_record ts (form_data form)) /\
  exists body, st_sent sent = [(candidateFormUrl, body)] /\
    json_parse body = Some (Candidate.to_json (Candidate.build_record ts (form_data form))).
Proof.
  assert (Hv : form_validate ts (form_data (st_form init)) =
                 Ok (Candidate.build_record ts (form_data form))) by (vm_compute; reflexivity).
  split; [exact Hv | exact (submit_posts_record_json ts init _ Hv)].
Defined.

(** The witness of C25: the submitted candidate form answered with 500. *)
Lemma answers_complete_witness :
  reachable init sent /\ length [Some 500%Z] = length (st_pending sent) /\
  st_pending (run sent (zip_with answer (st_pending sent) [Some 500%Z])) = [] /\
  st_button (run sent (zip_with answer (st_pending sent) [Some 500%Z])) =
    {| btn_disabled := false; btn_text := label |}.
Proof.
  assert (Hr : reachable init sent) by (apply reach_step; [apply reach_init | vm_compute; reflexivity]).
  assert (Hl : length [Some 500%Z] = length (st_pending sent)) by reflexivity.
  split; [exact Hr|]. split; [exact Hl|].
  exact (answers_complete form label (Some ["hidden"%string]) sent [Some 500%Z] Hr Hl).
Defined.

(** The witness of C12: submit, then a successful answer. *)
Lemma reachable_button_inv_witness :
  reachable init (step sent (Load 0 200)) /\ button_inv label (step sent (Load 0 200)).
Proof.
  assert (Hr : reachable init (step sent (Load 0 200))).
  { apply reach_step; [apply reach_step; [apply reach_init | vm_compute; reflexivity] |].
    vm_compute. reflexivity. }
  split; [exact Hr | exact (reachable_button_inv form label (Some ["hidden"%string]) _ Hr)].
Defined.

(** The witness of C13: the spec's status 500. *)
Lemma load_outcome_witness :
  find_request 0 (st_pending sent) = Some req /\
  st_button (step sent (Load 0 500)) = {| btn_disabled := false; btn_text := label |} /\
  st_alerts (step sent (Load 0 500)) = st_alerts sent ++ [submit_error_alert].
Proof.
  split; [exact sent_pending|].
  destruct (load_outcome 0 500 sent req sent_pending) as (Hb & _ & Hf & Ha & _).
  split; [exact Hb | exact Ha].
Defined.

(** The witness of C14. *)
Lemma error_outcome_witness :
  find_request 0 (st_pending sent) = Some req /\
  st_button (step sent (NetError 0)) = {| btn_disabled := false; btn_text := label |} /\
  st_alerts (step sent (NetError 0)) = st_alerts sent ++ [network_error_alert].
Proof.
  split; [exact sent_pending|].
  destruct (error_outcome 0 sent req sent_pending) as (Hb & _ & _ & Ha & _).
  split; [exact Hb | exact Ha].
Defined.

(** The witness of C15: status 0, then 6000 ms. *)
Lemma success_banner_hides_witness :
  find_request 0 (st_pending sent) = Some req /\ success_status 0 = true /\
  st_success sent = Some ["hidden"%string] /\ st_timers sent = [] /\
  (forall cl2, st_success (step (step sent (Load 0 0)) (Tick 6000)) = Some cl2 ->
               ClassList.hidden cl2 = true).
Proof.
  split; [exact sent_pending|]. split; [reflexivity|]. split; [reflexivity|].
  split; [reflexivity|].
  destruct (success_banner_hides 0 0 sent req ["hidden"%string] 6000 sent_pending
              eq_refl eq_refl eq_refl) as [_ H]. exact H.
Defined.

(** The witness of C16: a second submit (of the reset, now empty form) and
    its success 3000 ms after the first. *)
Definition second : state Candidate.candidate_record :=
  step (step (step sent (Load 0 200)) (Tick 3000)) (Submit ts).

Definition req2 : request Candidate.candidate_record :=
  {| req_id := 1; req_url := candidateFormUrl;
     req_body := Candidate.build_record ts (form_data (form_reset form));
     req_original_text := label |}.

Lemma success_banner_hidden_early_witness :
  find_request 1 (st_pending second) = Some req2 /\ st_timers second = [6000%Z] /\
  (exists cl2, st_success (step (step second (Load 1 200)) (Tick 3000)) = Some cl2 /\
               ClassList.hidden cl2 = true).
Proof.
  assert (Hf : find_request 1 (st_pending second) = Some req2) by (vm_compute; reflexivity).
  split; [exact Hf|]. split; [vm_compute; reflexivity|].
  destruct (success_banner_hidden_early 1 200 second req2 [] 6000 Hf eq_refl
              ltac:(vm_compute; reflexivity) ltac:(vm_compute; reflexivity)
              ltac:(vm_compute; split; reflexivity)) as [H _].
  exact H.
Defined.

(** The witness of C17: two submits of the same filled form. *)
Lemma overlapping_submits_keep_busy_label_witness :
  st_button (run init [Submit ts; Submit ts; Load 0 200; Load 1 200]) =
    {| btn_disabled := false; btn_text := submitting_label |}.
Proof.
  destruct (@overlapping_submits_keep_busy_label _ Candidate.candidate_form init ts ts
              (Candidate.build_record ts (form_data form)) (Candidate.build_record ts (form_data form))
              label 200 200 eq_refl eq_refl ltac:(vm_compute; reflexivity)
              ltac:(vm_compute; reflexivity)) as [_ H].
  exact H.
Defined.

End Scenario.

(** ** The client form *)

Module ClientPage.

#[local] Existing Instance Client.client_form.

(** C11: on the client form, a submit with one of the six required fields
    absent or only white space issues no request and no POST, leaves the
    button as it was, and shows exactly the alert "Please fill all
    required fields.". *)
Theorem client_blank_field_blocks (st : state Client.client_record) ts :
  Exists (fun f => all_space (or_empty (fd_get (form_data (st_form st)) f))) Client.requiredFields ->
  let st' := step st (Submit ts) in
  st_sent st' = st_sent st /\ st_pending st' = st_pending st /\ st_button st' = st_button st /\
  st_alerts st' = st_alerts st ++ [⟪"Please fill all required fields."⟫].
Proof.
  intros Hblank st'. subst st'.
  rewrite (submit_err ts st EMissing); [done|].
  by apply Client.validate_missing_blank.
Qed.

(** A client form whose company name is only spaces. *)
Definition blank_company_form : list control :=
  [text_control "companyName" ⟪"   "⟫; text_control "contactPerson" ⟪"Ann"⟫;
   text_control "email" ⟪"ann@example.com"⟫; text_control "phone" ⟪"555"⟫;
   text_control "city" ⟪"Pune"⟫; text_control "numResources" ⟪"3"⟫].

(** The witness of C11. *)
Lemma client_blank_field_blocks_witness :
  let st := initial (R := Client.client_record) blank_company_form ⟪"Send"⟫ None in
  Exists (fun f => all_space (or_empty (fd_get (form_data (st_form st)) f))) Client.requiredFields /\
  st_sent (step st (Submit ⟪"2026-11-09T10:00:00.000Z"⟫)) = [].
Proof.
  intros st.
  assert (Hb : Exists (fun f => all_space (or_empty (fd_get (form_data (st_form st)) f)))
                 Client.requiredFields).
  { apply Exists_cons. left. unfold all_space. simpl. repeat constructor. }
  split; [exact Hb|].
  destruct (client_blank_field_blocks st ⟪"2026-11-09T10:00:00.000Z"⟫ Hb) as [Hs _].
  exact Hs.
Defined.

End ClientPage.
