(* ===== verification/Console.v ===== *)
(** The console output of the submission protocol (main.js lines 101, 108,
    116, 166, 173, 181): [onload] writes [console.log(label, data)] on a
    success and [console.error('Error submitting form. Status:', status)]
    otherwise, [onerror] writes [console.error('Network error submitting
    form')].  The [data] a success logs is the record its own submit
    built: the [onload] closure captured it, so with overlapping requests
    a line logs the answered request's record, not the latest one.

    The invariant [trace_ok] ties the console to the POSTs: the pending
    requests have distinct ids below the next one, every pending record was
    POSTed, every console line is explained by an answer, and the POSTs
    are exactly the pending requests plus the console lines. *)

From S2P Require Import Prelude JsString Json Form Handler ClientForm CandidateForm Submission.

Section Console.
Context {R : Type} `{FormSpec R}.

(** What a console line says, given the POSTs issued so far. *)
Definition entry_ok (sent : list (list N * list N)) (e : console_entry R) : Prop :=
  match e with
  | ConsoleLog msg r => msg = form_log_label /\ In (form_endpoint, json_stringify (form_json r)) sent
  | ConsoleError msg (Some status) => msg = status_error_log /\ success_status status = false
  | ConsoleError msg None => msg = network_error_log
  end.

Definition trace_ok (st : state R) : Prop :=
  NoDup (map req_id (st_pending st)) /\
  Forall (fun r => req_id r < st_next st) (st_pending st) /\
  Forall (fun r => In (form_endpoint, json_stringify (form_json (req_body r))) (st_sent st))
         (st_pending st) /\
  Forall (entry_ok (st_sent st)) (st_console st) /\
  length (st_sent st) = length (st_pending st) + length (st_console st).

(** ** Dropping an answered request *)

Lemma drop_request_incl id (reqs : list (request R)) : incl (drop_request id reqs) reqs.
Proof. intros r. unfold drop_request. rewrite filter_In. tauto. Qed.

Lemma drop_request_absent id (reqs : list (request R)) :
  id ∉ map req_id reqs -> drop_request id reqs = reqs.
Proof.
  induction reqs as [|r reqs IH]; intros Hn; [done|]. apply not_elem_of_cons in Hn as [Hne Hn].
  unfold drop_request in *. simpl. destruct (Nat.eqb_spec (req_id r) id); [congruence|].
  simpl. f_equal. auto.
Qed.

Lemma drop_request_ids id (reqs : list (request R)) :
  NoDup (map req_id reqs) -> NoDup (map req_id (drop_request id reqs)).
Proof.
  induction reqs as [|r reqs IH]; intros Hnd; [done|]. simpl in Hnd.
  apply NoDup_cons in Hnd as [Hn Hnd]. unfold drop_request. simpl.
  destruct (negb _); simpl; [|by apply IH]. constructor; [|by apply IH].
  intros Hin%list_elem_of_In. apply Hn, list_elem_of_In.
  apply in_map_iff in Hin as (r' & Hid & Hr'). rewrite <- Hid.
  apply in_map, (drop_request_incl id), Hr'.
Qed.

(** With distinct ids, answering a pending request removes exactly it. *)
Lemma drop_request_length id (reqs : list (request R)) req :
  NoDup (map req_id reqs) -> find_request id reqs = Some req ->
  length reqs = S (length (drop_request id reqs)).
Proof.
  induction reqs as [|r reqs IH]; intros Hnd Hf; [discriminate|]. simpl in Hnd.
  apply NoDup_cons in Hnd as [Hn Hnd]. revert Hf. unfold find_request, drop_request. simpl.
  destruct (Nat.eqb_spec (req_id r) id) as [<-|]; simpl; intros Hf.
  - fold (drop_request (req_id r) reqs). by rewrite (drop_request_absent _ _ Hn).
  - fold (drop_request id reqs). by rewrite (IH Hnd Hf).
Qed.

(** ** The invariant *)

Lemma entry_ok_mono sent sent' e : incl sent sent' -> entry_ok sent e -> entry_ok sent' e.
Proof. destruct e as [msg r|msg [status|]]; simpl; [intros ? [? ?]; auto | done | done]. Qed.

Lemma trace_ok_initial form label success : trace_ok (initial form label success).
Proof. repeat split; constructor. Qed.

(** An answer: the request leaves, one line is written, the POSTs stay. *)
Lemma finish_trace_ok (st st1 : state R) req e :
  trace_ok st -> find_request (req_id req) (st_pending st) = Some req ->
  st_pending st1 = st_pending st -> st_sent st1 = st_sent st -> st_next st1 = st_next st ->
  st_console st1 = st_console st ++ [e] -> entry_ok (st_sent st) e ->
  trace_ok (finish req st1).
Proof.
  intros (Hnd & Hlt & Hin & Hok & Hlen) Hf Hp Hs Hn Hc He. unfold trace_ok; cbn.
  rewrite Hp, Hs, Hn, Hc. pose proof (drop_request_incl (req_id req) (st_pending st)) as Hincl.
  split; [by apply drop_request_ids|]. split; [exact (incl_Forall Hincl Hlt)|].
  split; [exact (incl_Forall Hincl Hin)|]. split; [by apply Forall_app_2; [|constructor]|].
  rewrite Hlen, (drop_request_length _ _ _ Hnd Hf), length_app. simpl. lia.
Qed.

Lemma submit_trace_ok ts (st : state R) : trace_ok st -> trace_ok (on_submit ts st).
Proof.
  intros (Hnd & Hlt & Hin & Hok & Hlen). unfold on_submit.
  destruct (form_validate ts _) as [r|e]; [|done]. unfold trace_ok; cbn.
  assert (Hincl : incl (st_sent st) (st_sent st ++ [(form_endpoint, json_stringify (form_json r))]))
    by (intros x; rewrite in_app_iff; auto).
  split; [|split; [|split; [|split]]].
  - rewrite map_app. apply NoDup_app. split; [done|]. split; [|apply NoDup_singleton].
    intros i Hi ->%list_elem_of_singleton.
    apply list_elem_of_In, in_map_iff in Hi as (r' & Hid & Hr').
    rewrite Forall_forall in Hlt. specialize (Hlt r' (proj2 (list_elem_of_In _ _) Hr')). simpl in Hid. lia.
  - apply Forall_app_2; [|constructor; [simpl; lia | done]].
    eapply Forall_impl; [exact Hlt | simpl; lia].
  - apply Forall_app_2; [eapply Forall_impl; [exact Hin | intros x; apply Hincl]|].
    constructor; [apply in_or_app; right; left; done | done].
  - eapply Forall_impl; [exact Hok | intros e; apply entry_ok_mono, Hincl].
  - rewrite !length_app, Hlen. simpl. lia.
Qed.

Lemma step_trace_ok (st : state R) ev : trace_ok st -> trace_ok (step st ev).
Proof.
  intros Ht. destruct ev as [ts|id status|id|ms]; simpl.
  - by apply submit_trace_ok.
  - unfold on_load. destruct (find_request id (st_pending st)) as [req|] eqn:Hf; [|done].
    pose proof Hf as [Hr <-]%find_request_some.
    pose proof Ht as (_ & _ & Hin & _). rewrite Forall_forall in Hin.
    destruct (success_status status) eqn:Hs; (eapply finish_trace_ok; [exact Ht | exact Hf | done..|]);
      simpl; [|done]. split; [done|]. by apply Hin, list_elem_of_In.
  - unfold on_error. destruct (find_request id (st_pending st)) as [req|] eqn:Hf; [|done].
    pose proof Hf as [_ <-]%find_request_some.
    by eapply finish_trace_ok.
  - exact Ht.
Qed.

Lemma run_trace_ok (st : state R) evs : trace_ok st -> trace_ok (run st evs).
Proof. apply run_preserves, step_trace_ok. Qed.

(** ** Properties *)

(** C31: whatever events a form receives after the page loads, the POSTs
    it issued are exactly the requests still out plus the console lines:
    every answered request wrote exactly one line ([console.log] on
    success, [console.error] otherwise), and none is answered twice. *)
Theorem posts_are_pending_or_logged form label success evs :
  let st := run (initial form label success) evs in
  length (st_sent st) = length (st_pending st) + length (st_console st).
Proof. apply run_trace_ok, trace_ok_initial. Qed.

(** C32: whatever events a form receives, every console line is one the
    code writes for an answer: [console.log] with the form's label and a
    record whose JSON text was POSTed to the form's endpoint, the status
    line with a status other than 200 and 0, or the network-error line. *)
Theorem console_lines_explained form label success evs :
  let st := run (initial form label success) evs in
  Forall (entry_ok (st_sent st)) (st_console st).
Proof. apply run_trace_ok, trace_ok_initial. Qed.

Lemma on_load_found id status (st : state R) req :
  find_request id (st_pending st) = Some req -> success_status status = true ->
  st_console (on_load id status st) = st_console st ++ [ConsoleLog form_log_label (req_body req)] /\
  st_pending (on_load id status st) = drop_request (req_id req) (st_pending st).
Proof. intros Hf Hs. unfold on_load. by rewrite Hf, Hs. Qed.

(** C33: with two requests out (two submits before an answer), answering
    the second and then the first logs the second submission's record and
    then the first's: each line carries the record its own [onload]
    closure captured, in the order of the answers. *)
Theorem console_logs_answer_order (st : state R) r1 r2 s1 s2 :
  st_pending st = [r1; r2] -> req_id r1 <> req_id r2 ->
  success_status s1 = true -> success_status s2 = true ->
  st_console (run st [Load (req_id r2) s2; Load (req_id r1) s1]) =
    st_console st ++ [ConsoleLog form_log_label (req_body r2); ConsoleLog form_log_label (req_body r1)].
Proof.
  intros Hp Hne Hs1 Hs2.
  assert (Hf2 : find_request (req_id r2) (st_pending st) = Some r2).
  { rewrite Hp. unfold find_request. simpl. by rewrite (proj2 (Nat.eqb_neq _ _) Hne), Nat.eqb_refl. }
  destruct (on_load_found _ _ _ _ Hf2 Hs2) as [Hc2 Hp2].
  assert (Hf1 : find_request (req_id r1) (st_pending (on_load (req_id r2) s2 st)) = Some r1).
  { rewrite Hp2, Hp. unfold drop_request, find_request. simpl.
    rewrite (proj2 (Nat.eqb_neq _ _) Hne), Nat.eqb_refl. simpl. by rewrite Nat.eqb_refl. }
  destruct (on_load_found _ _ _ _ Hf1 Hs1) as [Hc1 _].
  cbn [run fold_left step]. rewrite Hc1, Hc2. by rewrite <- app_assoc.
Qed.

End Console.

(** ** A concrete page: two candidate submits, answered in reverse order *)

Module ConsoleDemo.

#[local] Existing Instance Candidate.candidate_form.

Definition ts1 : list N := ⟪"2026-11-09T10:00:00.000Z"⟫.
Definition ts2 : list N := ⟪"2026-11-09T10:00:05.000Z"⟫.

(** A second submit before the first is answered. *)
Definition two_out : state Candidate.candidate_record := run Scenario.init [Submit ts1; Submit ts2].

Definition r1 : request Candidate.candidate_record :=
  {| req_id := 0; req_url := candidateFormUrl;
     req_body := Candidate.build_record ts1 (form_data Scenario.form);
     req_original_text := Scenario.label |}.

Definition r2 : request Candidate.candidate_record :=
  {| req_id := 1; req_url := candidateFormUrl;
     req_body := Candidate.build_record ts2 (form_data Scenario.form);
     req_original_text := submitting_label |}.

(** The witness of C33: the line of the second submission comes first. *)
Lemma console_logs_answer_order_witness :
  st_pending two_out = [r1; r2] /\ req_id r1 <> req_id r2 /\
  success_status 200 = true /\ success_status 0 = true /\
  st_console (run two_out [Load (req_id r2) 0; Load (req_id r1) 200]) =
    st_console two_out ++ [ConsoleLog form_log_label (req_body r2); ConsoleLog form_log_label (req_body r1)].
Proof.
  assert (Hp : st_pending two_out = [r1; r2]) by (vm_compute; reflexivity).
  assert (Hne : req_id r1 <> req_id r2) by discriminate.
  assert (Hs1 : success_status 200 = true) by reflexivity.
  assert (Hs2 : success_status 0 = true) by reflexivity.
  split; [exact Hp|]. split; [exact Hne|]. split; [exact Hs1|]. split; [exact Hs2|].
  exact (console_logs_answer_order two_out r1 r2 200 0 Hp Hne Hs1 Hs2).
Defined.

End ConsoleDemo.
