(* ===== verification/Menu.v ===== *)
(** The mobile menu (main.js lines 27-39).  When both [#mobileMenuBtn] and
    [#mobileMenu] exist, a click on the button toggles the class [hidden]
    of the menu, and a click on any anchor found in the menu at load time
    ([querySelectorAll('a')] is a snapshot) adds it.  The class list is
    abstracted by a boolean automaton: shown/hidden, flipped by the
    button, forced to hidden by a link. *)

From S2P Require Import Prelude ClassList.

Module Menu.

Record menu := {
  menu_classes : list string;   (** the class list of [#mobileMenu] *)
  menu_links : nat;             (** the anchors wired at load time *)
}.

Inductive event :=
  | ButtonClick
  | LinkClick (i : nat).   (** a click on the [i]-th wired anchor *)

(** Whether the handlers exist: line 29. *)
Definition wired (has_button has_menu : bool) : bool := has_button && has_menu.

Definition step (m : menu) (ev : event) : menu :=
  match ev with
  | ButtonClick => {| menu_classes := ClassList.toggle "hidden" (menu_classes m);
                      menu_links := menu_links m |}
  | LinkClick i =>
      if i <? menu_links m
      then {| menu_classes := ClassList.add "hidden" (menu_classes m); menu_links := menu_links m |}
      else m
  end.

Definition run (m : menu) (evs : list event) : menu := fold_left step evs m.

(** The abstract menu: hidden or shown. *)
Definition spec_step (links : nat) (hidden : bool) (ev : event) : bool :=
  match ev with
  | ButtonClick => negb hidden
  | LinkClick i => if i <? links then true else hidden
  end.

(** C18: the menu's class list follows the two-state automaton: the button
    flips hidden/shown and a wired link hides the menu, whatever the other
    classes of the element. *)
Theorem run_refines_spec (m : menu) evs :
  ClassList.hidden (menu_classes (run m evs)) =
  fold_left (spec_step (menu_links m)) evs (ClassList.hidden (menu_classes m)).
Proof.
  revert m. induction evs as [|ev evs IH]; intros m; simpl; [done|].
  rewrite IH. f_equal.
  - destruct ev as [|i]; simpl; [done|]. by destruct (i <? menu_links m).
  - destruct ev as [|i]; simpl; unfold ClassList.hidden.
    + by rewrite ClassList.contains_toggle.
    + destruct (i <? menu_links m); simpl; [|done].
      rewrite ClassList.contains_add. by rewrite bool_decide_true.
Qed.

(** A click on a wired link always leaves the menu hidden. *)
Corollary link_click_hides (m : menu) i :
  i < menu_links m -> ClassList.hidden (menu_classes (step m (LinkClick i))) = true.
Proof.
  intros Hi. simpl. rewrite (proj2 (Nat.ltb_lt _ _) Hi). simpl. unfold ClassList.hidden.
  rewrite ClassList.contains_add. by rewrite bool_decide_true.
Qed.

End Menu.
