(* ===== verification/Page.v ===== *)
(** The page as main.js wires it (lines 17-44 and 126-189): the elements
    [byId] finds, what [init] does with them, and the events of the page
    dispatched to the parts that were wired.

    A [document] holds the elements the script looks up by id, with what
    it reads from them: whether [#year] exists, the menu button and panel
    (its class list and the anchors inside it), each form (its controls
    and the text of its submit button) and each success banner (its class
    list).  [init] sets the footer year to Number::toString of
    [getFullYear()] (local time, [offset] being the host's UTC offset),
    wires the menu when both of its elements exist and each form handler
    when its form exists.  [page_step] runs an event of the page: a menu
    click, the [submit] of a form (its timestamp is [toISOString] of the
    page clock), an XHR answer of a form's request, or time passing for
    both forms; an event for a part that was not wired does nothing. *)

From S2P Require Import Prelude JsString Json Utf8 Date Form Handler ClientForm CandidateForm ClassList Submission Menu.

#[local] Existing Instances Client.client_form Candidate.candidate_form Client.client_form_laws Candidate.candidate_form_laws.

Record document := {
  doc_year : bool;
  doc_menu_button : bool;
  doc_menu : option Menu.menu;
  doc_client_form : option (list control * list N);
  doc_client_success : option (list string);
  doc_candidate_form : option (list control * list N);
  doc_candidate_success : option (list string);
}.

Record page := {
  pg_now : Z;                                         (** the host clock *)
  pg_year_text : option (list N);                     (** [#year]'s text *)
  pg_menu : option Menu.menu;                         (** the wired menu *)
  pg_client : option (state Client.client_record);    (** the wired client form *)
  pg_candidate : option (state Candidate.candidate_record);
}.

(** Lines 40-44: [byId('clientForm')], [byId('clientSuccess')] and, when
    the form exists, its submit listener. *)
Definition wire_client (d : document) : option (state Client.client_record) :=
  (fun '(ctls, label) => initial ctls label (doc_client_success d)) <$> doc_client_form d.

(** Lines 126-129: the same for the candidate form. *)
Definition wire_candidate (d : document) : option (state Candidate.candidate_record) :=
  (fun '(ctls, label) => initial ctls label (doc_candidate_success d)) <$> doc_candidate_form d.

(** [init] at time [now], on a host [offset] milliseconds ahead of UTC. *)
Definition init (offset now : Z) (d : document) : page :=
  {| pg_now := now;
     pg_year_text :=
       if doc_year d then Some (integer_to_string (get_full_year offset now)) else None;
     pg_menu :=
       if Menu.wired (doc_menu_button d) (bool_decide (is_Some (doc_menu d))) then doc_menu d
       else None;
     pg_client := wire_client d;
     pg_candidate := wire_candidate d |}.

Inductive xhr_event :=
  | XLoad (id : nat) (status : Z)   (** [xhr.onload] *)
  | XError (id : nat).              (** [xhr.onerror] *)

Inductive page_event :=
  | MenuEvent (ev : Menu.event)
  | ClientSubmit
  | CandidateSubmit
  | ClientXhr (x : xhr_event)
  | CandidateXhr (x : xhr_event)
  | Elapse (ms : N).

Definition xhr_to_event (x : xhr_event) : event :=
  match x with
  | XLoad id status => Load id status
  | XError id => NetError id
  end.

Definition page_step (pg : page) (ev : page_event) : page :=
  let ts := to_iso_string (pg_now pg) in
  match ev with
  | MenuEvent e =>
      {| pg_now := pg_now pg; pg_year_text := pg_year_text pg;
         pg_menu := (fun m => Menu.step m e) <$> pg_menu pg;
         pg_client := pg_client pg; pg_candidate := pg_candidate pg |}
  | ClientSubmit =>
      {| pg_now := pg_now pg; pg_year_text := pg_year_text pg; pg_menu := pg_menu pg;
         pg_client := (fun st => step st (Submit ts)) <$> pg_client pg;
         pg_candidate := pg_candidate pg |}
  | CandidateSubmit =>
      {| pg_now := pg_now pg; pg_year_text := pg_year_text pg; pg_menu := pg_menu pg;
         pg_client := pg_client pg;
         pg_candidate := (fun st => step st (Submit ts)) <$> pg_candidate pg |}
  | ClientXhr x =>
      {| pg_now := pg_now pg; pg_year_text := pg_year_text pg; pg_menu := pg_menu pg;
         pg_client := (fun st => step st (xhr_to_event x)) <$> pg_client pg;
         pg_candidate := pg_candidate pg |}
  | CandidateXhr x =>
      {| pg_now := pg_now pg; pg_year_text := pg_year_text pg; pg_menu := pg_menu pg;
         pg_client := pg_client pg;
         pg_candidate := (fun st => step st (xhr_to_event x)) <$> pg_candidate pg |}
  | Elapse ms =>
      {| pg_now := pg_now pg + Z.of_N ms; pg_year_text := pg_year_text pg;
         pg_menu := pg_menu pg;
         pg_client := (fun st => step st (Tick ms)) <$> pg_client pg;
         pg_candidate := (fun st => step st (Tick ms)) <$> pg_candidate pg |}
  end.

Definition page_run (pg : page) (evs : list page_event) : page := fold_left page_step evs pg.

(** ** Properties *)

Lemma wire_client_some offset now d st :
  pg_client (init offset now d) = Some st ->
  exists ctls label, doc_client_form d = Some (ctls, label) /\
                     st = initial ctls label (doc_client_success d).
Proof.
  cbn [init pg_client]. unfold wire_client.
  destruct (doc_client_form d) as [[ctls label]|]; [|discriminate]. intros [= <-]. eauto.
Qed.

Lemma wire_candidate_some offset now d st :
  pg_candidate (init offset now d) = Some st ->
  exists ctls label, doc_candidate_form d = Some (ctls, label) /\
                     st = initial ctls label (doc_candidate_success d).
Proof.
  cbn [init pg_candidate]. unfold wire_candidate.
  destruct (doc_candidate_form d) as [[ctls label]|]; [|discriminate]. intros [= <-]. eauto.
Qed.

(** A submit at time [now] that a form's checks accept POSTs to the
    form's endpoint the JSON text of the record, which parses back to the
    record's object, whose [timestamp] member reads back as [now]. *)
Lemma submit_timestamp {R} `{FormSpecLaws R} (st : state R) now r :
  time_value_ok now = true ->
  form_validate (to_iso_string now) (form_data (st_form st)) = Ok r ->
  st_sent (step st (Submit (to_iso_string now))) =
    st_sent st ++ [(form_endpoint, json_stringify (form_json r))] /\
  json_parse (json_stringify (form_json r)) = Some (form_json r) /\
  json_get ⟪"timestamp"⟫ (form_json r) = Some (JStr (to_iso_string now)) /\
  parse_iso (to_iso_string now) = Some now.
Proof.
  intros Ht Hv. split; [exact (submit_sent _ st r Hv)|].
  split; [apply json_parse_stringify_members|].
  split; [exact (form_json_timestamp _ _ _ Hv) | by apply parse_iso_to_iso_string].
Qed.

(** C23: on a page with the client form, a submit at a time value [now]
    that the checks accept POSTs to the client endpoint a JSON body whose
    [timestamp] member is a string that reads back as [now] exactly, and
    whose [email] member is the form's e-mail field as it was typed. *)
Theorem client_submit_posts_timestamp pg st r :
  pg_client pg = Some st -> time_value_ok (pg_now pg) = true ->
  Client.validate (to_iso_string (pg_now pg)) (form_data (st_form st)) = Ok r ->
  exists st' body o s,
    pg_client (page_step pg ClientSubmit) = Some st' /\
    st_sent st' = st_sent st ++ [(clientFormUrl, body)] /\
    json_parse body = Some o /\
    json_get ⟪"timestamp"⟫ o = Some (JStr s) /\ parse_iso s = Some (pg_now pg) /\
    json_get ⟪"email"⟫ o = Some (json_of_nullable (fd_get (form_data (st_form st)) "email")).
Proof.
  intros Hc Ht Hv. destruct (submit_timestamp st _ r Ht ltac:(exact Hv)) as (Hs & Hp & Hts & Hi).
  eexists _, _, (Client.to_json r), _.
  split; [simpl; rewrite Hc; reflexivity|]. do 4 (split; [eassumption|]).
  apply Client.validate_ok_record in Hv as ->. reflexivity.
Qed.

(** C30: the same of the candidate form: a candidate submit at a time
    value [now] that the check accepts POSTs to the candidate endpoint a
    JSON body whose [timestamp] member reads back as [now] and whose
    [email] member is the e-mail field, or the empty string when the form
    has none. *)
Theorem candidate_submit_posts_timestamp pg st r :
  pg_candidate pg = Some st -> time_value_ok (pg_now pg) = true ->
  Candidate.validate (to_iso_string (pg_now pg)) (form_data (st_form st)) = Ok r ->
  exists st' body o s,
    pg_candidate (page_step pg CandidateSubmit) = Some st' /\
    st_sent st' = st_sent st ++ [(candidateFormUrl, body)] /\
    json_parse body = Some o /\
    json_get ⟪"timestamp"⟫ o = Some (JStr s) /\ parse_iso s = Some (pg_now pg) /\
    json_get ⟪"email"⟫ o = Some (JStr (or_empty (fd_get (form_data (st_form st)) "candidateEmail"))).
Proof.
  intros Hc Ht Hv. destruct (submit_timestamp st _ r Ht ltac:(exact Hv)) as (Hs & Hp & Hts & Hi).
  eexists _, _, (Candidate.to_json r), _.
  split; [simpl; rewrite Hc; reflexivity|]. do 4 (split; [eassumption|]).
  apply Candidate.candidate_validate_ok_record in Hv as ->. reflexivity.
Qed.

(** C24: on a host whose clock is on UTC, the footer shows the year the
    forms' timestamps start with (for the years 1000 to 9999 a time
    value of today has). *)
Theorem footer_year_matches_timestamp d now :
  doc_year d = true -> (1000 <= year_from_time now <= 9999)%Z ->
  pg_year_text (init 0 now d) = Some (take 4 (to_iso_string now)).
Proof.
  intros Hy Hr. cbn [init pg_year_text]. rewrite Hy.
  unfold get_full_year, local_time. rewrite Z.add_0_r, integer_to_string_four_digits by done.
  unfold to_iso_string, year_string.
  rewrite (proj2 (Z.leb_le 0 _)), (proj2 (Z.leb_le _ 9999)) by lia. simpl andb. cbn iota.
  rewrite <- (length_pad_digits 4 (year_from_time now)) at 2. by rewrite take_app_length.
Qed.

(** The client form's part of [page_step]: one handler run, a submit
    taking its timestamp from the page clock, or nothing. *)
Lemma page_step_client pg ev :
  (exists e, (forall ts, e = Submit ts -> ts = to_iso_string (pg_now pg)) /\
             pg_client (page_step pg ev) = (fun st => step st e) <$> pg_client pg) \/
  pg_client (page_step pg ev) = pg_client pg.
Proof.
  destruct ev as [| | |x|x|ms]; [right | left | right | left | right | left];
    try done; eexists; (split; [|reflexivity]); intros ts He;
    [by injection He | destruct x; discriminate | discriminate].
Qed.

(** The candidate form's part of [page_step]. *)
Lemma page_step_candidate pg ev :
  (exists e, (forall ts, e = Submit ts -> ts = to_iso_string (pg_now pg)) /\
             pg_candidate (page_step pg ev) = (fun st => step st e) <$> pg_candidate pg) \/
  pg_candidate (page_step pg ev) = pg_candidate pg.
Proof.
  destruct ev as [| | |x|x|ms]; [right | right | left | right | left | left];
    try done; eexists; (split; [|reflexivity]); intros ts He;
    [by injection He | destruct x; discriminate | discriminate].
Qed.

(** A form's controls hold JavaScript strings, and each of its POSTs goes
    to its endpoint with the JSON text of a record its checks accepted, an
    object of JavaScript strings. *)
Definition wire_ok {R} `{FormSpec R} (st : state R) : Prop :=
  controls_wf (st_form st) /\
  Forall (fun post => post.1 = form_endpoint /\
            exists ts fd r, form_validate ts fd = Ok r /\ json_object_wf (form_json r) /\
                            post.2 = json_stringify (form_json r))
         (st_sent st).

Lemma step_wire {R} `{FormSpecLaws R} (st : state R) e :
  (forall ts, e = Submit ts -> wf_jsstr ts) -> wire_ok st -> wire_ok (step st e).
Proof.
  intros Hts [Hc Hs]. destruct (step_form_sent st e) as [Hf Hsent]. split.
  - destruct Hf as [-> | ->]; [done | by apply form_reset_wf].
  - destruct Hsent as [-> | (ts & r & -> & Hv & ->)]; [done|].
    apply Forall_app_2; [done|]. constructor; [|done]. split; [done|].
    exists ts, (form_data (st_form st)), r. split; [done|]. split; [|done].
    eapply form_json_wf; [by apply Hts | by apply form_data_wf | exact Hv].
Qed.

(** What holds of any wired form of the page, given how [page_step] acts
    on its slot: the client form in [pg_client], the candidate form in
    [pg_candidate]. *)
Section Slot.
Context {R : Type} `{FormSpecLaws R}.
Variable slot : page -> option (state R).
Hypothesis slot_step : forall pg ev,
  (exists e, (forall ts, e = Submit ts -> ts = to_iso_string (pg_now pg)) /\
             slot (page_step pg ev) = (fun st => step st e) <$> slot pg) \/
  slot (page_step pg ev) = slot pg.

(** An invariant of the handler runs is one of the slot over any run of
    the page. *)
Lemma page_run_slot (P : state R -> Prop) pg evs :
  (forall st e, (forall ts, e = Submit ts -> wf_jsstr ts) -> P st -> P (step st e)) ->
  (forall st, slot pg = Some st -> P st) ->
  forall st, slot (page_run pg evs) = Some st -> P st.
Proof.
  intros HP. revert pg. induction evs as [|ev evs IH]; intros pg Hinv; [exact Hinv|].
  apply IH. intros st Hst.
  destruct (slot_step pg ev) as [(e & Hts & He) | He]; rewrite He in Hst; [|by apply Hinv].
  destruct (slot pg) as [st0|]; [|discriminate]. injection Hst as <-.
  apply HP; [|by apply Hinv]. intros ts ->%Hts. apply to_iso_string_wf.
Qed.

(** Every POST of the form, as its endpoint reads it (the UTF-8 bytes
    decoded, then [JSON.parse]), is the object of a record the checks
    accepted. *)
Lemma slot_endpoint_receives pg evs st :
  (forall st0, slot pg = Some st0 -> controls_wf (st_form st0) /\ st_sent st0 = []) ->
  slot (page_run pg evs) = Some st ->
  Forall (fun post => post.1 = form_endpoint /\
            exists ts fd r, form_validate ts fd = Ok r /\
              json_parse (from_code_points (utf8_decode (utf8_encode post.2))) = Some (form_json r))
         (st_sent st).
Proof.
  intros Hinit Hst. apply (page_run_slot wire_ok) in Hst as [_ Hs].
  - eapply Forall_impl; [exact Hs|]. intros post (Hu & ts & fd & r & Hv & Hw & ->).
    split; [done|]. exists ts, fd, r. split; [done|].
    destruct (json_stringify_text_ok _ Hw) as [Hwf Hf].
    rewrite utf8_roundtrip by (done || (eapply Forall_impl; [exact Hf | simpl; lia])).
    apply json_parse_stringify_members.
  - intros ?? Hts ?. by apply step_wire.
  - intros st0 [Hc Hs0]%Hinit. split; [done | by rewrite Hs0].
Qed.

End Slot.

(** C26: whatever events the page receives, every POST of the client
    form goes to the client endpoint with a body that parses to the object
    of a record the client checks accepted: nothing the checks refuse
    leaves the page. *)
Theorem client_posts_validated offset now d evs st :
  pg_client (page_run (init offset now d) evs) = Some st ->
  Forall (fun post => post.1 = clientFormUrl /\
            exists ts fd r, Client.validate ts fd = Ok r /\ json_parse post.2 = Some (Client.to_json r))
         (st_sent st).
Proof.
  intros Hst. change (Forall (@sent_ok _ Client.client_form) (st_sent st)). revert st Hst.
  apply (page_run_slot pg_client page_step_client (fun st => Forall sent_ok (st_sent st))).
  - intros st0 e _. apply step_sent_ok.
  - intros st0 (ctls & label & _ & ->)%wire_client_some. constructor.
Qed.

(** C28: on a page whose client form holds JavaScript strings, whatever
    events the page receives, every POST of the client form goes to the
    client endpoint, and what the endpoint reads from it (the UTF-8 bytes
    decoded, then [JSON.parse]) is the object of a record the client
    checks accepted. *)
Theorem client_endpoint_receives_validated offset now d evs st :
  (forall ctls label, doc_client_form d = Some (ctls, label) -> controls_wf ctls) ->
  pg_client (page_run (init offset now d) evs) = Some st ->
  Forall (fun post => post.1 = clientFormUrl /\
            exists ts fd r, Client.validate ts fd = Ok r /\
              json_parse (from_code_points (utf8_decode (utf8_encode post.2))) = Some (Client.to_json r))
         (st_sent st).
Proof.
  intros Hd. apply (slot_endpoint_receives pg_client page_step_client).
  intros st0 (ctls & label & Hc & ->)%wire_client_some. split; [exact (Hd _ _ Hc) | reflexivity].
Qed.

(** C29: the same of the candidate form: on a page whose candidate form
    holds JavaScript strings, whatever events the page receives, every
    POST of the candidate form goes to the candidate endpoint, and what
    the endpoint reads from it is the object of a record whose e-mail is
    empty or of the shape [a@b.c]. *)
Theorem candidate_endpoint_receives_validated offset now d evs st :
  (forall ctls label, doc_candidate_form d = Some (ctls, label) -> controls_wf ctls) ->
  pg_candidate (page_run (init offset now d) evs) = Some st ->
  Forall (fun post => post.1 = candidateFormUrl /\
            exists ts fd r, Candidate.validate ts fd = Ok r /\
              json_parse (from_code_points (utf8_decode (utf8_encode post.2))) = Some (Candidate.to_json r))
         (st_sent st).
Proof.
  intros Hd. apply (slot_endpoint_receives pg_candidate page_step_candidate).
  intros st0 (ctls & label & Hc & ->)%wire_candidate_some. split; [exact (Hd _ _ Hc) | reflexivity].
Qed.

(** ** A concrete page *)

Module Demo.

Definition client_controls : list control :=
  [text_control "companyName" ⟪"Acme"⟫; text_control "contactPerson" ⟪"Ann"⟫;
   text_control "email" ⟪"ann@example.com"⟫; text_control "phone" ⟪"555"⟫;
   text_control "city" ⟪"Pune"⟫; text_control "numResources" ⟪"3"⟫].

Definition candidate_controls : list control :=
  [text_control "fullName" ⟪"Ravi"⟫; text_control "candidatePhone" ⟪"98"⟫;
   text_control "candidateEmail" []; text_control "candidateCity" ⟪"Pune"⟫;
   text_control "primarySkill" ⟪"Welding"⟫; text_control "experienceYears" ⟪"4"⟫].

Definition doc : document :=
  {| doc_year := true; doc_menu_button := true;
     doc_menu := Some {| Menu.menu_classes := ["hidden"%string]; Menu.menu_links := 3 |};
     doc_client_form := Some (client_controls, ⟪"Send"⟫);
     doc_client_success := Some ["hidden"%string];
     doc_candidate_form := Some (candidate_controls, ⟪"Apply"⟫);
     doc_candidate_success := Some ["hidden"%string] |}.

(** 2025-11-09T10:00:00.123Z. *)
Definition now : Z := 1762682400123%Z.

Definition loaded : page := init 0 now doc.

(** The witness of C23. *)
Lemma client_submit_posts_timestamp_witness :
  pg_client loaded = Some (initial client_controls ⟪"Send"⟫ (Some ["hidden"%string])) /\
  time_value_ok (pg_now loaded) = true /\
  Client.validate (to_iso_string (pg_now loaded)) (form_data client_controls) =
    Ok (Client.build_record (to_iso_string now) (form_data client_controls)) /\
  exists st' body o s,
    pg_client (page_step loaded ClientSubmit) = Some st' /\
    st_sent st' = [(clientFormUrl, body)] /\ json_parse body = Some o /\
    json_get ⟪"timestamp"⟫ o = Some (JStr s) /\ parse_iso s = Some now /\
    json_get ⟪"email"⟫ o = Some (JStr ⟪"ann@example.com"⟫).
Proof.
  assert (Hc : pg_client loaded = Some (initial client_controls ⟪"Send"⟫ (Some ["hidden"%string])))
    by reflexivity.
  assert (Ht : time_value_ok (pg_now loaded) = true) by reflexivity.
  assert (Hv : Client.validate (to_iso_string (pg_now loaded)) (form_data client_controls) =
                 Ok (Client.build_record (to_iso_string now) (form_data client_controls)))
    by (vm_compute; reflexivity).
  split; [exact Hc|]. split; [exact Ht|]. split; [exact Hv|].
  exact (client_submit_posts_timestamp loaded _ _ Hc Ht Hv).
Defined.

(** The witness of C26: the page after one client submit. *)
Lemma client_posts_validated_witness :
  let st := step (initial client_controls ⟪"Send"⟫ (Some ["hidden"%string])) (Submit (to_iso_string now)) in
  pg_client (page_run loaded [ClientSubmit]) = Some st /\
  Forall (fun post => post.1 = clientFormUrl /\
            exists ts fd r, Client.validate ts fd = Ok r /\ json_parse post.2 = Some (Client.to_json r))
         (st_sent st).
Proof.
  intros st. assert (Hst : pg_client (page_run loaded [ClientSubmit]) = Some st) by reflexivity.
  split; [exact Hst | exact (client_posts_validated 0 now doc [ClientSubmit] st Hst)].
Defined.

(** The witness of C28: the page after one client submit. *)
Lemma client_endpoint_receives_validated_witness :
  let st := step (initial client_controls ⟪"Send"⟫ (Some ["hidden"%string])) (Submit (to_iso_string now)) in
  (forall ctls label, doc_client_form doc = Some (ctls, label) -> controls_wf ctls) /\
  pg_client (page_run loaded [ClientSubmit]) = Some st /\
  Forall (fun post => post.1 = clientFormUrl /\
            exists ts fd r, Client.validate ts fd = Ok r /\
              json_parse (from_code_points (utf8_decode (utf8_encode post.2))) = Some (Client.to_json r))
         (st_sent st).
Proof.
  intros st.
  assert (Hd : forall ctls label, doc_client_form doc = Some (ctls, label) -> controls_wf ctls).
  { intros ctls label [= <- _]. unfold controls_wf. simpl. repeat constructor. }
  assert (Hst : pg_client (page_run loaded [ClientSubmit]) = Some st) by reflexivity.
  split; [exact Hd|]. split; [exact Hst|].
  exact (client_endpoint_receives_validated 0 now doc [ClientSubmit] st Hd Hst).
Defined.

(** The witness of C29: the page after a candidate submit that leaves
    the e-mail empty. *)
Lemma candidate_endpoint_receives_validated_witness :
  let st := step (initial candidate_controls ⟪"Apply"⟫ (Some ["hidden"%string]))
                 (Submit (to_iso_string now)) in
  (forall ctls label, doc_candidate_form doc = Some (ctls, label) -> controls_wf ctls) /\
  pg_candidate (page_run loaded [CandidateSubmit]) = Some st /\
  length (st_sent st) = 1%nat /\
  Forall (fun post => post.1 = candidateFormUrl /\
            exists ts fd r, Candidate.validate ts fd = Ok r /\
              json_parse (from_code_points (utf8_decode (utf8_encode post.2))) = Some (Candidate.to_json r))
         (st_sent st).
Proof.
  intros st.
  assert (Hd : forall ctls label, doc_candidate_form doc = Some (ctls, label) -> controls_wf ctls).
  { intros ctls label [= <- _]. unfold controls_wf. simpl. repeat constructor. }
  assert (Hst : pg_candidate (page_run loaded [CandidateSubmit]) = Some st) by reflexivity.
  split; [exact Hd|]. split; [exact Hst|]. split; [vm_compute; reflexivity|].
  exact (candidate_endpoint_receives_validated 0 now doc [CandidateSubmit] st Hd Hst).
Defined.

(** The witness of C30: a candidate submit with the e-mail left empty. *)
Lemma candidate_submit_posts_timestamp_witness :
  pg_candidate loaded = Some (initial candidate_controls ⟪"Apply"⟫ (Some ["hidden"%string])) /\
  time_value_ok (pg_now loaded) = true /\
  Candidate.validate (to_iso_string (pg_now loaded)) (form_data candidate_controls) =
    Ok (Candidate.build_record (to_iso_string now) (form_data candidate_controls)) /\
  exists st' body o s,
    pg_candidate (page_step loaded CandidateSubmit) = Some st' /\
    st_sent st' = [(candidateFormUrl, body)] /\ json_parse body = Some o /\
    json_get ⟪"timestamp"⟫ o = Some (JStr s) /\ parse_iso s = Some now /\
    json_get ⟪"email"⟫ o = Some (JStr []).
Proof.
  assert (Hc : pg_candidate loaded =
                 Some (initial candidate_controls ⟪"Apply"⟫ (Some ["hidden"%string])))
    by reflexivity.
  assert (Ht : time_value_ok (pg_now loaded) = true) by reflexivity.
  assert (Hv : Candidate.validate (to_iso_string (pg_now loaded)) (form_data candidate_controls) =
                 Ok (Candidate.build_record (to_iso_string now) (form_data candidate_controls)))
    by (vm_compute; reflexivity).
  split; [exact Hc|]. split; [exact Ht|]. split; [exact Hv|].
  exact (candidate_submit_posts_timestamp loaded _ _ Hc Ht Hv).
Defined.

(** The witness of C24. *)
Lemma footer_year_matches_timestamp_witness :
  doc_year doc = true /\ (1000 <= year_from_time now <= 9999)%Z /\
  pg_year_text loaded = Some (take 4 (to_iso_string now)).
Proof.
  assert (Hr : (1000 <= year_from_time now <= 9999)%Z) by (vm_compute; split; discriminate).
  split; [reflexivity|]. split; [exact Hr|].
  exact (footer_year_matches_timestamp doc now eq_refl Hr).
Defined.

(** The footer shows the local year: on a host at UTC+05:30, half an hour
    into 2026 the footer says 2026 while a submission's timestamp still
    says 2025. *)
Example footer_year_is_local :
  pg_year_text (init 19800000 1767207600000 doc) = Some ⟪"2026"⟫ /\
  take 4 (to_iso_string 1767207600000) = ⟪"2025"⟫.
Proof. split; vm_compute; reflexivity. Qed.

End Demo.
